(** * Patient Dashboard backend: appointments, patients, users, dashboard

    A shallow embedding of the Express/Mongoose routes and models of the
    repository, with the properties of its specification stated and proved
    over the embedding.

    Conventions.
    - A JavaScript number that the routes compute with is an [option Z]:
      [None] is [NaN], and a comparison with [NaN] is [false].
    - A [Date] is its time value, milliseconds since the epoch (UTC).
    - A Mongoose collection is the list of its documents in natural order;
      [find] is [filter], [findOne] is [find].
    - A route handler is a computation over the store that either falls
      through, sends a response and returns, or throws; the [try]/[catch]
      of every handler turns a throw into the 500 envelope. *)

From Stdlib Require Import ZArith List String Ascii Bool Lia DecimalString.
From Stdlib Require Import Permutation Sorted.
Import ListNotations.

Local Open Scope string_scope.
Local Open Scope Z_scope.

(** ** JavaScript primitives *)

Module JS.

(** A number; [None] is [NaN]. *)
Definition number := option Z.

Definition NaN : number := None.

Definition add (a b : number) : number :=
  match a, b with
  | Some x, Some y => Some (x + y)
  | _, _ => None
  end.

Definition mul (a b : number) : number :=
  match a, b with
  | Some x, Some y => Some (x * y)
  | _, _ => None
  end.

(** [a < b]; false as soon as one side is [NaN]. *)
Definition lt (a b : number) : bool :=
  match a, b with
  | Some x, Some y => x <? y
  | _, _ => false
  end.

(** [a > b]. *)
Definition gt (a b : number) : bool := lt b a.

(** [Math.floor(a / d)] for integral [a] and a positive integral [d]. *)
Definition floorDiv (a : number) (d : Z) : number :=
  match a with
  | Some x => Some (x / d)
  | None => None
  end.

(** [a % d]: the remainder takes the sign of the dividend. *)
Definition rem (a : number) (d : Z) : number :=
  match a with
  | Some x => Some (Z.rem x d)
  | None => None
  end.

Definition isDigit (c : ascii) : bool :=
  ((48 <=? nat_of_ascii c) && (nat_of_ascii c <=? 57))%nat.

Definition digitVal (c : ascii) : Z := Z.of_nat (nat_of_ascii c) - 48.

(** [s.split(sep)] for a one-character separator. *)
Fixpoint split (sep : ascii) (s : string) : list string :=
  match s with
  | EmptyString => [EmptyString]
  | String c rest =>
      if Ascii.eqb c sep then EmptyString :: split sep rest
      else match split sep rest with
           | hd :: tl => String c hd :: tl
           | [] => [String c EmptyString]
           end
  end.

Fixpoint allDigits (acc : Z) (s : string) : number :=
  match s with
  | EmptyString => Some acc
  | String c rest =>
      if isDigit c then allDigits (10 * acc + digitVal c) rest else NaN
  end.

(** [Number(s)] on strings of decimal digits (the empty string is 0);
    any other character gives [NaN].  The routes apply it to the two
    halves of a stored time only, which the schema restricts to digits. *)
Definition Number (s : string) : number := allDigits 0 s.

Fixpoint leadingDigits (acc : Z) (s : string) : Z :=
  match s with
  | EmptyString => acc
  | String c rest =>
      if isDigit c then leadingDigits (10 * acc + digitVal c) rest else acc
  end.

(** [parseInt(s)]: the longest prefix of decimal digits, [NaN] when the
    string does not start with a digit. *)
Definition parseInt (s : string) : number :=
  match s with
  | EmptyString => NaN
  | String c _ => if isDigit c then Some (leadingDigits 0 s) else NaN
  end.

(** Element [i] of an array of numbers; a missing element is
    [undefined], which arithmetic turns into [NaN]. *)
Definition at_ (l : list number) (i : nat) : number :=
  match nth_error l i with
  | Some n => n
  | None => NaN
  end.

(** Element [i] of an array of strings passed to [parseInt]:
    [parseInt(undefined)] is [NaN]. *)
Definition parseIntAt (l : list string) (i : nat) : number :=
  match nth_error l i with
  | Some s => parseInt s
  | None => NaN
  end.

(** [n.toString()] for an integral number. *)
Definition toString (n : number) : string :=
  match n with
  | Some z => NilZero.string_of_int (Z.to_int z)
  | None => "NaN"
  end.

Fixpoint repeatChar (n : nat) (c : ascii) : string :=
  match n with
  | O => EmptyString
  | S k => String c (repeatChar k c)
  end.

(** [s.padStart(len, c)]. *)
Definition padStart (len : nat) (c : ascii) (s : string) : string :=
  repeatChar (len - String.length s) c ++ s.

(** Truthiness of a string: every string but the empty one. *)
Definition truthy (s : string) : bool :=
  match s with
  | EmptyString => false
  | _ => true
  end.

(** [for (let i = start; i < stop; i += step)]: the values [i] takes;
    [fuel] bounds the number of iterations. *)
Fixpoint forRange (fuel : nat) (i stop step : Z) : list Z :=
  match fuel with
  | O => []
  | S k => if i <? stop then i :: forRange k (i + step) stop step else []
  end.

(** [for (let i = start; i < stop; i += step)] for a positive [step]. *)
Definition loop (start stop step : Z) : list Z :=
  forRange (Z.to_nat (stop - start)) start stop step.

(** [arr.includes(s)] on an array of strings. *)
Definition includes (arr : list string) (s : string) : bool :=
  existsb (String.eqb s) arr.

Definition isSpace (c : ascii) : bool :=
  ((nat_of_ascii c =? 32)
   || ((9 <=? nat_of_ascii c) && (nat_of_ascii c <=? 13)))%nat.

Fixpoint trimStart (s : string) : string :=
  match s with
  | EmptyString => EmptyString
  | String c rest => if isSpace c then trimStart rest else s
  end.

Fixpoint trimEnd (s : string) : string :=
  match s with
  | EmptyString => EmptyString
  | String c rest =>
      match trimEnd rest with
      | EmptyString => if isSpace c then EmptyString else String c EmptyString
      | rest' => String c rest'
      end
  end.

(** [s.trim()] (the [trim] setter of a schema path), on ASCII text. *)
Definition trim (s : string) : string := trimEnd (trimStart s).

Definition lowerChar (c : ascii) : ascii :=
  if ((65 <=? nat_of_ascii c) && (nat_of_ascii c <=? 90))%nat
  then ascii_of_nat (nat_of_ascii c + 32)
  else c.

Fixpoint toLowerCase (s : string) : string :=
  match s with
  | EmptyString => EmptyString
  | String c rest => String (lowerChar c) (toLowerCase rest)
  end.

Definition upperChar (c : ascii) : ascii :=
  if ((97 <=? nat_of_ascii c) && (nat_of_ascii c <=? 122))%nat
  then ascii_of_nat (nat_of_ascii c - 32)
  else c.

(** [s.slice(n)] *)
Fixpoint slice (n : nat) (s : string) : string :=
  match n, s with
  | O, _ => s
  | S k, EmptyString => EmptyString
  | S k, String _ rest => slice k rest
  end.

(** [s.replace(pattern, replacement)] for a string pattern: the first
    occurrence is replaced. *)
Fixpoint replace (pattern replacement s : string) : string :=
  if String.prefix pattern s
  then replacement ++ slice (String.length pattern) s
  else match s with
       | EmptyString => EmptyString
       | String c rest => String c (replace pattern replacement rest)
       end.

Definition isHexDigit (c : ascii) : bool :=
  isDigit c
  || ((97 <=? nat_of_ascii c) && (nat_of_ascii c <=? 102))%nat
  || ((65 <=? nat_of_ascii c) && (nat_of_ascii c <=? 70))%nat.

Definition hexVal (c : ascii) : Z :=
  if isDigit c then digitVal c
  else if (97 <=? nat_of_ascii c)%nat then Z.of_nat (nat_of_ascii c) - 87
  else Z.of_nat (nat_of_ascii c) - 55.

Fixpoint leadingHex (acc : Z) (s : string) : Z :=
  match s with
  | EmptyString => acc
  | String c rest =>
      if isHexDigit c then leadingHex (16 * acc + hexVal c) rest else acc
  end.

(** [parseInt(s)] on any string: leading white space is skipped, a sign
    is read, then the longest prefix of decimal digits, or of
    hexadecimal digits after [0x]; [NaN] when no digit follows.  The
    value is exact, where a double rounds above 2^53. *)
Definition parseInteger (s : string) : number :=
  let s := trimStart s in
  let signed :=
    match s with
    | String "-" rest => (-1, rest)
    | String "+" rest => (1, rest)
    | _ => (1, s)
    end in
  let sign := fst signed in
  let digits := snd signed in
  match digits with
  | EmptyString => NaN
  | String c rest =>
      if Ascii.eqb c "0"
         && match rest with
            | String x _ => Ascii.eqb x "x" || Ascii.eqb x "X"
            | EmptyString => false
            end
      then
        match slice 2 digits with
        | String h _ =>
            if isHexDigit h then Some (sign * leadingHex 0 (slice 2 digits))
            else NaN
        | EmptyString => NaN
        end
      else if isDigit c then Some (sign * leadingDigits 0 digits)
      else NaN
  end.

(** [n || fallback] for a number: [NaN] and 0 are falsy. *)
Definition orNumber (n : number) (fallback : Z) : Z :=
  match n with
  | Some v => if v =? 0 then fallback else v
  | None => fallback
  end.

(** [Math.ceil(a / b)] for integers [a] and [b], [b] not 0. *)
Definition ceilDiv (a b : Z) : Z := - ((- a) / b).

Fixpoint insertSorted {A : Type} (leb : A -> A -> bool) (x : A)
  (l : list A) : list A :=
  match l with
  | [] => [x]
  | y :: rest => if leb x y then x :: l else y :: insertSorted leb x rest
  end.

(** A stable sort by [leb]: elements that compare equal keep their
    order. *)
Definition sortBy {A : Type} (leb : A -> A -> bool) (l : list A) : list A :=
  fold_right (insertSorted leb) [] l.

End JS.

(** ** Regular expressions of the schemas

    Both patterns of the models are anchored at both ends, so a test is a
    whole-string match; it is decided by Brzozowski derivatives. *)

Module RegExp.

Inductive t : Type :=
| Never
| Eps
| Chr (c : ascii)
| Range (lo hi : ascii)
| Seq (r s : t)
| Alt (r s : t)
| Star (r : t).

Fixpoint nullable (r : t) : bool :=
  match r with
  | Never => false
  | Eps => true
  | Chr _ => false
  | Range _ _ => false
  | Seq r s => nullable r && nullable s
  | Alt r s => nullable r || nullable s
  | Star _ => true
  end.

Fixpoint eqb (r s : t) : bool :=
  match r, s with
  | Never, Never => true
  | Eps, Eps => true
  | Chr c, Chr d => Ascii.eqb c d
  | Range a b, Range c d => Ascii.eqb a c && Ascii.eqb b d
  | Seq r1 r2, Seq s1 s2 => eqb r1 s1 && eqb r2 s2
  | Alt r1 r2, Alt s1 s2 => eqb r1 s1 && eqb r2 s2
  | Star r1, Star s1 => eqb r1 s1
  | _, _ => false
  end.

(** [s] is one of the alternatives of [r]. *)
Fixpoint offers (r s : t) : bool :=
  eqb r s
  || match r with
     | Alt a b => offers a s || offers b s
     | _ => false
     end.

Definition seq (r s : t) : t :=
  match r, s with
  | Never, _ => Never
  | _, Never => Never
  | Eps, _ => s
  | _, _ => Seq r s
  end.

(** Alternation, without repeating an alternative. *)
Definition alt (r s : t) : t :=
  match r, s with
  | Never, _ => s
  | _, Never => r
  | _, _ => if offers r s then r else if offers s r then s else Alt r s
  end.

Definition inRange (lo hi c : ascii) : bool :=
  ((nat_of_ascii lo <=? nat_of_ascii c)
   && (nat_of_ascii c <=? nat_of_ascii hi))%nat.

Fixpoint deriv (c : ascii) (r : t) : t :=
  match r with
  | Never => Never
  | Eps => Never
  | Chr d => if Ascii.eqb d c then Eps else Never
  | Range lo hi => if inRange lo hi c then Eps else Never
  | Seq r s =>
      if nullable r then alt (seq (deriv c r) s) (deriv c s)
      else seq (deriv c r) s
  | Alt r s => alt (deriv c r) (deriv c s)
  | Star r => seq (deriv c r) (Star r)
  end.

(** [/^r$/.test(s)]. *)
Fixpoint test (r : t) (s : string) : bool :=
  match s with
  | EmptyString => nullable r
  | String c rest => test (deriv c r) rest
  end.

Definition opt (r : t) : t := Alt r Eps.

Definition plus (r : t) : t := Seq r (Star r).

(** [\w]: a letter, a digit or the underscore. *)
Definition word : t :=
  Alt (Alt (Range "a" "z") (Range "A" "Z")) (Alt (Range "0" "9") (Chr "_")).

(** The strings a pattern denotes: what [test] is checked against. *)
Inductive matches : t -> string -> Prop :=
| MEps : matches Eps EmptyString
| MChr (c : ascii) : matches (Chr c) (String c EmptyString)
| MRange (lo hi c : ascii) :
    inRange lo hi c = true -> matches (Range lo hi) (String c EmptyString)
| MSeq (r s : t) (x y : string) :
    matches r x -> matches s y -> matches (Seq r s) (x ++ y)
| MAltL (r s : t) (x : string) : matches r x -> matches (Alt r s) x
| MAltR (r s : t) (x : string) : matches s x -> matches (Alt r s) x
| MStar0 (r : t) : matches (Star r) EmptyString
| MStarS (r : t) (x y : string) :
    matches r x -> matches (Star r) y -> matches (Star r) (x ++ y).

Fixpoint starFree (r : t) : bool :=
  match r with
  | Seq r s => starFree r && starFree s
  | Alt r s => starFree r && starFree s
  | Star _ => false
  | _ => true
  end.

(** The characters from [lo] to [hi]. *)
Definition chars (lo hi : ascii) : list ascii :=
  map ascii_of_nat
    (List.seq (nat_of_ascii lo) (S (nat_of_ascii hi) - nat_of_ascii lo)).

(** Every string of a pattern without a star. *)
Fixpoint words (r : t) : list string :=
  match r with
  | Never => []
  | Eps => [EmptyString]
  | Chr c => [String c EmptyString]
  | Range lo hi => map (fun c => String c EmptyString) (chars lo hi)
  | Seq r s => flat_map (fun x => map (fun y => x ++ y) (words s)) (words r)
  | Alt r s => (words r ++ words s)%list
  | Star _ => [EmptyString]
  end.

End RegExp.

(** ** Models *)

(** A Mongoose [ObjectId], as the string of its hexadecimal form. *)
Definition ObjectId := string.

(** What a write to a collection can throw. *)
Inductive Error : Type :=
| CastError
| ValidationError
| DuplicateKey.

Definition lengthAtMost (n : nat) (s : string) : bool :=
  (String.length s <=? n)%nat.

Definition optLengthAtMost (n : nat) (s : option string) : bool :=
  match s with
  | Some v => lengthAtMost n v
  | None => true
  end.

(** A [String] path with [enum]: an absent value passes. *)
Definition optEnum (values : list string) (s : option string) : bool :=
  match s with
  | Some v => JS.includes values v
  | None => true
  end.

Module User.

(** Modelled from the spec: the User model (models/User.ts) is not among
    the sources.  The fields are those of [IUser] in types/index.ts; the
    role is one of admin, doctor, nurse, staff, and handle and email are
    unique (README, Database Models).  The password is the stored bcrypt
    hash; it is rehashed on save only when the path was modified. *)
Record t : Type := mk {
  _id : ObjectId;
  username : string;
  email : string;
  password : string;
  firstName : string;
  lastName : string;
  role : string;
  isActive : bool;
  lastLogin : option Z;
  profileImage : option string;
  createdAt : Z;
  updatedAt : Z
}.

Definition roles : list string := ["admin"; "doctor"; "nurse"; "staff"].

(** Modelled from the spec: the validators of the User schema, of which
    the sources show the role enumeration and the required names. *)
Definition validate (u : t) : bool :=
  JS.truthy (username u) && JS.truthy (email u)
  && JS.truthy (firstName u) && JS.truthy (lastName u)
  && JS.includes roles (role u).

Definition eq_dec (a b : t) : {a = b} + {a <> b}.
Proof.
  repeat decide equality.
Defined.

Arguments eq_dec : simpl never.

(** The timestamps plugin on save. *)
Definition touch (now : Z) (u : t) : t :=
  mk (_id u) (username u) (email u) (password u) (firstName u)
     (lastName u) (role u) (isActive u) (lastLogin u) (profileImage u)
     (createdAt u) now.

(** [user.isActive = v]. *)
Definition setIsActive (v : bool) (u : t) : t :=
  mk (_id u) (username u) (email u) (password u) (firstName u)
     (lastName u) (role u) v (lastLogin u) (profileImage u)
     (createdAt u) (updatedAt u).

(** A document loaded with [select('-password')]: every path but the
    hash. *)
Record Profile : Type := mkProfile {
  p_id : ObjectId;
  p_username : string;
  p_email : string;
  p_firstName : string;
  p_lastName : string;
  p_role : string;
  p_isActive : bool;
  p_lastLogin : option Z;
  p_profileImage : option string;
  p_createdAt : Z;
  p_updatedAt : Z
}.

Definition withoutPassword (u : t) : Profile :=
  mkProfile (_id u) (username u) (email u) (firstName u) (lastName u)
    (role u) (isActive u) (lastLogin u) (profileImage u) (createdAt u)
    (updatedAt u).

End User.

Module Patient.

Record Address : Type := mkAddress {
  street : string;
  city : string;
  state : string;
  zipCode : string;
  country : string
}.

Record EmergencyContact : Type := mkEmergencyContact {
  ec_name : string;
  relationship : string;
  ec_phone : string;
  ec_email : option string
}.

Record MedicalHistory : Type := mkMedicalHistory {
  condition : string;
  diagnosedDate : option Z;
  mh_status : string;
  mh_notes : option string
}.

Record Medication : Type := mkMedication {
  med_name : string;
  dosage : string;
  frequency : string;
  startDate : Z;
  endDate : option Z;
  prescribedBy : string;
  med_isActive : bool
}.

Record Allergy : Type := mkAllergy {
  allergen : string;
  severity : string;
  reaction : option string
}.

Record t : Type := mk {
  _id : ObjectId;
  firstName : string;
  lastName : string;
  email : string;
  phone : string;
  dateOfBirth : Z;
  gender : string;
  address : Address;
  emergencyContact : EmergencyContact;
  medicalHistory : list MedicalHistory;
  currentMedications : list Medication;
  allergies : list Allergy;
  bloodType : option string;
  insuranceProvider : option string;
  insuranceNumber : option string;
  primaryDoctor : option ObjectId;
  isActive : bool;
  profileImage : option string;
  notes : option string;
  createdAt : Z;
  updatedAt : Z
}.

(** [/^\w+([.-]?\w+)*@\w+([.-]?\w+)*(\.\w{2,3})+$/] *)
Definition emailPattern : RegExp.t :=
  let w := RegExp.word in
  let dotOrDash := RegExp.Alt (RegExp.Chr ".") (RegExp.Chr "-") in
  let words :=
    RegExp.Seq (RegExp.plus w)
      (RegExp.Star (RegExp.Seq (RegExp.opt dotOrDash) (RegExp.plus w))) in
  let tld :=
    RegExp.Seq (RegExp.Chr ".")
      (RegExp.Seq w (RegExp.Seq w (RegExp.opt w))) in
  RegExp.Seq words
    (RegExp.Seq (RegExp.Chr "@") (RegExp.Seq words (RegExp.plus tld))).

Definition genders : list string := ["male"; "female"; "other"].

Definition bloodTypes : list string :=
  ["A+"; "A-"; "B+"; "B-"; "AB+"; "AB-"; "O+"; "O-"].

Definition validAddress (a : Address) : bool :=
  JS.truthy (street a) && JS.truthy (city a) && JS.truthy (state a)
  && JS.truthy (zipCode a).

Definition validEmergencyContact (c : EmergencyContact) : bool :=
  JS.truthy (ec_name c) && JS.truthy (relationship c)
  && JS.truthy (ec_phone c).

Definition validMedicalHistory (h : MedicalHistory) : bool :=
  JS.truthy (condition h)
  && JS.includes ["active"; "resolved"; "chronic"] (mh_status h).

Definition validMedication (m : Medication) : bool :=
  JS.truthy (med_name m) && JS.truthy (dosage m) && JS.truthy (frequency m)
  && JS.truthy (prescribedBy m).

Definition validAllergy (a : Allergy) : bool :=
  JS.truthy (allergen a)
  && JS.includes ["mild"; "moderate"; "severe"] (severity a).

(** The validators of [patientSchema]: required paths, maximal lengths,
    the email pattern and the enumerations.  [isActive] and the
    timestamps carry none. *)
Definition validate (p : t) : bool :=
  JS.truthy (firstName p) && lengthAtMost 50 (firstName p)
  && JS.truthy (lastName p) && lengthAtMost 50 (lastName p)
  && JS.truthy (email p) && RegExp.test emailPattern (email p)
  && JS.truthy (phone p)
  && JS.includes genders (gender p)
  && validAddress (address p)
  && validEmergencyContact (emergencyContact p)
  && forallb validMedicalHistory (medicalHistory p)
  && forallb validMedication (currentMedications p)
  && forallb validAllergy (allergies p)
  && optEnum bloodTypes (bloodType p)
  && optLengthAtMost 1000 (notes p).

Definition eq_dec (a b : t) : {a = b} + {a <> b}.
Proof.
  repeat decide equality.
Defined.

Arguments eq_dec : simpl never.

(** [patient.isActive = v]. *)
Definition setIsActive (v : bool) (p : t) : t :=
  mk (_id p) (firstName p) (lastName p) (email p) (phone p)
     (dateOfBirth p) (gender p) (address p) (emergencyContact p)
     (medicalHistory p) (currentMedications p) (allergies p)
     (bloodType p) (insuranceProvider p) (insuranceNumber p)
     (primaryDoctor p) v (profileImage p) (notes p)
     (createdAt p) (updatedAt p).

(** The timestamps plugin on save. *)
Definition touch (now : Z) (p : t) : t :=
  mk (_id p) (firstName p) (lastName p) (email p) (phone p)
     (dateOfBirth p) (gender p) (address p) (emergencyContact p)
     (medicalHistory p) (currentMedications p) (allergies p)
     (bloodType p) (insuranceProvider p) (insuranceNumber p)
     (primaryDoctor p) (isActive p) (profileImage p) (notes p)
     (createdAt p) now.

End Patient.

Module Appointment.

Record Prescription : Type := mkPrescription {
  medication : string;
  dosage : string;
  frequency : string;
  p_duration : string;
  instructions : option string
}.

(** The paths of [appointmentSchema] with the two timestamps.
    [duration] is a whole number of minutes, as [validateAppointment]
    asks of POST; the [Number] of the schema also takes a fraction,
    which a PUT can store and which is left out here. *)
Record t : Type := mk {
  _id : ObjectId;
  patient : ObjectId;
  doctor : ObjectId;
  type : string;
  status : string;
  date : Z;
  time : string;
  duration : Z;
  reason : string;
  notes : option string;
  symptoms : list string;
  diagnosis : option string;
  treatment : option string;
  prescriptions : list Prescription;
  followUpRequired : bool;
  followUpDate : option Z;
  createdBy : ObjectId;
  updatedBy : option ObjectId;
  createdAt : Z;
  updatedAt : Z
}.

Definition types : list string :=
  ["checkup"; "consultation"; "followup"; "emergency"; "procedure"].

Definition statuses : list string :=
  ["scheduled"; "confirmed"; "in-progress"; "completed"; "cancelled";
   "no-show"].

(** [/^([0-1]?[0-9]|2[0-3]):[0-5][0-9]$/] *)
Definition timePattern : RegExp.t :=
  RegExp.Seq
    (RegExp.Alt
       (RegExp.Seq (RegExp.opt (RegExp.Range "0" "1")) (RegExp.Range "0" "9"))
       (RegExp.Seq (RegExp.Chr "2") (RegExp.Range "0" "3")))
    (RegExp.Seq (RegExp.Chr ":")
       (RegExp.Seq (RegExp.Range "0" "5") (RegExp.Range "0" "9"))).

Definition validPrescription (p : Prescription) : bool :=
  JS.truthy (medication p) && JS.truthy (dosage p)
  && JS.truthy (frequency p) && JS.truthy (p_duration p).

(** The validators of [appointmentSchema]. *)
Definition validate (a : t) : bool :=
  JS.truthy (patient a) && JS.truthy (doctor a)
  && JS.includes types (type a)
  && JS.includes statuses (status a)
  && JS.truthy (time a) && RegExp.test timePattern (time a)
  && (15 <=? duration a) && (duration a <=? 480)
  && JS.truthy (reason a) && lengthAtMost 500 (reason a)
  && optLengthAtMost 1000 (notes a)
  && optLengthAtMost 500 (diagnosis a)
  && optLengthAtMost 1000 (treatment a)
  && forallb validPrescription (prescriptions a)
  && JS.truthy (createdBy a).

Definition eq_dec (a b : t) : {a = b} + {a <> b}.
Proof.
  repeat decide equality.
Defined.

Arguments eq_dec : simpl never.

(** The virtual [endTime]. *)
Definition endTime (a : t) : string :=
  let parts := JS.split ":" (time a) in
  let hours := JS.parseIntAt parts 0 in
  let minutes := JS.parseIntAt parts 1 in
  let startMinutes := JS.add (JS.mul hours (Some 60)) minutes in
  let endMinutes := JS.add startMinutes (Some (duration a)) in
  let endHours := JS.floorDiv endMinutes 60 in
  let endMins := JS.rem endMinutes 60 in
  JS.padStart 2 "0" (JS.toString endHours) ++ ":"
    ++ JS.padStart 2 "0" (JS.toString endMins).

(** [appointment.status = s; appointment.updatedBy = u]. *)
Definition setStatusUpdatedBy (s : string) (u : ObjectId) (a : t) : t :=
  mk (_id a) (patient a) (doctor a) (type a) s (date a) (time a)
     (duration a) (reason a) (notes a) (symptoms a) (diagnosis a)
     (treatment a) (prescriptions a) (followUpRequired a) (followUpDate a)
     (createdBy a) (Some u) (createdAt a) (updatedAt a).

(** [appointment.updatedBy = u]. *)
Definition setUpdatedBy (u : ObjectId) (a : t) : t :=
  setStatusUpdatedBy (status a) u a.

(** The timestamps plugin on save. *)
Definition touch (now : Z) (a : t) : t :=
  mk (_id a) (patient a) (doctor a) (type a) (status a) (date a) (time a)
     (duration a) (reason a) (notes a) (symptoms a) (diagnosis a)
     (treatment a) (prescriptions a) (followUpRequired a) (followUpDate a)
     (createdBy a) (updatedBy a) (createdAt a) now.

(** [status: { $nin: ['cancelled', 'no-show'] }] *)
Definition active (a : t) : bool :=
  negb (JS.includes ["cancelled"; "no-show"] (status a)).

End Appointment.

(** ** The store and the handler monad *)

Record Db : Type := mkDb {
  users : list User.t;
  patients : list Patient.t;
  appointments : list Appointment.t
}.

Inductive Collection : Type :=
| Users
| Patients
| Appointments.

(** A command sent to the datastore. *)
Inductive DbOp : Type :=
| Query (c : Collection)
| Write (c : Collection).

(** The store together with the commands issued so far, oldest first. *)
Record World : Type := mkWorld {
  db : Db;
  log : list DbOp
}.

(** The clock and the identifier generator a request reads. *)
Record Env : Type := mkEnv {
  now : Z;
  freshId : ObjectId
}.

(** [bookedSlots] entries. *)
Record BookedSlot : Type := mkBookedSlot {
  bs_time : string;
  bs_duration : Z
}.

Inductive Data : Type :=
| DataAppointment (a : Appointment.t)
| DataPatient (p : Patient.t)
| DataUser (u : User.t)
| DataAvailability (date : string) (availableSlots : list string)
    (bookedSlots : list BookedSlot).

(** The response envelope with its HTTP status. *)
Record Response : Type := mkResponse {
  statusCode : Z;
  success : bool;
  message : option string;
  data : option Data
}.

Definition failure (code : Z) (msg : string) : Response :=
  mkResponse code false (Some msg) None.

Definition internalError : Response := failure 500 "Internal server error".

Inductive Outcome (A : Type) : Type :=
| Next (a : A)
| Sent (r : Response)
| Thrown (e : Error).

Arguments Next {A} a.
Arguments Sent {A} r.
Arguments Thrown {A} e.

Definition Handler (A : Type) : Type := World -> Outcome A * World.

Definition ret {A : Type} (a : A) : Handler A := fun w => (Next a, w).

Definition bind {A B : Type} (m : Handler A) (k : A -> Handler B)
  : Handler B :=
  fun w =>
    match m w with
    | (Next a, w') => k a w'
    | (Sent r, w') => (Sent r, w')
    | (Thrown e, w') => (Thrown e, w')
    end.

(** [res.status(..).json(..); return;] *)
Definition send {A : Type} (r : Response) : Handler A := fun w => (Sent r, w).

Definition throw {A : Type} (e : Error) : Handler A :=
  fun w => (Thrown e, w).

Declare Scope handler_scope.
Delimit Scope handler_scope with handler.

Notation "x <- m ;; k" := (bind m (fun x => k))
  (at level 100, m at next level, right associativity) : handler_scope.
Notation "m ;;; k" := (bind m (fun _ => k))
  (at level 100, right associativity) : handler_scope.

Local Open Scope handler_scope.

(** [if (c) { res.status(..).json(..); return; }] *)
Definition rejectIf (c : bool) (r : Response) : Handler unit :=
  if c then send r else ret tt.

(** [try { body } catch (error) { res.status(500).json(..) }]: the
    response sent and the world left behind. *)
Definition tryCatch (body : Handler Response) (w : World)
  : Response * World :=
  match body w with
  | (Next r, w') => (r, w')
  | (Sent r, w') => (r, w')
  | (Thrown _, w') => (internalError, w')
  end.

Definition logOp (op : DbOp) (w : World) : World :=
  mkWorld (db w) (log w ++ [op]).

Definition setAppointments (l : list Appointment.t) (w : World) : World :=
  mkWorld (mkDb (users (db w)) (patients (db w)) l) (log w).

Definition setPatients (l : list Patient.t) (w : World) : World :=
  mkWorld (mkDb (users (db w)) l (appointments (db w))) (log w).

Definition setUsers (l : list User.t) (w : World) : World :=
  mkWorld (mkDb l (patients (db w)) (appointments (db w))) (log w).

(** *** Appointment collection *)

(** [Appointment.find(filter)] *)
Definition Appointment_find (p : Appointment.t -> bool)
  : Handler (list Appointment.t) :=
  fun w => (Next (filter p (appointments (db w))), logOp (Query Appointments) w).

(** [Appointment.findOne(filter)] *)
Definition Appointment_findOne (p : Appointment.t -> bool)
  : Handler (option Appointment.t) :=
  fun w => (Next (find p (appointments (db w))), logOp (Query Appointments) w).

(** [Appointment.findById(id)] *)
Definition Appointment_findById (id : ObjectId)
  : Handler (option Appointment.t) :=
  Appointment_findOne (fun a => String.eqb (Appointment._id a) id).

(** The key of the unique index [{ doctor: 1, date: 1, time: 1 }]. *)
Definition sameSlot (a b : Appointment.t) : bool :=
  String.eqb (Appointment.doctor a) (Appointment.doctor b)
  && (Appointment.date a =? Appointment.date b)
  && String.eqb (Appointment.time a) (Appointment.time b).

(** [appointment.save()] on a new document: validation, then an insert
    that the unique indexes (on [_id] and on doctor, date, time) can
    refuse. *)
Definition Appointment_insert (a : Appointment.t) : Handler unit :=
  fun w =>
    if negb (Appointment.validate a) then (Thrown ValidationError, w)
    else
      let w1 := logOp (Write Appointments) w in
      if existsb (fun b => String.eqb (Appointment._id b) (Appointment._id a)
                           || sameSlot b a)
           (appointments (db w))
      then (Thrown DuplicateKey, w1)
      else (Next tt, setAppointments (appointments (db w) ++ [a]) w1).

Definition replaceAppointment (a : Appointment.t) (l : list Appointment.t)
  : list Appointment.t :=
  map (fun b => if String.eqb (Appointment._id b) (Appointment._id a)
                then a else b) l.

(** [appointment.save()] on a loaded document [old] that the handler has
    changed into [a]: nothing is sent when no path was modified;
    otherwise validation, the [updatedAt] stamp, and an update that the
    unique index can refuse.  The document as it is stored afterwards is
    returned. *)
Definition Appointment_update (env : Env) (old a : Appointment.t)
  : Handler Appointment.t :=
  fun w =>
    if Appointment.eq_dec a old then (Next old, w)
    else if negb (Appointment.validate a) then (Thrown ValidationError, w)
    else
      let w1 := logOp (Write Appointments) w in
      if existsb (fun b => negb (String.eqb (Appointment._id b)
                                   (Appointment._id a))
                           && sameSlot b a)
           (appointments (db w))
      then (Thrown DuplicateKey, w1)
      else
        let a' := Appointment.touch (now env) a in
        (Next a',
         setAppointments (replaceAppointment a' (appointments (db w))) w1).

(** *** Patient collection *)

(** [Patient.findOne(filter)] *)
Definition Patient_findOne (p : Patient.t -> bool)
  : Handler (option Patient.t) :=
  fun w => (Next (find p (patients (db w))), logOp (Query Patients) w).

(** [patient.save()] on a new document; [email] carries a unique index. *)
Definition Patient_insert (p : Patient.t) : Handler unit :=
  fun w =>
    if negb (Patient.validate p) then (Thrown ValidationError, w)
    else
      let w1 := logOp (Write Patients) w in
      if existsb (fun q => String.eqb (Patient._id q) (Patient._id p)
                           || String.eqb (Patient.email q) (Patient.email p))
           (patients (db w))
      then (Thrown DuplicateKey, w1)
      else (Next tt, setPatients (patients (db w) ++ [p]) w1).

Definition replacePatient (p : Patient.t) (l : list Patient.t)
  : list Patient.t :=
  map (fun q => if String.eqb (Patient._id q) (Patient._id p)
                then p else q) l.

(** [patient.save()] on a loaded document [old] changed into [p]; the
    document as it is stored afterwards is returned. *)
Definition Patient_update (env : Env) (old p : Patient.t)
  : Handler Patient.t :=
  fun w =>
    if Patient.eq_dec p old then (Next old, w)
    else if negb (Patient.validate p) then (Thrown ValidationError, w)
    else
      let w1 := logOp (Write Patients) w in
      if existsb (fun q => negb (String.eqb (Patient._id q) (Patient._id p))
                           && String.eqb (Patient.email q) (Patient.email p))
           (patients (db w))
      then (Thrown DuplicateKey, w1)
      else
        let p' := Patient.touch (now env) p in
        (Next p', setPatients (replacePatient p' (patients (db w))) w1).

(** *** User collection *)

(** [User.findOne(filter)] *)
Definition User_findOne (p : User.t -> bool) : Handler (option User.t) :=
  fun w => (Next (find p (users (db w))), logOp (Query Users) w).

Definition replaceUser (u : User.t) (l : list User.t) : list User.t :=
  map (fun v => if String.eqb (User._id v) (User._id u) then u else v) l.

(** Modelled from the spec: [user.save()] on a loaded document, the User
    model being absent from the sources.  Handle and email are unique;
    the password hash is written back as it was read unless the handler
    assigned the path. *)
Definition User_update (env : Env) (old u : User.t) : Handler User.t :=
  fun w =>
    if User.eq_dec u old then (Next old, w)
    else if negb (User.validate u) then (Thrown ValidationError, w)
    else
      let w1 := logOp (Write Users) w in
      if existsb (fun v => negb (String.eqb (User._id v) (User._id u))
                           && (String.eqb (User.email v) (User.email u)
                               || String.eqb (User.username v)
                                    (User.username u)))
           (users (db w))
      then (Thrown DuplicateKey, w1)
      else
        let u' := User.touch (now env) u in
        (Next u', setUsers (replaceUser u' (users (db w))) w1).

(** ** Calendar arithmetic of [Date] *)

Module Calendar.

Definition msPerDay : Z := 24 * 60 * 60 * 1000.

(** Days from 1970-01-01 to the civil date [y]-[m]-[d] (proleptic
    Gregorian calendar, as ECMAScript's [MakeDay]). *)
Definition daysFromCivil (y m d : Z) : Z :=
  let y' := if m <=? 2 then y - 1 else y in
  let era := y' / 400 in
  let yoe := y' - era * 400 in
  let mp := if 2 <? m then m - 3 else m + 9 in
  let doy := (153 * mp + 2) / 5 + d - 1 in
  let doe := yoe * 365 + yoe / 4 - yoe / 100 + doy in
  era * 146097 + doe - 719468.

(** The civil date (year, month 1-12, day) of a day number. *)
Definition civilFromDays (z : Z) : Z * Z * Z :=
  let z' := z + 719468 in
  let era := z' / 146097 in
  let doe := z' - era * 146097 in
  let yoe := (doe - doe / 1460 + doe / 36524 - doe / 146096) / 365 in
  let doy := doe - (365 * yoe + yoe / 4 - yoe / 100) in
  let mp := (5 * doy + 2) / 153 in
  let d := doy - (153 * mp + 2) / 5 + 1 in
  let m := if mp <? 10 then mp + 3 else mp - 9 in
  ((if m <=? 2 then yoe + era * 400 + 1 else yoe + era * 400), m, d).

(** [Date.UTC(y, m - 1, d, h, mi, s, ms)] *)
Definition utc (y m d h mi s ms : Z) : Z :=
  (((daysFromCivil y m d * 24 + h) * 60 + mi) * 60 + s) * 1000 + ms.

(** [getFullYear()], [getMonth() + 1] and [getDate()] of a time value,
    the server running in UTC. *)
Definition civil (t : Z) : Z * Z * Z := civilFromDays (t / msPerDay).

Definition isLeap (y : Z) : bool :=
  ((y mod 4 =? 0) && negb (y mod 100 =? 0)) || (y mod 400 =? 0).

Definition daysInMonth (y m : Z) : Z :=
  if m =? 2 then (if isLeap y then 29 else 28)
  else if (m =? 4) || (m =? 6) || (m =? 9) || (m =? 11) then 30
  else 31.

(** [new Date(s).getTime()] for the date-only form [YYYY-MM-DD] of a
    day of the calendar, which is midnight UTC of that day; [None]
    stands for [Invalid Date].  The routes are stated over any parser;
    this one instantiates them in the examples. *)
Definition parseDateOnly (s : string) : option Z :=
  match JS.split "-" s with
  | [ys; ms; ds] =>
      if ((String.length ys =? 4) && (String.length ms =? 2)
          && (String.length ds =? 2))%nat
      then
        match JS.Number ys, JS.Number ms, JS.Number ds with
        | Some y, Some m, Some d =>
            if (1 <=? m) && (m <=? 12) && (1 <=? d)
               && (d <=? daysInMonth y m)
            then Some (utc y m d 0 0 0 0)
            else None
        | _, _, _ => None
        end
      else None
  | _ => None
  end.

(** [new Date(year, monthIndex, date)] at midnight, the server running
    in UTC: [MakeDay] carries a month index outside 0..11 over into the
    year and counts the days from the first of the month, so that day 0
    is the last day of the month before. *)
Definition makeDate (year monthIndex date : Z) : Z :=
  (daysFromCivil (year + monthIndex / 12) (monthIndex mod 12 + 1) 1
   + date - 1) * msPerDay.

(** [setHours(0, 0, 0, 0)] *)
Definition startOfDay (t : Z) : Z := t / msPerDay * msPerDay.

(** [setHours(23, 59, 59, 999)] *)
Definition endOfDay (t : Z) : Z := t / msPerDay * msPerDay + (msPerDay - 1).

End Calendar.

(** ** The error middleware *)

Module ErrorHandler.

(** What [errorHandler] reads of the error it is given.  [keyValue] is
    given by its keys, in the order [Object.keys] lists them, and
    [errors] by the messages of its values, in the order of
    [Object.values]; [None] is an absent property. *)
Record CustomError : Type := mkCustomError {
  name : string;
  message : string;
  statusCode : option Z;
  code : option Z;
  keyValue : option (list string);
  errors : option (list string);
  stack : option string
}.

(** The object [error] that the handler rebuilds: its message and its
    status are all the answer reads. *)
Record Shown : Type := mkShown {
  shownMessage : string;
  shownStatus : option Z
}.

(** The answer: the status and the JSON body. *)
Record Answer : Type := mkAnswer {
  status : Z;
  success : bool;
  bodyMessage : string;
  bodyStack : option string
}.

(** [field?.charAt(0).toUpperCase() + field?.slice(1)] inside the
    template literal: without a field both operands are [undefined],
    and their sum is [NaN]. *)
Definition capitalized (field : option string) : string :=
  match field with
  | None => "NaN"
  | Some EmptyString => EmptyString
  | Some (String c rest) => String (JS.upperChar c) (JS.slice 1 (String c rest))
  end.

(** [Object.keys(err.keyValue || {})[0]] *)
Definition firstKey (err : CustomError) : option string :=
  match keyValue err with
  | Some (k :: _) => Some k
  | _ => None
  end.

Definition errorHandler (nodeEnv : option string) (err : CustomError)
  : Answer :=
  let error := mkShown (message err) (statusCode err) in
  let error :=
    if String.eqb (name err) "CastError"
    then mkShown "Resource not found" (Some 404) else error in
  let error :=
    if match code err with Some c => c =? 11000 | None => false end
    then mkShown (capitalized (firstKey err) ++ " already exists") (Some 400)
    else error in
  let error :=
    if String.eqb (name err) "ValidationError"
    then mkShown (String.concat ", "
                    (match errors err with Some l => l | None => [] end))
           (Some 400)
    else error in
  let error :=
    if String.eqb (name err) "JsonWebTokenError"
    then mkShown "Invalid token" (Some 401) else error in
  let error :=
    if String.eqb (name err) "TokenExpiredError"
    then mkShown "Token expired" (Some 401) else error in
  mkAnswer
    (match shownStatus error with
     | Some n => if n =? 0 then 500 else n
     | None => 500
     end)
    false
    (if JS.truthy (shownMessage error) then shownMessage error
     else "Server Error")
    (match nodeEnv with
     | Some v => if String.eqb v "development" then stack err else None
     | None => None
     end).

End ErrorHandler.

(** ** Request bodies *)

(** The body of POST /appointments as it reaches the handler:
    [validateAppointmentCreation] has answered 400 unless the seven
    required fields are present.  [createdBy] is overwritten by the
    handler and therefore left out. *)
Record NewAppointmentBody : Type := mkNewAppointmentBody {
  n_patient : ObjectId;
  n_doctor : ObjectId;
  n_type : string;
  n_date : string;
  n_time : string;
  n_duration : Z;
  n_reason : string;
  n_status : option string;
  n_notes : option string;
  n_symptoms : option (list string);
  n_diagnosis : option string;
  n_treatment : option string;
  n_prescriptions : option (list Appointment.Prescription);
  n_followUpRequired : option bool;
  n_followUpDate : option string;
  n_updatedBy : option ObjectId
}.

(** The body of PUT /appointments/:id: any subset of the paths. *)
Record AppointmentBody : Type := mkAppointmentBody {
  b_patient : option ObjectId;
  b_doctor : option ObjectId;
  b_type : option string;
  b_status : option string;
  b_date : option string;
  b_time : option string;
  b_duration : option Z;
  b_reason : option string;
  b_notes : option string;
  b_symptoms : option (list string);
  b_diagnosis : option string;
  b_treatment : option string;
  b_prescriptions : option (list Appointment.Prescription);
  b_followUpRequired : option bool;
  b_followUpDate : option string;
  b_createdBy : option ObjectId;
  b_updatedBy : option ObjectId
}.

(** The body of POST /patients and PUT /patients/:id as it reaches the
    handler: [validatePatientCreation] has answered 400 unless the six
    required fields are present, and has applied its sanitizers. *)
Record PatientBody : Type := mkPatientBody {
  pb_firstName : string;
  pb_lastName : string;
  pb_email : string;
  pb_phone : string;
  pb_dateOfBirth : string;
  pb_gender : string;
  pb_address : option Patient.Address;
  pb_emergencyContact : option Patient.EmergencyContact;
  pb_medicalHistory : option (list Patient.MedicalHistory);
  pb_currentMedications : option (list Patient.Medication);
  pb_allergies : option (list Patient.Allergy);
  pb_bloodType : option string;
  pb_insuranceProvider : option string;
  pb_insuranceNumber : option string;
  pb_primaryDoctor : option ObjectId;
  pb_isActive : option bool;
  pb_profileImage : option string;
  pb_notes : option string
}.

(** The body of PUT /users/:id: any subset of the paths. *)
Record UserBody : Type := mkUserBody {
  ub_username : option string;
  ub_email : option string;
  ub_password : option string;
  ub_firstName : option string;
  ub_lastName : option string;
  ub_role : option string;
  ub_isActive : option bool;
  ub_profileImage : option string
}.

(** Truthiness of a field that is absent or a string. *)
Definition truthyField (f : option string) : bool :=
  match f with
  | Some s => JS.truthy s
  | None => false
  end.

(** [field || fallback] *)
Definition orElse (f : option string) (fallback : string) : string :=
  if truthyField f then match f with Some s => s | None => fallback end
  else fallback.

(** A path of the document after [Object.assign]: the body's value when
    the body has the key. *)
Definition assigned {A : Type} (f : option A) (current : A) : A :=
  match f with
  | Some v => v
  | None => current
  end.

Definition isNone {A : Type} (o : option A) : bool :=
  match o with
  | Some _ => false
  | None => true
  end.

Definition isSome {A : Type} (o : option A) : bool := negb (isNone o).

(** ** Derived ages *)

(** The virtual [age] of a patient, read at time [today]. *)
Definition Patient_age (today : Z) (p : Patient.t) : Z :=
  let '(todayYear, todayMonth, todayDate) := Calendar.civil today in
  let '(birthYear, birthMonth, birthDay) :=
    Calendar.civil (Patient.dateOfBirth p) in
  let age := todayYear - birthYear in
  let monthDiff := todayMonth - birthMonth in
  if (monthDiff <? 0) || ((monthDiff =? 0) && (todayDate <? birthDay))
  then age - 1 else age.

(** *** GET /api/dashboard/stats: the age distribution *)

(** [365.25 * 24 * 60 * 60 * 1000] *)
Definition msPerYear : Z := 31557600000.

(** The [$addFields] stage: [$floor] of [$divide] of the difference of
    the two dates, in milliseconds, by [msPerYear].  The quotient of the
    doubles and the integer quotient have the same floor: the dividend is
    integral, so the quotient is an integer or at least [1 / msPerYear]
    away from one. *)
Definition aggregateAge (today : Z) (p : Patient.t) : Z :=
  (today - Patient.dateOfBirth p) / msPerYear.

(** The [$switch] of the [$group] stage. *)
Definition ageBracket (age : Z) : string :=
  if age <? 18 then "0-17"
  else if age <? 35 then "18-34"
  else if age <? 50 then "35-49"
  else if age <? 65 then "50-64"
  else "65+".

Fixpoint increment (key : string) (groups : list (string * Z))
  : list (string * Z) :=
  match groups with
  | [] => [(key, 1)]
  | (k, n) :: rest =>
      if String.eqb k key then (k, n + 1) :: rest
      else (k, n) :: increment key rest
  end.

(** [$group] with [count: { $sum: 1 }]: one entry per key, in the order
    the keys first occur. *)
Definition groupCount (keys : list string) : list (string * Z) :=
  fold_left (fun groups key => increment key groups) keys [].

(** The [ageDistribution] aggregate, the pipeline reading the clock at
    [today]. *)
Definition ageDistribution (today : Z) (store : Db) : list (string * Z) :=
  groupCount
    (map (fun p => ageBracket (aggregateAge today p))
       (filter Patient.isActive (patients store))).

(** The count of a bracket in the aggregate; a bracket without patients
    has no entry. *)
Definition bracketCount (bracket : string) (groups : list (string * Z)) : Z :=
  match find (fun g => String.eqb (fst g) bracket) groups with
  | Some g => snd g
  | None => 0
  end.

(** ** A sample store *)

Module Sample.

Definition admin : User.t :=
  User.mk "64b000000000000000000001" "root" "root@clinic.org" "$2a$12$h0"
    "Ada" "Root" "admin" true None None 0 0.

Definition doctor : User.t :=
  User.mk "64b000000000000000000002" "drgrey" "grey@clinic.org"
    "$2a$12$h1" "Meredith" "Grey" "doctor" true None None 0 0.

Definition staff : User.t :=
  User.mk "64b000000000000000000003" "desk" "desk@clinic.org"
    "$2a$12$h2" "Dana" "Desk" "staff" true None None 0 0.

Definition patient : Patient.t :=
  Patient.mk "64c000000000000000000001" "John" "Doe" "john.doe@mail.com"
    "555-0100" 983404800000 "male"
    (Patient.mkAddress "1 Main St" "Springfield" "IL" "62701" "United States")
    (Patient.mkEmergencyContact "Jane Doe" "spouse" "555-0101" None)
    [] [] [] (Some "O+") None None None true None None 1000 1000.

(** 2024-02-01, midnight UTC. *)
Definition day : Z := 1706745600000.

Definition appointmentAt (id : ObjectId) (status time : string)
  (duration : Z) : Appointment.t :=
  Appointment.mk id (Patient._id patient) (User._id doctor) "checkup"
    status day time duration "annual checkup" None [] None None [] false
    None (User._id admin) None 2000 2000.

Definition tenOClock : Appointment.t :=
  appointmentAt "64d000000000000000000001" "scheduled" "10:00" 60.

Definition elevenOClock : Appointment.t :=
  appointmentAt "64d000000000000000000002" "confirmed" "11:00" 30.

Definition store : Db :=
  mkDb [admin; doctor; staff] [patient] [tenOClock; elevenOClock].

Definition emptyStore : Db := mkDb [admin; doctor; staff] [patient] [].

Definition world : World := mkWorld store [].

Definition emptyWorld : World := mkWorld emptyStore [].

Definition env : Env := mkEnv 5000 "64d0000000000000000000aa".

Definition laterEnv : Env := mkEnv 9000 "64d0000000000000000000bb".

(** A booking of the sample doctor and patient on 2024-02-01. *)
Definition booking (time : string) (duration : Z) : NewAppointmentBody :=
  mkNewAppointmentBody (Patient._id patient) (User._id doctor) "checkup"
    "2024-02-01" time duration "annual checkup" None None None None None
    None None None None.

(** An update that moves an appointment to another time. *)
Definition moveTo (time : string) : AppointmentBody :=
  mkAppointmentBody None None None None None (Some time) None None None
    None None None None None None None None.

(** The sample patient, born at midnight UTC of the given day. *)
Definition bornOn (y m d : Z) : Patient.t :=
  Patient.mk "64c000000000000000000002" "Erin" "Young"
    "erin.young@mail.com" "555-0102" (Calendar.utc y m d 0 0 0 0) "female"
    (Patient.mkAddress "2 Main St" "Springfield" "IL" "62701" "United States")
    (Patient.mkEmergencyContact "Pat Young" "parent" "555-0103" None)
    [] [] [] None None None None true None None 1000 1000.

(** An appointment that starts at 23:30 and lasts an hour. *)
Definition lateAppointment : Appointment.t :=
  appointmentAt "64d000000000000000000003" "scheduled" "23:30" 60.

(** A world with the appointments of [world] and nothing else in
    common with it. *)
Definition otherWorld : World :=
  mkWorld (mkDb [admin] [] [tenOClock; elevenOClock])
    [Query Users; Write Patients].

(** A body that carries only an empty role. *)
Definition emptyRole : UserBody :=
  mkUserBody None None None None None (Some "") None None.

(** A body that asks for the admin role and a new password. *)
Definition escalation : UserBody :=
  mkUserBody None None (Some "hunter2") None None (Some "admin") None None.

End Sample.

(** ** Routes *)

Section Routes.

(** [new Date(s).getTime()]; [None] stands for [Invalid Date]. *)
Variable parseDate : string -> option Z.

(** A date string used in a filter or assigned to a [Date] path:
    Mongoose refuses an invalid date with a [CastError]. *)
Definition castDate (s : string) : Handler Z :=
  match parseDate s with
  | Some d => ret d
  | None => throw CastError
  end.

Definition castOptDate (s : option string) : option (option Z) :=
  match s with
  | None => Some None
  | Some v =>
      match parseDate v with
      | Some d => Some (Some d)
      | None => None
      end
  end.

(** *** GET /api/appointments/doctor/:doctorId/availability *)

Record WorkingHours : Type := mkWorkingHours {
  start : Z;
  end_ : Z;
  slotDuration : Z
}.

Definition workingHours : WorkingHours := mkWorkingHours 9 17 30.

Definition timeSlot (hour minute : Z) : string :=
  JS.padStart 2 "0" (JS.toString (Some hour)) ++ ":"
    ++ JS.padStart 2 "0" (JS.toString (Some minute)).

(** The callback of [appointments.some]. *)
Definition slotConflict (hour minute : Z) (apt : Appointment.t) : bool :=
  let aptStart := Appointment.time apt in
  let parts := map JS.Number (JS.split ":" aptStart) in
  let aptHour := JS.at_ parts 0 in
  let aptMinute := JS.at_ parts 1 in
  let aptStartMinutes := JS.add (JS.mul aptHour (Some 60)) aptMinute in
  let aptEndMinutes :=
    JS.add aptStartMinutes (Some (Appointment.duration apt)) in
  let slotStartMinutes := Some (hour * 60 + minute) in
  let slotEndMinutes :=
    JS.add slotStartMinutes (Some (slotDuration workingHours)) in
  JS.lt slotStartMinutes aptEndMinutes
  && JS.gt slotEndMinutes aptStartMinutes.

(** The two nested loops filling [availableSlots]. *)
Definition availableSlots (appointments : list Appointment.t)
  : list string :=
  flat_map
    (fun hour =>
       flat_map
         (fun minute =>
            let hasConflict := existsb (slotConflict hour minute) appointments in
            if negb hasConflict then [timeSlot hour minute] else [])
         (JS.loop 0 60 (slotDuration workingHours)))
    (JS.loop (start workingHours) (end_ workingHours) 1).

Definition bookedSlots (appointments : list Appointment.t)
  : list BookedSlot :=
  map (fun apt => mkBookedSlot (Appointment.time apt)
                    (Appointment.duration apt)) appointments.

(** The filter of the availability query. *)
Definition onDoctorDate (doctorId : ObjectId) (d : Z) (a : Appointment.t)
  : bool :=
  String.eqb (Appointment.doctor a) doctorId
  && (Appointment.date a =? d)
  && Appointment.active a.

Definition getAvailability (doctorId : ObjectId) (date : option string)
  (w : World) : Response * World :=
  tryCatch
    (rejectIf (negb (truthyField date)) (failure 400 "Date is required") ;;;
     let date := orElse date "" in
     d <- castDate date ;;
     appointments <- Appointment_find (onDoctorDate doctorId d) ;;
     ret (mkResponse 200 true None
            (Some (DataAvailability date (availableSlots appointments)
                     (bookedSlots appointments)))))
    w.

(** *** POST /api/appointments *)

(** [new Appointment({ ...req.body, createdBy: req.user._id })] with
    the defaults of the schema; [None] when a date of the body does not
    cast, which [save] reports as a validation error. *)
Definition newAppointment (env : Env) (user : User.t)
  (body : NewAppointmentBody) : option Appointment.t :=
  match parseDate (n_date body), castOptDate (n_followUpDate body) with
  | Some d, Some followUp =>
      Some (Appointment.mk (freshId env) (n_patient body) (n_doctor body)
              (n_type body) (assigned (n_status body) "scheduled") d
              (n_time body) (n_duration body) (n_reason body)
              (n_notes body)
              (map JS.trim (assigned (n_symptoms body) []))
              (n_diagnosis body) (n_treatment body)
              (assigned (n_prescriptions body) [])
              (assigned (n_followUpRequired body) false) followUp
              (User._id user) (n_updatedBy body) (now env) (now env))
  | _, _ => None
  end.

(** The filter of the conflict check. *)
Definition conflictsWith (doctorId : ObjectId) (d : Z) (time : string)
  (a : Appointment.t) : bool :=
  String.eqb (Appointment.doctor a) doctorId
  && (Appointment.date a =? d)
  && String.eqb (Appointment.time a) time
  && Appointment.active a.

Definition notAvailable : Response :=
  failure 400 "Doctor is not available at this time".

Definition postAppointment (env : Env) (user : User.t)
  (body : NewAppointmentBody) (w : World) : Response * World :=
  tryCatch
    (let patientId := n_patient body in
     let doctorId := n_doctor body in
     let date := n_date body in
     let time := n_time body in
     patient <- Patient_findOne
                  (fun p => String.eqb (Patient._id p) patientId
                            && Patient.isActive p) ;;
     rejectIf (isNone patient) (failure 400 "Patient not found") ;;;
     doctor <- User_findOne
                 (fun u => String.eqb (User._id u) doctorId
                           && User.isActive u
                           && JS.includes ["doctor"; "admin"] (User.role u)) ;;
     rejectIf (isNone doctor) (failure 400 "Doctor not found") ;;;
     d <- castDate date ;;
     conflictingAppointment <-
       Appointment_findOne (conflictsWith doctorId d time) ;;
     rejectIf (isSome conflictingAppointment) notAvailable ;;;
     match newAppointment env user body with
     | None => throw ValidationError
     | Some appointment =>
         Appointment_insert appointment ;;;
         ret (mkResponse 201 true (Some "Appointment created successfully")
                (Some (DataAppointment appointment)))
     end)
    w.

(** *** PUT /api/appointments/:id *)

(** [Object.assign(appointment, req.body)]; [None] when a date of the
    body does not cast. *)
Definition assignAppointment (a : Appointment.t) (body : AppointmentBody)
  : option Appointment.t :=
  match castOptDate (b_date body), castOptDate (b_followUpDate body) with
  | Some d, Some followUp =>
      Some (Appointment.mk (Appointment._id a)
              (assigned (b_patient body) (Appointment.patient a))
              (assigned (b_doctor body) (Appointment.doctor a))
              (assigned (b_type body) (Appointment.type a))
              (assigned (b_status body) (Appointment.status a))
              (assigned d (Appointment.date a))
              (assigned (b_time body) (Appointment.time a))
              (assigned (b_duration body) (Appointment.duration a))
              (assigned (b_reason body) (Appointment.reason a))
              (match b_notes body with
               | Some v => Some v
               | None => Appointment.notes a
               end)
              (match b_symptoms body with
               | Some l => map JS.trim l
               | None => Appointment.symptoms a
               end)
              (match b_diagnosis body with
               | Some v => Some v
               | None => Appointment.diagnosis a
               end)
              (match b_treatment body with
               | Some v => Some v
               | None => Appointment.treatment a
               end)
              (assigned (b_prescriptions body) (Appointment.prescriptions a))
              (assigned (b_followUpRequired body)
                 (Appointment.followUpRequired a))
              (match b_followUpDate body with
               | Some _ => followUp
               | None => Appointment.followUpDate a
               end)
              (assigned (b_createdBy body) (Appointment.createdBy a))
              (match b_updatedBy body with
               | Some v => Some v
               | None => Appointment.updatedBy a
               end)
              (Appointment.createdAt a) (Appointment.updatedAt a))
  | _, _ => None
  end.

(** The filter of the conflict check of an update: the appointment
    being updated is excluded. *)
Definition conflictsWithOther (id : ObjectId) (doctorId : ObjectId)
  (d : Z) (time : string) (a : Appointment.t) : bool :=
  negb (String.eqb (Appointment._id a) id)
  && conflictsWith doctorId d time a.

(** The block [// Update appointment]: assign the body, stamp
    [updatedBy], save, answer. *)
Definition assignAndSave (env : Env) (user : User.t)
  (appointment : Appointment.t) (body : AppointmentBody)
  : Handler Response :=
  match assignAppointment appointment body with
  | None => throw ValidationError
  | Some updated =>
      saved <- Appointment_update env appointment
                 (Appointment.setUpdatedBy (User._id user) updated) ;;
      ret (mkResponse 200 true (Some "Appointment updated successfully")
             (Some (DataAppointment saved)))
  end.

Definition putAppointment (env : Env) (user : User.t) (id : ObjectId)
  (body : AppointmentBody) (w : World) : Response * World :=
  tryCatch
    (found <- Appointment_findById id ;;
     match found with
     | None => send (failure 404 "Appointment not found")
     | Some appointment =>
         (if truthyField (b_date body) || truthyField (b_time body)
             || truthyField (b_doctor body)
          then
            newDate <- (if truthyField (b_date body)
                        then castDate (orElse (b_date body) "")
                        else ret (Appointment.date appointment)) ;;
            let newTime := orElse (b_time body) (Appointment.time appointment) in
            let newDoctor :=
              orElse (b_doctor body) (Appointment.doctor appointment) in
            conflictingAppointment <-
              Appointment_findOne
                (conflictsWithOther id newDoctor newDate newTime) ;;
            rejectIf (isSome conflictingAppointment) notAvailable
          else ret tt) ;;;
         assignAndSave env user appointment body
     end)
    w.

(** *** DELETE /api/appointments/:id *)

Definition deleteAppointment (env : Env) (user : User.t) (id : ObjectId)
  (w : World) : Response * World :=
  tryCatch
    (found <- Appointment_findById id ;;
     match found with
     | None => send (failure 404 "Appointment not found")
     | Some appointment =>
         _ <- Appointment_update env appointment
                (Appointment.setStatusUpdatedBy "cancelled" (User._id user)
                   appointment) ;;
         ret (mkResponse 200 true
                (Some "Appointment cancelled successfully") None)
     end)
    w.

(** *** Patients *)

(** The setters of the nested schemas. *)
Definition castAddress (a : Patient.Address) : Patient.Address :=
  Patient.mkAddress (JS.trim (Patient.street a)) (JS.trim (Patient.city a))
    (JS.trim (Patient.state a)) (JS.trim (Patient.zipCode a))
    (Patient.country a).

Definition castEmergencyContact (c : Patient.EmergencyContact)
  : Patient.EmergencyContact :=
  Patient.mkEmergencyContact (JS.trim (Patient.ec_name c))
    (JS.trim (Patient.relationship c)) (JS.trim (Patient.ec_phone c))
    (option_map (fun e => JS.toLowerCase (JS.trim e)) (Patient.ec_email c)).

Definition castMedication (m : Patient.Medication) : Patient.Medication :=
  Patient.mkMedication (JS.trim (Patient.med_name m)) (Patient.dosage m)
    (Patient.frequency m) (Patient.startDate m) (Patient.endDate m)
    (Patient.prescribedBy m) (Patient.med_isActive m).

(** [new Patient(req.body)] with the setters and defaults of the
    schema; [None] when a required sub-document is missing or the birth
    date does not cast, which [save] reports as a validation error. *)
Definition newPatient (env : Env) (body : PatientBody)
  : option Patient.t :=
  match parseDate (pb_dateOfBirth body), pb_address body,
        pb_emergencyContact body with
  | Some birth, Some addr, Some contact =>
      Some (Patient.mk (freshId env)
              (JS.trim (pb_firstName body)) (JS.trim (pb_lastName body))
              (JS.toLowerCase (JS.trim (pb_email body)))
              (JS.trim (pb_phone body)) birth (pb_gender body)
              (castAddress addr) (castEmergencyContact contact)
              (assigned (pb_medicalHistory body) [])
              (map castMedication (assigned (pb_currentMedications body) []))
              (assigned (pb_allergies body) [])
              (pb_bloodType body)
              (option_map JS.trim (pb_insuranceProvider body))
              (option_map JS.trim (pb_insuranceNumber body))
              (pb_primaryDoctor body)
              (assigned (pb_isActive body) true)
              (pb_profileImage body) (pb_notes body)
              (now env) (now env))
  | _, _, _ => None
  end.

(** [Object.assign(patient, req.body)] *)
Definition assignPatient (p : Patient.t) (body : PatientBody)
  : option Patient.t :=
  match parseDate (pb_dateOfBirth body) with
  | Some birth =>
      Some (Patient.mk (Patient._id p)
              (JS.trim (pb_firstName body)) (JS.trim (pb_lastName body))
              (JS.toLowerCase (JS.trim (pb_email body)))
              (JS.trim (pb_phone body)) birth (pb_gender body)
              (match pb_address body with
               | Some a => castAddress a
               | None => Patient.address p
               end)
              (match pb_emergencyContact body with
               | Some c => castEmergencyContact c
               | None => Patient.emergencyContact p
               end)
              (assigned (pb_medicalHistory body) (Patient.medicalHistory p))
              (match pb_currentMedications body with
               | Some l => map castMedication l
               | None => Patient.currentMedications p
               end)
              (assigned (pb_allergies body) (Patient.allergies p))
              (match pb_bloodType body with
               | Some v => Some v
               | None => Patient.bloodType p
               end)
              (match pb_insuranceProvider body with
               | Some v => Some (JS.trim v)
               | None => Patient.insuranceProvider p
               end)
              (match pb_insuranceNumber body with
               | Some v => Some (JS.trim v)
               | None => Patient.insuranceNumber p
               end)
              (match pb_primaryDoctor body with
               | Some v => Some v
               | None => Patient.primaryDoctor p
               end)
              (assigned (pb_isActive body) (Patient.isActive p))
              (match pb_profileImage body with
               | Some v => Some v
               | None => Patient.profileImage p
               end)
              (match pb_notes body with
               | Some v => Some v
               | None => Patient.notes p
               end)
              (Patient.createdAt p) (Patient.updatedAt p))
  | None => None
  end.

(** The filter [{ _id: req.params.id, isActive: true }]. *)
Definition activePatient (id : ObjectId) (p : Patient.t) : bool :=
  String.eqb (Patient._id p) id && Patient.isActive p.

Definition patientNotFound : Response := failure 404 "Patient not found".

(** GET /api/patients/:id *)
Definition getPatient (id : ObjectId) (w : World) : Response * World :=
  tryCatch
    (patient <- Patient_findOne (activePatient id) ;;
     match patient with
     | None => send patientNotFound
     | Some patient => ret (mkResponse 200 true None (Some (DataPatient patient)))
     end)
    w.

(** POST /api/patients *)
Definition postPatient (env : Env) (body : PatientBody) (w : World)
  : Response * World :=
  tryCatch
    (existingPatient <-
       Patient_findOne (fun p => String.eqb (Patient.email p) (pb_email body)
                                 && Patient.isActive p) ;;
     rejectIf (isSome existingPatient)
       (failure 400 "Patient with this email already exists") ;;;
     match newPatient env body with
     | None => throw ValidationError
     | Some patient =>
         Patient_insert patient ;;;
         ret (mkResponse 201 true (Some "Patient created successfully")
                (Some (DataPatient patient)))
     end)
    w.

(** PUT /api/patients/:id *)
Definition putPatient (env : Env) (id : ObjectId) (body : PatientBody)
  (w : World) : Response * World :=
  tryCatch
    (found <- Patient_findOne (activePatient id) ;;
     match found with
     | None => send patientNotFound
     | Some patient =>
         (if negb (String.eqb (pb_email body) (Patient.email patient))
          then
            existingPatient <-
              Patient_findOne
                (fun p => String.eqb (Patient.email p) (pb_email body)
                          && negb (String.eqb (Patient._id p) id)
                          && Patient.isActive p) ;;
            rejectIf (isSome existingPatient)
              (failure 400 "Patient with this email already exists")
          else ret tt) ;;;
         match assignPatient patient body with
         | None => throw ValidationError
         | Some updated =>
             saved <- Patient_update env patient updated ;;
             ret (mkResponse 200 true (Some "Patient updated successfully")
                    (Some (DataPatient saved)))
         end
     end)
    w.

(** DELETE /api/patients/:id *)
Definition deletePatient (env : Env) (id : ObjectId) (w : World)
  : Response * World :=
  tryCatch
    (found <- Patient_findOne (activePatient id) ;;
     match found with
     | None => send patientNotFound
     | Some patient =>
         _ <- Patient_update env patient (Patient.setIsActive false patient) ;;
         ret (mkResponse 200 true (Some "Patient deleted successfully") None)
     end)
    w.

(** *** PUT /api/users/:id *)

(** [delete req.body.role] *)
Definition deleteRole (body : UserBody) : UserBody :=
  mkUserBody (ub_username body) (ub_email body) (ub_password body)
    (ub_firstName body) (ub_lastName body) None (ub_isActive body)
    (ub_profileImage body).

(** [delete req.body.password] *)
Definition deletePassword (body : UserBody) : UserBody :=
  mkUserBody (ub_username body) (ub_email body) None
    (ub_firstName body) (ub_lastName body) (ub_role body) (ub_isActive body)
    (ub_profileImage body).

(** The two statements that strip the body before it is assigned. *)
Definition sanitizeUserBody (caller : User.t) (body : UserBody) : UserBody :=
  let body :=
    if negb (String.eqb (User.role caller) "admin")
       && truthyField (ub_role body)
    then deleteRole body else body in
  deletePassword body.

(** [Object.assign(user, req.body)] *)
Definition assignUser (u : User.t) (body : UserBody) : User.t :=
  User.mk (User._id u)
    (assigned (ub_username body) (User.username u))
    (assigned (ub_email body) (User.email u))
    (assigned (ub_password body) (User.password u))
    (assigned (ub_firstName body) (User.firstName u))
    (assigned (ub_lastName body) (User.lastName u))
    (assigned (ub_role body) (User.role u))
    (assigned (ub_isActive body) (User.isActive u))
    (User.lastLogin u)
    (match ub_profileImage body with
     | Some v => Some v
     | None => User.profileImage u
     end)
    (User.createdAt u) (User.updatedAt u).

(** [req.params.id] as a query on [_id] casts it.  Mongoose takes a
    string of 24 hexadecimal digits, in either case, for the [ObjectId]
    that prints those digits in lower case; any other string is a
    [CastError].  [validateObjectId] stands before the handlers and lets
    24 characters through whether they cast or not (its test also takes
    a leading [0x] or [0h]). *)
Definition castId (s : string) : option ObjectId :=
  if ((String.length s =? 24)%nat
      && forallb JS.isHexDigit (list_ascii_of_string s))
  then Some (JS.toLowerCase s)
  else None.

(** The cast at the head of a query on [_id]. *)
Definition castParam (s : string) : Handler ObjectId :=
  match castId s with
  | Some id => ret id
  | None => throw CastError
  end.

(** PUT /api/users/:id.  The queries cast [req.params.id]; the
    permission check compares [req.user._id.toString()] with the string
    as it was sent. *)
Definition putUser (env : Env) (caller : User.t) (id : string)
  (body : UserBody) (w : World) : Response * World :=
  tryCatch
    (oid <- castParam id ;;
     found <- User_findOne (fun u => String.eqb (User._id u) oid
                                     && User.isActive u) ;;
     match found with
     | None => send (failure 404 "User not found")
     | Some user =>
         rejectIf (negb (String.eqb (User.role caller) "admin")
                   && negb (String.eqb (User._id caller) id))
           (failure 403 "Access denied") ;;;
         let body := sanitizeUserBody caller body in
         (if truthyField (ub_email body)
             && negb (String.eqb (orElse (ub_email body) "") (User.email user))
          then
            existingUser <-
              User_findOne
                (fun u => String.eqb (User.email u) (orElse (ub_email body) "")
                          && negb (String.eqb (User._id u) oid)
                          && User.isActive u) ;;
            rejectIf (isSome existingUser)
              (failure 400 "User with this email already exists")
          else ret tt) ;;;
         (if truthyField (ub_username body)
             && negb (String.eqb (orElse (ub_username body) "")
                        (User.username user))
          then
            existingUser <-
              User_findOne
                (fun u => String.eqb (User.username u)
                            (orElse (ub_username body) "")
                          && negb (String.eqb (User._id u) oid)
                          && User.isActive u) ;;
            rejectIf (isSome existingUser)
              (failure 400 "Username already taken")
          else ret tt) ;;;
         saved <- User_update env user (assignUser user body) ;;
         ret (mkResponse 200 true (Some "User updated successfully")
                (Some (DataUser saved)))
     end)
    w.

(** The filter [{ _id: req.params.id, isActive: true }], the identifier
    cast. *)
Definition activeUser (id : ObjectId) (u : User.t) : bool :=
  String.eqb (User._id u) id && User.isActive u.

(** DELETE /api/users/:id, after [authorize('admin')].  The query casts
    [req.params.id]; the check that protects the caller compares
    [req.user._id.toString()] with the string as it was sent. *)
Definition deleteUser (env : Env) (caller : User.t) (id : string)
  (w : World) : Response * World :=
  tryCatch
    (oid <- castParam id ;;
     found <- User_findOne (activeUser oid) ;;
     match found with
     | None => send (failure 404 "User not found")
     | Some user =>
         rejectIf (String.eqb (User._id caller) id)
           (failure 400 "Cannot delete your own account") ;;;
         _ <- User_update env user (User.setIsActive false user) ;;
         ret (mkResponse 200 true (Some "User deleted successfully") None)
     end)
    w.

(** *** The router *)

(** The [authorize(...roles)] middleware, the request carrying the
    account that [authenticate] resolved. *)
Definition authorize (roles : list string) (user : User.t)
  (next : World -> Response * World) (w : World) : Response * World :=
  if negb (JS.includes roles (User.role user))
  then (failure 403 "Insufficient permissions.", w)
  else next w.

Inductive Request : Type :=
| GetAvailability (doctorId : ObjectId) (date : option string)
| PostAppointment (body : NewAppointmentBody)
| PutAppointment (id : ObjectId) (body : AppointmentBody)
| DeleteAppointment (id : ObjectId)
| GetPatient (id : ObjectId)
| PostPatient (body : PatientBody)
| PutPatient (id : ObjectId) (body : PatientBody)
| DeletePatient (id : ObjectId)
| PutUser (id : string) (body : UserBody)
| DeleteUser (id : string).

(** An authenticated request with the clock and identifier it reads. *)
Record Call : Type := mkCall {
  env : Env;
  user : User.t;
  request : Request
}.

Definition staffRoles : list string := ["admin"; "doctor"; "nurse"].

Definition route (c : Call) : World -> Response * World :=
  match request c with
  | GetAvailability doctorId date => getAvailability doctorId date
  | PostAppointment body =>
      authorize staffRoles (user c) (postAppointment (env c) (user c) body)
  | PutAppointment id body =>
      authorize staffRoles (user c) (putAppointment (env c) (user c) id body)
  | DeleteAppointment id =>
      authorize staffRoles (user c) (deleteAppointment (env c) (user c) id)
  | GetPatient id => getPatient id
  | PostPatient body =>
      authorize staffRoles (user c) (postPatient (env c) body)
  | PutPatient id body =>
      authorize staffRoles (user c) (putPatient (env c) id body)
  | DeletePatient id =>
      authorize ["admin"] (user c) (deletePatient (env c) id)
  | PutUser id body => putUser (env c) (user c) id body
  | DeleteUser id =>
      authorize ["admin"] (user c) (deleteUser (env c) (user c) id)
  end.

(** The world after a sequence of requests. *)
Definition serve (calls : list Call) (w : World) : World :=
  fold_left (fun w c => snd (route c w)) calls w.

(** ** Notions of the specification *)

(** The minute of the day at which each slot of the working window
    starts: 09:00, 09:30, ..., 16:30. *)
Definition grid : list Z :=
  map (fun k => 540 + 30 * Z.of_nat k) (seq 0 16).

(** The slot string of a minute of the day. *)
Definition slotString (m : Z) : string := timeSlot (m / 60) (m mod 60).

(** The minute of the day a time string [H:MM] or [HH:MM] denotes. *)
Definition timeMinutes (time : string) : JS.number :=
  let parts := map JS.Number (JS.split ":" time) in
  JS.add (JS.mul (JS.at_ parts 0) (Some 60)) (JS.at_ parts 1).

(** The half-open interval of the slot starting at minute [m] meets
    the interval [aptStart, aptStart + duration) of the appointment. *)
Definition overlaps (m : Z) (a : Appointment.t) : Prop :=
  exists aptStart,
    timeMinutes (Appointment.time a) = Some aptStart
    /\ m < aptStart + Appointment.duration a
    /\ m + 30 > aptStart.

(** An active appointment of the doctor on the date. *)
Definition activeOn (doctorId : ObjectId) (d : Z) (store : Db)
  (a : Appointment.t) : Prop :=
  In a (appointments store)
  /\ Appointment.doctor a = doctorId
  /\ Appointment.date a = d
  /\ Appointment.status a <> "cancelled"
  /\ Appointment.status a <> "no-show".

(** A slot is blocked when an active appointment overlaps it. *)
Definition blocked (doctorId : ObjectId) (d : Z) (store : Db) (m : Z)
  : Prop :=
  exists a, activeOn doctorId d store a /\ overlaps m a.

(** The body of a successful availability response. *)
Definition availabilityResponse (date : string) (avail : list string)
  (booked : list BookedSlot) : Response :=
  mkResponse 200 true None (Some (DataAvailability date avail booked)).

(** A slot of the grid is free when no appointment of the list
    conflicts with it. *)
Definition free (appointments : list Appointment.t) (m : Z) : bool :=
  negb (existsb (slotConflict (m / 60) (m mod 60)) appointments).

(** An active appointment at exactly that doctor, date and time. *)
Definition collides (doctorId : ObjectId) (d : Z) (time : string)
  (a : Appointment.t) : Prop :=
  Appointment.doctor a = doctorId
  /\ Appointment.date a = d
  /\ Appointment.time a = time
  /\ Appointment.status a <> "cancelled"
  /\ Appointment.status a <> "no-show".

(** The patient check of POST /appointments passes. *)
Definition patientResolves (store : Db) (id : ObjectId) : Prop :=
  exists p, In p (patients store)
            /\ Patient._id p = id /\ Patient.isActive p = true.

(** The doctor check of POST /appointments passes. *)
Definition doctorResolves (store : Db) (id : ObjectId) : Prop :=
  exists u, In u (users store)
            /\ User._id u = id /\ User.isActive u = true
            /\ (User.role u = "doctor" \/ User.role u = "admin").

(** The candidate date, time and doctor of an update: the value of the
    body when it is truthy, that of the stored appointment otherwise. *)
Definition candidateDate (apt : Appointment.t) (body : AppointmentBody)
  : option Z :=
  if truthyField (b_date body) then parseDate (orElse (b_date body) "")
  else Some (Appointment.date apt).

Definition candidateTime (apt : Appointment.t) (body : AppointmentBody)
  : string :=
  orElse (b_time body) (Appointment.time apt).

Definition candidateDoctor (apt : Appointment.t) (body : AppointmentBody)
  : ObjectId :=
  orElse (b_doctor body) (Appointment.doctor apt).

(** The unique index on doctor, date and time: no two documents of the
    collection, of any status, have the same key. *)
Definition uniqueSlots (l : list Appointment.t) : Prop :=
  ForallOrdPairs (fun a b => sameSlot a b = false) l.

(** The unique index on [_id]. *)
Definition uniqueIds (l : list Appointment.t) : Prop :=
  NoDup (map Appointment._id l).

(** The half-open intervals [start, start + duration) of two
    appointments, in minutes of the day, meet. *)
Definition intervalsOverlap (a b : Appointment.t) : Prop :=
  exists sa sb,
    timeMinutes (Appointment.time a) = Some sa
    /\ timeMinutes (Appointment.time b) = Some sb
    /\ sa < sb + Appointment.duration b
    /\ sb < sa + Appointment.duration a.

(** The end of PUT /appointments/:id, once the conflict check has
    passed: assign the body, stamp [updatedBy], save and answer. *)
Definition putAppointment_save (env : Env) (user : User.t)
  (apt : Appointment.t) (body : AppointmentBody) (w : World)
  : Response * World :=
  match assignAppointment apt body with
  | None => (internalError, w)
  | Some updated =>
      let a := Appointment.setUpdatedBy (User._id user) updated in
      if Appointment.eq_dec a apt
      then (mkResponse 200 true (Some "Appointment updated successfully")
              (Some (DataAppointment apt)), w)
      else if negb (Appointment.validate a) then (internalError, w)
      else
        let w' := logOp (Write Appointments) w in
        if existsb (fun b => negb (String.eqb (Appointment._id b)
                                     (Appointment._id a))
                             && sameSlot b a) (appointments (db w))
        then (internalError, w')
        else
          (mkResponse 200 true (Some "Appointment updated successfully")
             (Some (DataAppointment (Appointment.touch (now env) a))),
           setAppointments
             (replaceAppointment (Appointment.touch (now env) a)
                (appointments (db w))) w')
  end.

(** The update carries a date, a time or a doctor: the conflict check
    runs. *)
Definition reschedules (body : AppointmentBody) : bool :=
  truthyField (b_date body) || truthyField (b_time body)
  || truthyField (b_doctor body).

(** A handler keeps a property of the world. *)
Definition preserves (P : World -> Prop) {A : Type} (h : Handler A) : Prop :=
  forall w, P w -> P (snd (h w)).

(** The two unique indexes of the appointment collection hold. *)
Definition indexesHold (w : World) : Prop :=
  uniqueIds (appointments (db w)) /\ uniqueSlots (appointments (db w)).

(** The answer of a successful DELETE /appointments/:id. *)
Definition cancelledResponse : Response :=
mkResponse 200 true (Some "Appointment cancelled successfully") None.

(** The answer of a successful DELETE /patients/:id. *)
Definition deletedResponse : Response :=
mkResponse 200 true (Some "Patient deleted successfully") None.

(** The unique index on the email of a patient. *)
Definition uniqueEmails (l : list Patient.t) : Prop :=
ForallOrdPairs
  (fun p q => String.eqb (Patient.email p) (Patient.email q) = false) l.

(** The patient [id] is soft-deleted: the record [stored] is in the
    collection and no document with that identifier is active. *)
Definition softDeleted (id : ObjectId) (stored : Patient.t) (w : World)
: Prop :=
In stored (patients (db w))
/\ forall q, In q (patients (db w)) -> Patient._id q = id ->
             Patient.isActive q = false.

(** The end of PUT /patients/:id, once the email check has passed. *)
Definition putPatient_save (env : Env) (patient : Patient.t)
(body : PatientBody) (w : World) : Response * World :=
match assignPatient patient body with
| None => (internalError, w)
| Some updated =>
    if Patient.eq_dec updated patient
    then (mkResponse 200 true (Some "Patient updated successfully")
            (Some (DataPatient patient)), w)
    else if negb (Patient.validate updated) then (internalError, w)
    else
      let w' := logOp (Write Patients) w in
      if existsb (fun q => negb (String.eqb (Patient._id q)
                                   (Patient._id updated))
                           && String.eqb (Patient.email q)
                                (Patient.email updated))
           (patients (db w))
      then (internalError, w')
      else
        (mkResponse 200 true (Some "Patient updated successfully")
           (Some (DataPatient (Patient.touch (now env) updated))),
         setPatients
           (replacePatient (Patient.touch (now env) updated)
              (patients (db w))) w')
end.

(** The end of PUT /users/:id: assign the stripped body, save, answer. *)
Definition putUser_save (env : Env) (user : User.t) (body : UserBody)
(w : World) : Response * World :=
let u := assignUser user body in
if User.eq_dec u user
then (mkResponse 200 true (Some "User updated successfully")
        (Some (DataUser user)), w)
else if negb (User.validate u) then (internalError, w)
else
  let w' := logOp (Write Users) w in
  if existsb (fun v => negb (String.eqb (User._id v) (User._id u))
                       && (String.eqb (User.email v) (User.email u)
                           || String.eqb (User.username v) (User.username u)))
       (users (db w))
  then (internalError, w')
  else
    (mkResponse 200 true (Some "User updated successfully")
       (Some (DataUser (User.touch (now env) u))),
     setUsers (replaceUser (User.touch (now env) u) (users (db w))) w').

(** The username check of PUT /users/:id and what follows it. *)
Definition putUser_username (env : Env) (user : User.t) (id : ObjectId)
(body : UserBody) (w : World) : Response * World :=
if truthyField (ub_username body)
   && negb (String.eqb (orElse (ub_username body) "") (User.username user))
then
  let w' := logOp (Query Users) w in
  if isSome (find (fun u => String.eqb (User.username u)
                              (orElse (ub_username body) "")
                            && negb (String.eqb (User._id u) id)
                            && User.isActive u) (users (db w)))
  then (failure 400 "Username already taken", w')
  else putUser_save env user body w'
else putUser_save env user body w.

(** The unique index on the [_id] of a user. *)
Definition uniqueUserIds (l : list User.t) : Prop :=
NoDup (map User._id l).

(** The stored password hash of every user, by identifier. *)
Definition passwords (w : World) : list (ObjectId * string) :=
map (fun u => (User._id u, User.password u)) (users (db w)).

(** The stored role of every user, by identifier. *)
Definition rolesOf (w : World) : list (ObjectId * string) :=
map (fun u => (User._id u, User.role u)) (users (db w)).

(** The slot string of [H] and [M] matches the time pattern exactly when
    [H] is below 24, and denotes minute [H * 60 + M]. *)
Definition slotStringChecks (H M : Z) : bool :=
Bool.eqb (RegExp.test Appointment.timePattern (timeSlot H M)) (H <? 24)
&& match timeMinutes (timeSlot H M) with
   | Some t => t =? H * 60 + M
   | None => false
   end.

(** A time string reads back, by the [split] and [parseInt] of the
    [endTime] virtual, as an hour below 24 and a minute below 60, and
    denotes that minute of the day. *)
Definition readsAsTime (s : string) : bool :=
match JS.parseIntAt (JS.split ":" s) 0,
      JS.parseIntAt (JS.split ":" s) 1,
      timeMinutes s with
| Some h, Some m, Some t =>
    (0 <=? h) && (h <? 24) && (0 <=? m) && (m <? 60) && (t =? h * 60 + m)
| _, _, _ => false
end.

(** The unique index on [_id] of the patient collection. *)
Definition uniquePatientIds (l : list Patient.t) : Prop :=
NoDup (map Patient._id l).

(** Every stored appointment and patient passes the validators of its
    schema, and the unique indexes of the patient collection hold. *)
Definition wellStored (w : World) : Prop :=
Forall (fun a => Appointment.validate a = true) (appointments (db w))
/\ Forall (fun p => Patient.validate p = true) (patients (db w))
/\ uniquePatientIds (patients (db w))
/\ uniqueEmails (patients (db w)).

(** ** The other routes and middleware *)

(** The envelope of a route that answers [res.json({ success: true,
    data })] with [data] of type [A]. *)
Record Reply (A : Type) : Type := mkReply {
  replyStatus : Z;
  replySuccess : bool;
  replyMessage : option string;
  replyData : option A
}.

#[global] Arguments mkReply {A} _ _ _ _.
#[global] Arguments replyStatus {A} _.
#[global] Arguments replySuccess {A} _.
#[global] Arguments replyMessage {A} _.
#[global] Arguments replyData {A} _.

(** The [try]/[catch] of such a route: what the body returns is the
    [data] of a 200. *)
Definition tryCatchData {A : Type} (body : Handler A) (w : World)
: Reply A * World :=
match body w with
| (Next a, w') => (mkReply 200 true None (Some a), w')
| (Sent r, w') => (mkReply (statusCode r) (success r) (message r) None, w')
| (Thrown _, w') => (mkReply 500 false (Some "Internal server error") None, w')
end.

(** *** The [authenticate] middleware *)

(** The errors of the jsonwebtoken package, of which [TokenExpiredError]
    and [NotBeforeError] are subclasses of [JsonWebTokenError]; any other
    exception is [OtherError]. *)
Inductive JwtError : Type :=
| JsonWebTokenError
| TokenExpiredError
| NotBeforeError
| OtherError.

(** [error instanceof jwt.JsonWebTokenError] *)
Definition instanceofJsonWebTokenError (e : JwtError) : bool :=
match e with
| OtherError => false
| _ => true
end.

(** [error instanceof jwt.TokenExpiredError] *)
Definition instanceofTokenExpiredError (e : JwtError) : bool :=
match e with
| TokenExpiredError => true
| _ => false
end.

(** [jwt.verify(token, secret)]: the [userId] of the payload, or the
    error thrown. *)
Inductive JwtResult : Type :=
| Decoded (userId : ObjectId)
| Failed (e : JwtError).

(** [authenticate], given what [jwt.verify] does and the Authorization
    header: the middleware answers, or hands [req.user] on to the next
    handler. *)
Definition authenticate (verify : string -> JwtResult)
(authorization : option string) : Handler User.Profile :=
fun w =>
  let token := option_map (JS.replace "Bearer " "") authorization in
  if negb (truthyField token)
  then (Sent (failure 401 "Access denied. No token provided."), w)
  else
    match verify (orElse token "") with
    | Failed e =>
        if instanceofJsonWebTokenError e
        then (Sent (failure 401 "Invalid token."), w)
        else if instanceofTokenExpiredError e
        then (Sent (failure 401 "Token expired."), w)
        else (Sent (failure 500 "Internal server error."), w)
    | Decoded userId =>
        let w1 := logOp (Query Users) w in
        match find (fun u => String.eqb (User._id u) userId) (users (db w)) with
        | None => (Sent (failure 401 "Invalid token. User not found."), w1)
        | Some user =>
            if negb (User.isActive user)
            then (Sent (failure 401 "Account is deactivated."), w1)
            else (Next (User.withoutPassword user), w1)
        end
    end.

(** *** Users *)

(** GET /api/users/:id.  The query casts [req.params.id]; the
    permission check compares [req.user._id.toString()] with the string
    as it was sent. *)
Definition getUser (caller : User.t) (id : string) (w : World)
: Reply User.Profile * World :=
tryCatchData
  (oid <- castParam id ;;
   user <- User_findOne (activeUser oid) ;;
   match user with
   | None => send (failure 404 "User not found")
   | Some user =>
       rejectIf (negb (String.eqb (User.role caller) "admin")
                 && negb (String.eqb (User._id caller) id))
         (failure 403 "Access denied") ;;;
       ret (User.withoutPassword user)
   end)
  w.

(** *** Patient records *)

(** GET /api/patients/:id/medical-history *)
Definition getMedicalHistory (id : ObjectId) (w : World)
: Reply (list Patient.MedicalHistory) * World :=
tryCatchData
  (patient <- Patient_findOne (activePatient id) ;;
   match patient with
   | None => send patientNotFound
   | Some patient => ret (Patient.medicalHistory patient)
   end)
  w.

(** GET /api/patients/:id/medications *)
Definition getMedications (id : ObjectId) (w : World)
: Reply (list Patient.Medication) * World :=
tryCatchData
  (patient <- Patient_findOne (activePatient id) ;;
   match patient with
   | None => send patientNotFound
   | Some patient =>
       let activeMedications :=
         filter Patient.med_isActive (Patient.currentMedications patient) in
       ret activeMedications
   end)
  w.

(** *** GET /api/appointments/:id *)

(** [populate] fills the references of the serialized answer in; the
    answer carries the document it is applied to. *)
Definition getAppointment (id : ObjectId) (w : World)
: Reply Appointment.t * World :=
tryCatchData
  (appointment <- Appointment_findById id ;;
   match appointment with
   | None => send (failure 404 "Appointment not found")
   | Some appointment => ret appointment
   end)
  w.

(** *** GET /api/dashboard/stats: the other aggregates *)

(** [appointmentStats]: [$group] by [$status]. *)
Definition appointmentStats (store : Db) : list (string * Z) :=
groupCount (map Appointment.status (appointments store)).

(** [patientDemographics]: [$match] the active patients, [$group] by
    [$gender]. *)
Definition patientDemographics (store : Db) : list (string * Z) :=
groupCount (map Patient.gender (filter Patient.isActive (patients store))).

(** [Patient.countDocuments({ isActive: true })] *)
Definition totalPatients (store : Db) : Z :=
Z.of_nat (List.length (filter Patient.isActive (patients store))).

(** The sum of the counts of an aggregate. *)
Definition totalCount (groups : list (string * Z)) : Z :=
fold_right (fun g n => snd g + n) 0 groups.

(** The labels of the [$switch] of the age distribution. *)
Definition ageBrackets : list string :=
["0-17"; "18-34"; "35-49"; "50-64"; "65+"].

(** *** The virtual [datetime] of an appointment *)

(** [new Date(this.date)] with [setHours(parseInt(hours),
    parseInt(minutes), 0, 0)], the server running in UTC: the time is
    set inside the day of [date]; [None] is [Invalid Date]. *)
Definition Appointment_datetime (a : Appointment.t) : option Z :=
let parts := JS.split ":" (Appointment.time a) in
let hours := JS.parseIntAt parts 0 in
let minutes := JS.parseIntAt parts 1 in
match hours, minutes with
| Some h, Some m =>
    Some (Appointment.date a / Calendar.msPerDay * Calendar.msPerDay
          + h * 3600000 + m * 60000)
| _, _ => None
end.

(** Every identifier of the first list is kept, in place, by the
    second, which may go on with more. *)
Definition keepsIds (before after : list ObjectId) : Prop :=
exists added, after = (before ++ added)%list.

(** No document of [w] is missing from [w']: the three collections hold
    the identifiers they held, in the same order, new ones coming
    after. *)
Definition keepsDocuments (w w' : World) : Prop :=
keepsIds (map Appointment._id (appointments (db w)))
  (map Appointment._id (appointments (db w')))
/\ keepsIds (map Patient._id (patients (db w)))
     (map Patient._id (patients (db w')))
/\ map User._id (users (db w')) = map User._id (users (db w)).

(** *** Pagination *)

(** validator's [isInt(str, { min, max })]: an optional sign and
    decimal digits, leading zeroes allowed, the number within the
    bounds. *)
Definition intPattern : RegExp.t :=
RegExp.Seq (RegExp.opt (RegExp.Alt (RegExp.Chr "-") (RegExp.Chr "+")))
  (RegExp.plus (RegExp.Range "0" "9")).

Definition isInt (min : Z) (max : option Z) (str : string) : bool :=
RegExp.test intPattern str
&& match JS.parseInteger str with
   | Some v =>
       (min <=? v)
       && match max with
          | Some m => v <=? m
          | None => true
          end
   | None => false
   end.

(** The messages of [validatePagination]; a parameter that is absent
    is not checked. *)
Definition validatePagination (page limit : option string) : list string :=
(match page with
 | Some v =>
     if isInt 1 None v then [] else ["Page must be a positive integer"]
 | None => []
 end
 ++ match limit with
    | Some v =>
        if isInt 1 (Some 100) v then []
        else ["Limit must be between 1 and 100"]
    | None => []
    end)%list.

Record Pagination : Type := mkPagination {
  currentPage : Z;
  totalPages : Z;
  totalItems : Z;
  itemsPerPage : Z
}.

(** The envelope of a list route. *)
Record ListReply (A : Type) : Type := mkListReply {
  listStatus : Z;
  listSuccess : bool;
  listMessage : option string;
  listError : option string;
  listData : option (list A);
  listPagination : option Pagination
}.

#[global] Arguments mkListReply {A} _ _ _ _ _ _.
#[global] Arguments listStatus {A} _.
#[global] Arguments listSuccess {A} _.
#[global] Arguments listMessage {A} _.
#[global] Arguments listError {A} _.
#[global] Arguments listData {A} _.
#[global] Arguments listPagination {A} _.

(** The answer of [handleValidationErrors] to a request with errors. *)
Definition validationFailed {A : Type} (errors : list string) : ListReply A :=
mkListReply 400 false (Some "Validation failed")
  (Some (String.concat ", " errors)) None None.

Definition listFailed {A : Type} : ListReply A :=
mkListReply 500 false (Some "Internal server error") None None None.

(** [req.query.x] as a number: [parseInt(undefined)] is [NaN]. *)
Definition parseIntParam (v : option string) : JS.number :=
match v with
| Some s => JS.parseInteger s
| None => JS.NaN
end.

(** [.skip(n)]: the datastore refuses a negative number. *)
Definition mongoSkip {A : Type} (n : Z) (l : list A) : option (list A) :=
if n <? 0 then None else Some (skipn (Z.to_nat n) l).

(** [.limit(n)]: 0 is no limit, and a negative limit is taken by its
    absolute value. *)
Definition mongoLimit {A : Type} (n : Z) (l : list A) : list A :=
if n =? 0 then l else firstn (Z.to_nat (Z.abs n)) l.

(** *** GET /api/appointments *)

Record AppointmentQuery : Type := mkAppointmentQuery {
  q_page : option string;
  q_limit : option string;
  q_status : option string;
  q_type : option string;
  q_doctor : option string;
  q_patient : option string;
  q_date : option string;
  q_dateFrom : option string;
  q_dateTo : option string
}.

(** [filter.date] *)
Inductive DateFilter : Type :=
| FromBefore (gte lt : Z)
| FromTo (gte lte : Z).

Definition inDateFilter (f : DateFilter) (d : Z) : bool :=
match f with
| FromBefore gte lt => (gte <=? d) && (d <? lt)
| FromTo gte lte => (gte <=? d) && (d <=? lte)
end.

(** A filter on a path: absent, cast, or not castable. *)
Inductive Condition (A : Type) : Type :=
| Any
| Equal (v : A)
| Uncastable.

#[global] Arguments Any {A}.
#[global] Arguments Equal {A} v.
#[global] Arguments Uncastable {A}.

(** The [date] of the filter: the day that starts at [date], the server
    running in UTC, unless [dateFrom] and [dateTo] are both given, which
    then replace it. *)
Definition dateCondition (q : AppointmentQuery) : Condition DateFilter :=
if truthyField (q_dateFrom q) && truthyField (q_dateTo q)
then
  match parseDate (orElse (q_dateFrom q) ""),
        parseDate (orElse (q_dateTo q) "") with
  | Some from, Some to => Equal (FromTo from to)
  | _, _ => Uncastable
  end
else if truthyField (q_date q)
then
  match parseDate (orElse (q_date q) "") with
  | Some startDate => Equal (FromBefore startDate (startDate + Calendar.msPerDay))
  | None => Uncastable
  end
else Any.

(** A filter on an [ObjectId] path; [castObjectId] is the identifier a
    string is cast to, [None] when Mongoose refuses it with a
    [CastError]. *)
Definition idCondition (castObjectId : string -> option ObjectId)
(v : option string) : Condition ObjectId :=
if truthyField v
then match castObjectId (orElse v "") with
     | Some id => Equal id
     | None => Uncastable
     end
else Any.

Definition stringCondition (v : option string) : Condition string :=
if truthyField v then Equal (orElse v "") else Any.

Definition holds {A : Type} (c : Condition A) (test : A -> bool) : bool :=
match c with
| Any => true
| Equal v => test v
| Uncastable => false
end.

Definition castable {A : Type} (c : Condition A) : bool :=
match c with
| Uncastable => false
| _ => true
end.

(** The filter object of the request, as a test on a document. *)
Definition appointmentFilter (castObjectId : string -> option ObjectId)
(q : AppointmentQuery) (a : Appointment.t) : bool :=
holds (stringCondition (q_status q)) (String.eqb (Appointment.status a))
&& holds (stringCondition (q_type q)) (String.eqb (Appointment.type a))
&& holds (idCondition castObjectId (q_doctor q))
     (String.eqb (Appointment.doctor a))
&& holds (idCondition castObjectId (q_patient q))
     (String.eqb (Appointment.patient a))
&& holds (dateCondition q) (fun f => inDateFilter f (Appointment.date a)).

(** [.sort({ date: 1, time: 1 })]: by date, then by the time string in
    the order of its characters. *)
Definition byDateTime (a b : Appointment.t) : bool :=
(Appointment.date a <? Appointment.date b)
|| ((Appointment.date a =? Appointment.date b)
    && String.leb (Appointment.time a) (Appointment.time b)).

(** The handler of GET /api/appointments.  [populate] fills the
    references of the serialized documents in.  Documents equal in date
    and time are listed in the order of the collection. *)
Definition listAppointments (castObjectId : string -> option ObjectId)
(q : AppointmentQuery) (w : World) : ListReply Appointment.t * World :=
let page := JS.orNumber (parseIntParam (q_page q)) 1 in
let limit := JS.orNumber (parseIntParam (q_limit q)) 10 in
let skip := (page - 1) * limit in
if negb (castable (idCondition castObjectId (q_doctor q))
         && castable (idCondition castObjectId (q_patient q))
         && castable (dateCondition q))
then (listFailed, w)
else
  let found :=
    filter (appointmentFilter castObjectId q) (appointments (db w)) in
  let w1 := logOp (Query Appointments) (logOp (Query Appointments) w) in
  match mongoSkip skip (JS.sortBy byDateTime found) with
  | None => (listFailed, w1)
  | Some rest =>
      let total := Z.of_nat (List.length found) in
      (mkListReply 200 true None None (Some (mongoLimit limit rest))
         (Some (mkPagination page (JS.ceilDiv total limit) total limit)),
       w1)
  end.

(** GET /api/appointments behind [validatePagination] and
    [handleValidationErrors]. *)
Definition getAppointments (castObjectId : string -> option ObjectId)
(q : AppointmentQuery) (w : World) : ListReply Appointment.t * World :=
match validatePagination (q_page q) (q_limit q) with
| [] => listAppointments castObjectId q w
| errors => (validationFailed errors, w)
end.

(** *** GET /api/users/doctors *)

(** [select('firstName lastName email')] *)
Record DoctorEntry : Type := mkDoctorEntry {
  d_id : ObjectId;
  d_firstName : string;
  d_lastName : string;
  d_email : string
}.

Definition isActiveDoctor (u : User.t) : bool :=
String.eqb (User.role u) "doctor" && User.isActive u.

(** [.sort({ firstName: 1 })] *)
Definition byFirstName (u v : User.t) : bool :=
String.leb (User.firstName u) (User.firstName v).

Definition getDoctors (w : World) : Reply (list DoctorEntry) * World :=
tryCatchData
  (doctors <- (fun w => (Next (filter isActiveDoctor (users (db w))),
                         logOp (Query Users) w)) ;;
   ret (map (fun u => mkDoctorEntry (User._id u) (User.firstName u)
                        (User.lastName u) (User.email u))
          (JS.sortBy byFirstName doctors)))
  w.

(** *** GET /api/dashboard/stats: the overview *)

Record Overview : Type := mkOverview {
  o_totalPatients : nat;
  o_totalDoctors : nat;
  o_todayAppointments : nat;
  o_pendingAppointments : nat;
  o_completedAppointments : nat;
  o_newPatientsThisMonth : nat
}.

(** The first instant of the month of [today], the server running in
    UTC. *)
Definition startOfMonth (today : Z) : Z :=
let '(year, month, _) := Calendar.civil (Calendar.endOfDay today) in
Calendar.makeDate year (month - 1) 1.

(** [new Date(today.getFullYear(), today.getMonth() + 1, 0)] *)
Definition endOfMonth (today : Z) : Z :=
let '(year, month, _) := Calendar.civil (Calendar.endOfDay today) in
Calendar.makeDate year (month - 1 + 1) 0.

(** The six [countDocuments] of the overview, the clock reading
    [today]. *)
Definition overview (today : Z) (store : Db) : Overview :=
let startOfDay := Calendar.startOfDay today in
let endOfDay := Calendar.endOfDay today in
let onDay (a : Appointment.t) :=
  (startOfDay <=? Appointment.date a) && (Appointment.date a <=? endOfDay) in
mkOverview
  (List.length (filter Patient.isActive (patients store)))
  (List.length (filter isActiveDoctor (users store)))
  (List.length (filter onDay (appointments store)))
  (List.length
     (filter (fun a => JS.includes ["scheduled"; "confirmed"]
                         (Appointment.status a))
        (appointments store)))
  (List.length
     (filter (fun a => String.eqb (Appointment.status a) "completed"
                       && onDay a)
        (appointments store)))
  (List.length
     (filter (fun p => Patient.isActive p
                       && (startOfMonth today <=? Patient.createdAt p)
                       && (Patient.createdAt p <=? endOfMonth today))
        (patients store))).

(** The documents of page [page] of a listing [l], [limit] to a page. *)
Definition pageOf {A : Type} (page limit : Z) (l : list A) : list A :=
match mongoSkip ((page - 1) * limit) l with
| Some rest => mongoLimit limit rest
| None => []
end.

(** The pages 1 to [n]. *)
Definition pagesUpTo (n : Z) : list Z :=
map (fun k => Z.of_nat k + 1) (seq 0 (Z.to_nat n)).

(** The query [q] with [?page=s]. *)
Definition atPage (s : string) (q : AppointmentQuery) : AppointmentQuery :=
mkAppointmentQuery (Some s) (q_limit q) (q_status q) (q_type q) (q_doctor q)
  (q_patient q) (q_date q) (q_dateFrom q) (q_dateTo q).

(** The documents of an answer, none when it carries no [data]. *)
Definition listed {A : Type} (r : ListReply A) : list A :=
match listData r with
| Some data => data
| None => []
end.

(** *** The calendar, checked over one cycle of 400 years *)

(** [check] holds of the [count] integers from [from] on. *)
Fixpoint holdsFrom (check : Z -> bool) (from : Z) (count : nat) : bool :=
match count with
| O => true
| S n => check from && holdsFrom check (from + 1) n
end.

(** The day [doe] of the cycle that starts on 0000-03-01 has a date of
    the calendar, which counts back to it. *)
Definition dayRoundTrips (doe : Z) : bool :=
let z := doe - 719468 in
let '(y, m, d) := Calendar.civilFromDays z in
(1 <=? m) && (m <=? 12) && (1 <=? d) && (d <=? Calendar.daysInMonth y m)
&& (Calendar.daysFromCivil y m d =? z).

(** For the month [k mod 12 + 1] of the year [k / 12]: the day before
    the first of the month after is the last day of the month. *)
Definition monthEnds (k : Z) : bool :=
let y := k / 12 in
let m := k mod 12 + 1 in
Calendar.daysFromCivil (y + m / 12) (m mod 12 + 1) 1 - 1
=? Calendar.daysFromCivil y m (Calendar.daysInMonth y m).

(** *** GET /api/dashboard/recent-activity *)

(** An entry of the feed. *)
Record Activity : Type := mkActivity {
  act_id : ObjectId;
  act_type : string;
  act_action : string;
  act_description : string;
  act_timestamp : Z;
  act_user : string
}.

(** [.sort({ createdAt: -1 })] on the appointments *)
Definition newestAppointmentFirst (a b : Appointment.t) : bool :=
Appointment.createdAt b <=? Appointment.createdAt a.

(** [.sort({ createdAt: -1 })] on the patients *)
Definition newestPatientFirst (p q : Patient.t) : bool :=
Patient.createdAt q <=? Patient.createdAt p.

(** The comparator of [activities.sort]: the later timestamp first. *)
Definition newestActivityFirst (a b : Activity) : bool :=
act_timestamp b <=? act_timestamp a.

(** [populate] of a path that refers to a patient: the document with
    that identifier, [None] (which the document then carries as [null])
    when the collection has none. *)
Definition populatedPatient (store : Db) (id : ObjectId) : option Patient.t :=
find (fun p => String.eqb (Patient._id p) id) (patients store).

(** [populate] of a path that refers to a user. *)
Definition populatedUser (store : Db) (id : ObjectId) : option User.t :=
find (fun u => String.eqb (User._id u) id) (users store).

(** The entry pushed for an appointment; [None] is the [TypeError] of
    reading [firstName] of a patient or a doctor that [populate] left
    [null].  A [createdBy] left [null] gives the user [System]. *)
Definition appointmentActivity (store : Db) (apt : Appointment.t)
: option Activity :=
match populatedPatient store (Appointment.patient apt),
      populatedUser store (Appointment.doctor apt) with
| Some patient, Some doctor =>
    Some (mkActivity (Appointment._id apt) "appointment" "created"
            ("New appointment scheduled for " ++ Patient.firstName patient
             ++ " " ++ Patient.lastName patient ++ " with Dr. "
             ++ User.firstName doctor ++ " " ++ User.lastName doctor)
            (Appointment.createdAt apt)
            (match populatedUser store (Appointment.createdBy apt) with
             | Some author =>
                 User.firstName author ++ " " ++ User.lastName author
             | None => "System"
             end))
| _, _ => None
end.

(** The entry pushed for a patient. *)
Definition patientActivity (p : Patient.t) : Activity :=
mkActivity (Patient._id p) "patient" "registered"
  ("New patient registered: " ++ Patient.firstName p ++ " "
   ++ Patient.lastName p)
  (Patient.createdAt p) "System".

(** [l.forEach(x => out.push(f(x)))]: what is pushed, [None] when [f]
    throws. *)
Fixpoint forEachPush {A B : Type} (f : A -> option B) (l : list A)
: option (list B) :=
match l with
| [] => Some []
| x :: rest =>
    match f x with
    | None => None
    | Some y =>
        match forEachPush f rest with
        | None => None
        | Some ys => Some (y :: ys)
        end
    end
end.

(** [l.slice(0, n)]: a negative [n] counts from the end. *)
Definition sliceTo {A : Type} (n : Z) (l : list A) : list A :=
if n <? 0
then firstn (Z.to_nat (Z.of_nat (List.length l) + n)) l
else firstn (Z.to_nat n) l.

(** The appointments the feed reads: [.sort({ createdAt: -1 })] and
    [.limit(Math.floor(limit / 2))]. *)
Definition recentAppointments (limit : Z) (store : Db)
: list Appointment.t :=
mongoLimit (limit / 2)
  (JS.sortBy newestAppointmentFirst (appointments store)).

(** The patients the feed reads: the active ones, sorted and limited
    alike. *)
Definition recentPatients (limit : Z) (store : Db) : list Patient.t :=
mongoLimit (limit / 2)
  (JS.sortBy newestPatientFirst (filter Patient.isActive (patients store))).

(** The handler of GET /api/dashboard/recent-activity; [limit] is
    [req.query.limit].  Documents created at the same instant are read
    in the order of the collection. *)
Definition getRecentActivity (limit : option string) (w : World)
: Reply (list Activity) * World :=
let limit := JS.orNumber (parseIntParam limit) 20 in
let w1 := logOp (Query Appointments) w in
let w2 := logOp (Query Patients) w1 in
match forEachPush (appointmentActivity (db w))
        (recentAppointments limit (db w)) with
| None => (mkReply 500 false (Some "Internal server error") None, w2)
| Some activities =>
    (mkReply 200 true None
       (Some (sliceTo limit
                (JS.sortBy newestActivityFirst
                   (activities
                    ++ map patientActivity
                         (recentPatients limit (db w1)))%list))),
     w2)
end.

(** *** GET /api/dashboard/stats: the upcoming appointments *)

(** An entry of [upcomingAppointments]. *)
Record Upcoming : Type := mkUpcoming {
  up_id : ObjectId;
  up_patientName : string;
  up_doctorName : string;
  up_date : Z;
  up_time : string;
  up_type : string;
  up_status : string
}.

(** [{ date: { $gte: new Date() }, status: { $in: ['scheduled',
    'confirmed'] } }], the clock reading [now]. *)
Definition isUpcoming (now : Z) (a : Appointment.t) : bool :=
(now <=? Appointment.date a)
&& JS.includes ["scheduled"; "confirmed"] (Appointment.status a).

(** The entry that [upcomingAppointments.map] builds; [None] is the
    [TypeError] of reading [firstName] of a patient or a doctor that
    [populate] left [null]. *)
Definition upcomingEntry (store : Db) (apt : Appointment.t)
: option Upcoming :=
match populatedPatient store (Appointment.patient apt),
      populatedUser store (Appointment.doctor apt) with
| Some patient, Some doctor =>
    Some (mkUpcoming (Appointment._id apt)
            (Patient.firstName patient ++ " " ++ Patient.lastName patient)
            (User.firstName doctor ++ " " ++ User.lastName doctor)
            (Appointment.date apt) (Appointment.time apt)
            (Appointment.type apt) (Appointment.status apt))
| _, _ => None
end.

(** [upcomingAppointments] of the dashboard, the clock reading [now];
    [None] when building an entry throws. *)
Definition upcomingAppointments (now : Z) (store : Db)
: option (list Upcoming) :=
forEachPush (upcomingEntry store)
  (mongoLimit 5
     (JS.sortBy byDateTime (filter (isUpcoming now) (appointments store)))).

(** ** Properties *)

(** *** Lists *)

Lemma flat_map_singleton_filter {A B : Type} (f : A -> bool) (g : A -> B)
  (l : list A) :
  flat_map (fun x => if f x then [g x] else []) l = map g (filter f l).
Proof.
  induction l as [|x l IH]; simpl; [reflexivity|].
  destruct (f x); simpl; rewrite IH; reflexivity.
Qed.

Lemma flat_map_nested {A B C : Type} (F : A -> B -> list C)
  (xs : list A) (ys : list B) :
  flat_map (fun x => flat_map (fun y => F x y) ys) xs
  = flat_map (fun xy => F (fst xy) (snd xy))
      (flat_map (fun x => map (pair x) ys) xs).
Proof.
  induction xs as [|x xs IH]; simpl; [reflexivity|].
  rewrite flat_map_app, <- IH. f_equal.
  clear IH. induction ys as [|y ys IH]; simpl; [reflexivity|].
  rewrite IH. reflexivity.
Qed.

Lemma StronglySorted_filter {A : Type} (R : A -> A -> Prop)
  (f : A -> bool) (l : list A) :
  StronglySorted R l -> StronglySorted R (filter f l).
Proof.
  induction 1 as [|x l Hs IH Hall]; simpl; [constructor|].
  destruct (f x); [|assumption].
  constructor; [assumption|].
  rewrite Forall_forall in *. intros y Hy.
  apply filter_In in Hy. apply Hall, Hy.
Qed.

(** *** The availability calculator *)

Lemma loops_enumerate_grid :
  flat_map (fun hour => map (pair hour) (JS.loop 0 60 (slotDuration workingHours)))
    (JS.loop (start workingHours) (end_ workingHours) 1)
  = map (fun m => (m / 60, m mod 60)) grid.
Proof. vm_compute. reflexivity. Qed.

Lemma availableSlots_filter (appointments : list Appointment.t) :
  availableSlots appointments
  = map slotString (filter (free appointments) grid).
Proof.
  unfold availableSlots.
  rewrite (flat_map_nested
             (fun hour minute =>
                if negb (existsb (slotConflict hour minute) appointments)
                then [timeSlot hour minute] else [])).
  rewrite loops_enumerate_grid.
  rewrite flat_map_concat_map, map_map, <- flat_map_concat_map.
  apply (flat_map_singleton_filter (free appointments) slotString).
Qed.

Lemma active_spec (a : Appointment.t) :
  Appointment.active a = true
  <-> Appointment.status a <> "cancelled"
      /\ Appointment.status a <> "no-show".
Proof.
  unfold Appointment.active, JS.includes. simpl.
  destruct (String.eqb_spec (Appointment.status a) "cancelled") as [E1|N1];
    destruct (String.eqb_spec (Appointment.status a) "no-show") as [E2|N2];
    simpl; split; intros H; try discriminate; try tauto.
Qed.

Lemma onDoctorDate_spec (doctorId : ObjectId) (d : Z) (store : Db)
  (a : Appointment.t) :
  In a (filter (onDoctorDate doctorId d) (appointments store))
  <-> activeOn doctorId d store a.
Proof.
  rewrite filter_In. unfold onDoctorDate, activeOn.
  rewrite !andb_true_iff, String.eqb_eq, Z.eqb_eq, active_spec. tauto.
Qed.

Lemma slotConflict_overlaps (m : Z) (a : Appointment.t) :
  slotConflict (m / 60) (m mod 60) a = true <-> overlaps m a.
Proof.
  unfold slotConflict, overlaps. fold (timeMinutes (Appointment.time a)).
  assert (Hm : m / 60 * 60 + m mod 60 = m)
    by (pose proof (Z.div_mod m 60); lia).
  rewrite Hm. simpl.
  destruct (timeMinutes (Appointment.time a)) as [aptStart|]; simpl.
  - unfold JS.gt. simpl. rewrite andb_true_iff, !Z.ltb_lt. split.
    + intros [H1 H2]. exists aptStart. repeat split; lia.
    + intros [s [Hs [H1 H2]]]. inversion Hs; subst. lia.
  - split; [discriminate|]. intros [s [Hs _]]. discriminate.
Qed.

Lemma free_spec (appointments : list Appointment.t) (m : Z) :
  free appointments m = true
  <-> forall a, In a appointments -> ~ overlaps m a.
Proof.
  unfold free. rewrite negb_true_iff. split.
  - intros H a Ha Hov.
    assert (E : existsb (slotConflict (m / 60) (m mod 60)) appointments = true).
    { apply existsb_exists. exists a. split; [assumption|].
      apply slotConflict_overlaps, Hov. }
    congruence.
  - intros H.
    destruct (existsb (slotConflict (m / 60) (m mod 60)) appointments) eqn:E;
      [|reflexivity].
    apply existsb_exists in E. destruct E as [a [Ha Hc]].
    exfalso. apply (H a Ha). apply slotConflict_overlaps, Hc.
Qed.

Lemma not_free_spec (appointments : list Appointment.t) (m : Z) :
  free appointments m = false
  <-> exists a, In a appointments /\ overlaps m a.
Proof.
  unfold free. rewrite negb_false_iff, existsb_exists.
  split; intros [a [Ha H]]; exists a; split; try assumption;
    apply slotConflict_overlaps; assumption.
Qed.

Lemma grid_sorted : StronglySorted Z.lt grid.
Proof.
  unfold grid. simpl.
  repeat (constructor; [|repeat (constructor; [lia|]); constructor]).
  constructor.
Qed.

Lemma grid_slot_strings :
  map slotString grid
  = ["09:00"; "09:30"; "10:00"; "10:30"; "11:00"; "11:30"; "12:00";
     "12:30"; "13:00"; "13:30"; "14:00"; "14:30"; "15:00"; "15:30";
     "16:00"; "16:30"].
Proof. vm_compute. reflexivity. Qed.

Lemma grid_slots_wellformed :
  Forall (fun m => RegExp.test Appointment.timePattern (slotString m) = true
                   /\ timeMinutes (slotString m) = Some m) grid.
Proof.
  unfold grid. simpl.
  repeat (constructor; [split; vm_compute; reflexivity|]).
  constructor.
Qed.

Lemma getAvailability_ok (doctorId : ObjectId) (date : string) (d : Z)
  (w : World) :
  JS.truthy date = true ->
  parseDate date = Some d ->
  getAvailability doctorId (Some date) w
  = (let found := filter (onDoctorDate doctorId d) (appointments (db w)) in
     availabilityResponse date (availableSlots found) (bookedSlots found),
     logOp (Query Appointments) w).
Proof.
  intros Ht Hd.
  unfold getAvailability, tryCatch, bind, rejectIf, castDate, orElse,
    truthyField, Appointment_find, ret.
  rewrite Ht. simpl. rewrite Hd. reflexivity.
Qed.

(** C1. For a doctor and a date that parses, the availability route
    answers 200 with [availableSlots] the slot strings of an ascending
    list of minutes of the day, each a well-formed HH:MM string denoting
    its minute; the available slots together with the slots blocked by
    an active appointment of that doctor and date (stored [date] equal
    to the parsed one, status neither cancelled nor no-show) make up the
    16-slot grid 09:00, 09:30, ..., 16:30; and no available slot
    overlaps such an appointment under the half-open test
    [slotStart < aptEnd && slotEnd > aptStart]. *)
Theorem availability_partitions_grid (doctorId : ObjectId) (date : string)
  (d : Z) (w : World) :
  JS.truthy date = true ->
  parseDate date = Some d ->
  exists avail : list Z,
    fst (getAvailability doctorId (Some date) w)
    = availabilityResponse date (map slotString avail)
        (bookedSlots (filter (onDoctorDate doctorId d) (appointments (db w))))
    /\ StronglySorted Z.lt avail
    /\ Forall (fun m =>
                 RegExp.test Appointment.timePattern (slotString m) = true
                 /\ timeMinutes (slotString m) = Some m) avail
    /\ List.length grid = 16%nat
    /\ map slotString grid
       = ["09:00"; "09:30"; "10:00"; "10:30"; "11:00"; "11:30"; "12:00";
          "12:30"; "13:00"; "13:30"; "14:00"; "14:30"; "15:00"; "15:30";
          "16:00"; "16:30"]
    /\ (forall m, In m grid
                  <-> In m avail
                      \/ (In m grid /\ blocked doctorId d (db w) m))
    /\ (forall m a, In m avail -> activeOn doctorId d (db w) a ->
                    ~ overlaps m a).
Proof.
  intros Ht Hd.
  set (found := filter (onDoctorDate doctorId d) (appointments (db w))).
  exists (filter (free found) grid).
  split; [|split; [|split; [|split; [|split; [|split]]]]].
  - rewrite (getAvailability_ok doctorId date d w Ht Hd).
    cbv zeta. cbn [fst]. fold found.
    rewrite availableSlots_filter. reflexivity.
  - apply StronglySorted_filter, grid_sorted.
  - pose proof grid_slots_wellformed as Hall.
    rewrite Forall_forall in *. intros m Hm.
    apply filter_In in Hm. apply Hall, Hm.
  - reflexivity.
  - apply grid_slot_strings.
  - intros m. split.
    + intros Hm. destruct (free found m) eqn:Hf.
      * left. apply filter_In. split; assumption.
      * right. split; [assumption|].
        apply not_free_spec in Hf. destruct Hf as [a [Ha Hov]].
        exists a. split; [|assumption].
        apply onDoctorDate_spec, Ha.
    + intros [Hm|[Hm _]]; [|assumption]. apply filter_In in Hm. apply Hm.
  - intros m a Hm Ha. apply filter_In in Hm. destruct Hm as [_ Hf].
    rewrite free_spec in Hf. apply Hf.
    apply onDoctorDate_spec, Ha.
Qed.

(** C9. Without the [date] query parameter (absent, or empty) the
    availability handler answers the 400 envelope [Date is required] and
    leaves the world as it found it: the store is untouched and no
    command, hence no appointment query, is issued. *)
Theorem availability_requires_date (doctorId : ObjectId) (w : World) :
  getAvailability doctorId None w = (failure 400 "Date is required", w)
  /\ getAvailability doctorId (Some "") w
     = (failure 400 "Date is required", w)
  /\ log (snd (getAvailability doctorId None w)) = log w
  /\ ~ In (Query Appointments)
         (skipn (List.length (log w))
            (log (snd (getAvailability doctorId None w)))).
Proof.
  split; [reflexivity|]. split; [reflexivity|]. split; [reflexivity|].
  simpl. rewrite skipn_all. intros [].
Qed.

Lemma getAvailability_invalid_date (doctorId : ObjectId) (date : string)
  (w : World) :
  JS.truthy date = true ->
  parseDate date = None ->
  getAvailability doctorId (Some date) w = (internalError, w).
Proof.
  intros Ht Hd.
  unfold getAvailability, tryCatch, bind, rejectIf, castDate, orElse,
    truthyField.
  rewrite Ht. simpl. rewrite Hd. reflexivity.
Qed.

Lemma getAvailability_reads_appointments (doctorId : ObjectId)
  (date : option string) (w1 w2 : World) :
  appointments (db w1) = appointments (db w2) ->
  fst (getAvailability doctorId date w1)
  = fst (getAvailability doctorId date w2).
Proof.
  intros H.
  destruct date as [date|]; [|reflexivity].
  destruct (JS.truthy date) eqn:Ht.
  - destruct (parseDate date) as [d|] eqn:Hd.
    + rewrite !(getAvailability_ok doctorId date d _ Ht Hd). simpl.
      rewrite H. reflexivity.
    + rewrite !(getAvailability_invalid_date doctorId date _ Ht Hd).
      reflexivity.
  - unfold getAvailability, tryCatch, bind, rejectIf, truthyField.
    rewrite Ht. reflexivity.
Qed.

Lemma getAvailability_read_only (doctorId : ObjectId)
  (date : option string) (w : World) :
  db (snd (getAvailability doctorId date w)) = db w.
Proof.
  destruct date as [date|]; [|reflexivity].
  destruct (JS.truthy date) eqn:Ht.
  - destruct (parseDate date) as [d|] eqn:Hd.
    + rewrite (getAvailability_ok doctorId date d _ Ht Hd). reflexivity.
    + rewrite (getAvailability_invalid_date doctorId date _ Ht Hd).
      reflexivity.
  - unfold getAvailability, tryCatch, bind, rejectIf, truthyField.
    rewrite Ht. reflexivity.
Qed.

(** C8. The availability route is a function of the doctor, the date
    and the appointment collection alone: two worlds that hold the same
    appointment documents (whatever their users, patients and command
    logs) get the same response, with the same [availableSlots] and
    [bookedSlots]; the route leaves the store unchanged, so a second
    invocation after the first answers the same again. *)
Theorem availability_deterministic (doctorId : ObjectId)
  (date : option string) (w1 w2 : World) :
  appointments (db w1) = appointments (db w2) ->
  fst (getAvailability doctorId date w1)
  = fst (getAvailability doctorId date w2)
  /\ db (snd (getAvailability doctorId date w1)) = db w1
  /\ fst (getAvailability doctorId date
            (snd (getAvailability doctorId date w1)))
     = fst (getAvailability doctorId date w1).
Proof.
  intros H. split; [|split].
  - apply getAvailability_reads_appointments, H.
  - apply getAvailability_read_only.
  - apply getAvailability_reads_appointments.
    rewrite getAvailability_read_only. reflexivity.
Qed.

(** *** The conflict check *)

Lemma isSome_find {A : Type} (f : A -> bool) (l : list A) :
  isSome (find f l) = true <-> exists x, In x l /\ f x = true.
Proof.
  unfold isSome, isNone. split.
  - destruct (find f l) as [x|] eqn:E; [|discriminate].
    intros _. exists x. apply (find_some _ _ E).
  - intros [x [Hx Hf]]. destruct (find f l) as [y|] eqn:E; [reflexivity|].
    pose proof (find_none _ _ E x Hx). congruence.
Qed.

Lemma isNone_find {A : Type} (f : A -> bool) (l : list A) :
  isNone (find f l) = true <-> ~ exists x, In x l /\ f x = true.
Proof.
  rewrite <- isSome_find. unfold isSome.
  destruct (isNone (find f l)); simpl; split; intros H;
    try reflexivity; try discriminate; try congruence.
Qed.

Lemma conflictsWith_spec (doctorId : ObjectId) (d : Z) (time : string)
  (a : Appointment.t) :
  conflictsWith doctorId d time a = true <-> collides doctorId d time a.
Proof.
  unfold conflictsWith, collides.
  rewrite !andb_true_iff, !String.eqb_eq, Z.eqb_eq, active_spec. tauto.
Qed.

Lemma conflictsWithOther_spec (id doctorId : ObjectId) (d : Z)
  (time : string) (a : Appointment.t) :
  conflictsWithOther id doctorId d time a = true
  <-> Appointment._id a <> id /\ collides doctorId d time a.
Proof.
  unfold conflictsWithOther.
  rewrite andb_true_iff, negb_true_iff, conflictsWith_spec.
  destruct (String.eqb_spec (Appointment._id a) id); split;
    intros [H1 H2]; split; congruence.
Qed.

Lemma patient_check_spec (store : Db) (id : ObjectId) :
  isNone (find (fun p => String.eqb (Patient._id p) id && Patient.isActive p)
            (patients store)) = false
  <-> patientResolves store id.
Proof.
  unfold patientResolves.
  rewrite <- (negb_involutive (isNone _)). fold (isSome (find (fun p => String.eqb (Patient._id p) id && Patient.isActive p) (patients store))).
  rewrite negb_false_iff, isSome_find.
  split; intros [p [Hp H]]; exists p; split; try assumption.
  - apply andb_true_iff in H. rewrite String.eqb_eq in H. exact H.
  - apply andb_true_iff. rewrite String.eqb_eq. exact H.
Qed.

Lemma doctor_check_spec (store : Db) (id : ObjectId) :
  isNone (find (fun u => String.eqb (User._id u) id && User.isActive u
                         && JS.includes ["doctor"; "admin"] (User.role u))
            (users store)) = false
  <-> doctorResolves store id.
Proof.
  unfold doctorResolves.
  rewrite <- (negb_involutive (isNone _)).
  match goal with |- negb (negb (isNone ?x)) = false <-> _ =>
    fold (isSome x) end.
  rewrite negb_false_iff, isSome_find.
  assert (Hr : forall r, JS.includes ["doctor"; "admin"] r = true
                         <-> r = "doctor" \/ r = "admin").
  { intros r. unfold JS.includes. simpl.
    rewrite !orb_true_iff, !String.eqb_eq. intuition discriminate. }
  split; intros [u [Hu H]]; exists u; split; try assumption.
  - rewrite !andb_true_iff, String.eqb_eq, Hr in H. tauto.
  - rewrite !andb_true_iff, String.eqb_eq, Hr. tauto.
Qed.

(** The handlers, run step by step. *)

Lemma postAppointment_run (env : Env) (user : User.t)
  (body : NewAppointmentBody) (w : World) :
  postAppointment env user body w
  = let w1 := logOp (Query Patients) w in
    if isNone (find (fun p => String.eqb (Patient._id p) (n_patient body)
                              && Patient.isActive p) (patients (db w)))
    then (failure 400 "Patient not found", w1)
    else
      let w2 := logOp (Query Users) w1 in
      if isNone (find (fun u => String.eqb (User._id u) (n_doctor body)
                                && User.isActive u
                                && JS.includes ["doctor"; "admin"]
                                     (User.role u)) (users (db w)))
      then (failure 400 "Doctor not found", w2)
      else
        match parseDate (n_date body) with
        | None => (internalError, w2)
        | Some d =>
            let w3 := logOp (Query Appointments) w2 in
            if isSome (find (conflictsWith (n_doctor body) d (n_time body))
                         (appointments (db w)))
            then (notAvailable, w3)
            else
              match newAppointment env user body with
              | None => (internalError, w3)
              | Some a =>
                  if negb (Appointment.validate a) then (internalError, w3)
                  else
                    let w4 := logOp (Write Appointments) w3 in
                    if existsb
                         (fun b => String.eqb (Appointment._id b)
                                     (Appointment._id a)
                                   || sameSlot b a)
                         (appointments (db w))
                    then (internalError, w4)
                    else
                      (mkResponse 201 true
                         (Some "Appointment created successfully")
                         (Some (DataAppointment a)),
                       setAppointments (appointments (db w) ++ [a]) w4)
              end
        end.
Proof.
  unfold postAppointment, tryCatch, bind, Patient_findOne, User_findOne,
    Appointment_findOne, Appointment_insert, rejectIf, castDate, send,
    ret, throw.
  simpl.
  destruct (isNone (find _ (patients (db w)))); [reflexivity|].
  simpl.
  destruct (isNone (find _ (users (db w)))); [reflexivity|].
  simpl.
  destruct (parseDate (n_date body)) as [d|]; [|reflexivity].
  simpl.
  destruct (isSome (find _ (appointments (db w)))); [reflexivity|].
  simpl.
  destruct (newAppointment env user body) as [a|]; [|reflexivity].
  simpl.
  destruct (negb (Appointment.validate a)); [reflexivity|].
  destruct (existsb _ (appointments (db w))); reflexivity.
Qed.

Lemma postAppointment_rejects_iff (env : Env) (user : User.t)
  (body : NewAppointmentBody) (w : World) :
  fst (postAppointment env user body w) = notAvailable
  <-> patientResolves (db w) (n_patient body)
      /\ doctorResolves (db w) (n_doctor body)
      /\ exists d, parseDate (n_date body) = Some d
                   /\ exists a, In a (appointments (db w))
                                /\ collides (n_doctor body) d (n_time body) a.
Proof.
  rewrite postAppointment_run. cbv zeta.
  rewrite <- patient_check_spec, <- doctor_check_spec.
  destruct (isNone (find _ (patients (db w)))); simpl.
  { split; [discriminate|]. intros [H _]. discriminate. }
  destruct (isNone (find _ (users (db w)))); simpl.
  { split; [discriminate|]. intros [_ [H _]]. discriminate. }
  destruct (parseDate (n_date body)) as [d|]; simpl.
  2:{ split; [discriminate|]. intros [_ [_ [d [H _]]]]. discriminate. }
  destruct (isSome (find (conflictsWith (n_doctor body) d (n_time body))
                      (appointments (db w)))) eqn:E; simpl.
  - split; [|reflexivity]. intros _. repeat split.
    exists d. split; [reflexivity|].
    apply isSome_find in E. destruct E as [a [Ha Hc]].
    exists a. split; [assumption|]. apply conflictsWith_spec, Hc.
  - split.
    + destruct (newAppointment env user body) as [a|]; simpl;
        [|discriminate].
      destruct (negb (Appointment.validate a)); simpl; [discriminate|].
      destruct (existsb _ (appointments (db w))); simpl; discriminate.
    + intros [_ [_ [d' [Hd [a [Ha Hc]]]]]]. inversion Hd; subst d'.
      assert (E' : isSome (find (conflictsWith (n_doctor body) d (n_time body))
                             (appointments (db w))) = true).
      { apply isSome_find. exists a. split; [assumption|].
        apply conflictsWith_spec, Hc. }
      congruence.
Qed.

Lemma postAppointment_reject_writes_nothing (env : Env) (user : User.t)
  (body : NewAppointmentBody) (w : World) :
  fst (postAppointment env user body w) = notAvailable ->
  db (snd (postAppointment env user body w)) = db w.
Proof.
  rewrite postAppointment_run. cbv zeta.
  destruct (isNone (find _ (patients (db w)))); simpl; [reflexivity|].
  destruct (isNone (find _ (users (db w)))); simpl; [reflexivity|].
  destruct (parseDate (n_date body)) as [d|]; simpl; [|reflexivity].
  destruct (isSome (find _ (appointments (db w)))); simpl; [reflexivity|].
  destruct (newAppointment env user body) as [a|]; simpl; [|reflexivity].
  destruct (negb (Appointment.validate a)); simpl; [reflexivity|].
  destruct (existsb _ (appointments (db w))); simpl;
    [reflexivity|discriminate].
Qed.

Lemma assignAndSave_run (env : Env) (user : User.t) (apt : Appointment.t)
  (body : AppointmentBody) (w : World) :
  tryCatch (assignAndSave env user apt body) w
  = putAppointment_save env user apt body w.
Proof.
  unfold tryCatch, assignAndSave, putAppointment_save, bind,
    Appointment_update, ret, throw.
  destruct (assignAppointment apt body) as [updated|]; [|reflexivity].
  cbv zeta.
  destruct (Appointment.eq_dec _ apt); [reflexivity|].
  destruct (negb (Appointment.validate _)); [reflexivity|].
  destruct (existsb _ (appointments (db w))); reflexivity.
Qed.

Lemma putAppointment_run (env : Env) (user : User.t) (id : ObjectId)
  (body : AppointmentBody) (w : World) :
  putAppointment env user id body w
  = let w1 := logOp (Query Appointments) w in
    match find (fun a => String.eqb (Appointment._id a) id)
            (appointments (db w)) with
    | None => (failure 404 "Appointment not found", w1)
    | Some apt =>
        if reschedules body then
          match candidateDate apt body with
          | None => (internalError, w1)
          | Some d =>
              let w2 := logOp (Query Appointments) w1 in
              if isSome (find (conflictsWithOther id
                                 (candidateDoctor apt body) d
                                 (candidateTime apt body))
                           (appointments (db w)))
              then (notAvailable, w2)
              else putAppointment_save env user apt body w2
          end
        else putAppointment_save env user apt body w1
    end.
Proof.
  unfold putAppointment, Appointment_findById, Appointment_findOne.
  unfold tryCatch at 1. unfold bind at 1.
  destruct (find _ (appointments (db w))) as [apt|]; [|reflexivity].
  fold (reschedules body). unfold candidateDate.
  cbv zeta.
  destruct (reschedules body).
  - unfold bind at 1. unfold bind at 1.
    destruct (truthyField (b_date body)).
    + unfold castDate.
      destruct (parseDate (orElse (b_date body) "")) as [d|];
        [|reflexivity].
      unfold ret at 1, bind at 1, rejectIf. simpl.
      destruct (isSome (find _ (appointments (db w)))); [reflexivity|].
      apply assignAndSave_run.
    + unfold ret at 1, bind at 1, rejectIf. simpl.
      destruct (isSome (find _ (appointments (db w)))); [reflexivity|].
      apply assignAndSave_run.
  - unfold bind at 1, ret at 1. apply assignAndSave_run.
Qed.

Lemma putAppointment_save_not_rejection (env : Env) (user : User.t)
  (apt : Appointment.t) (body : AppointmentBody) (w : World) :
  fst (putAppointment_save env user apt body w) <> notAvailable.
Proof.
  unfold putAppointment_save.
  destruct (assignAppointment apt body) as [updated|]; [|discriminate].
  cbv zeta.
  destruct (Appointment.eq_dec _ apt); [discriminate|].
  destruct (negb (Appointment.validate _)); [discriminate|].
  destruct (existsb _ (appointments (db w))); discriminate.
Qed.

Lemma putAppointment_rejects_iff (env : Env) (user : User.t)
  (id : ObjectId) (body : AppointmentBody) (w : World) :
  fst (putAppointment env user id body w) = notAvailable
  <-> exists apt,
        find (fun a => String.eqb (Appointment._id a) id)
          (appointments (db w)) = Some apt
        /\ reschedules body = true
        /\ exists d, candidateDate apt body = Some d
             /\ exists a, In a (appointments (db w))
                  /\ Appointment._id a <> id
                  /\ collides (candidateDoctor apt body) d
                       (candidateTime apt body) a.
Proof.
  rewrite putAppointment_run. cbv zeta.
  destruct (find _ (appointments (db w))) as [apt|] eqn:Hfind; simpl.
  2:{ split; [discriminate|]. intros [apt [H _]]. discriminate. }
  destruct (reschedules body); simpl.
  2:{ split.
      - intros H. exfalso. revert H. apply putAppointment_save_not_rejection.
      - intros [apt' [_ [H _]]]. discriminate. }
  destruct (candidateDate apt body) as [d|] eqn:Hd; simpl.
  2:{ split; [discriminate|].
      intros [apt' [H [_ [d [Hd' _]]]]]. inversion H; subst apt'.
      congruence. }
  destruct (isSome (find (conflictsWithOther id (candidateDoctor apt body) d
                            (candidateTime apt body))
                      (appointments (db w)))) eqn:E; simpl.
  - split; [|reflexivity]. intros _.
    exists apt. split; [reflexivity|]. split; [reflexivity|].
    exists d. split; [assumption|].
    apply isSome_find in E. destruct E as [a [Ha Hc]].
    exists a. split; [assumption|]. apply conflictsWithOther_spec, Hc.
  - split.
    + intros H. exfalso. revert H. apply putAppointment_save_not_rejection.
    + intros [apt' [H [_ [d' [Hd' [a [Ha Hc]]]]]]].
      inversion H; subst apt'. rewrite Hd in Hd'. inversion Hd'; subst d'.
      assert (E' : isSome (find (conflictsWithOther id
                                   (candidateDoctor apt body) d
                                   (candidateTime apt body))
                             (appointments (db w))) = true).
      { apply isSome_find. exists a. split; [assumption|].
        apply conflictsWithOther_spec, Hc. }
      congruence.
Qed.

Lemma putAppointment_save_writes_only_on_success (env : Env)
  (user : User.t) (apt : Appointment.t) (body : AppointmentBody)
  (w : World) :
  statusCode (fst (putAppointment_save env user apt body w)) <> 200 ->
  db (snd (putAppointment_save env user apt body w)) = db w.
Proof.
  unfold putAppointment_save.
  destruct (assignAppointment apt body) as [updated|]; [|reflexivity].
  cbv zeta.
  destruct (Appointment.eq_dec _ apt); [reflexivity|].
  destruct (negb (Appointment.validate _)); [reflexivity|].
  destruct (existsb _ (appointments (db w))); [reflexivity|].
  intros H. exfalso. apply H. reflexivity.
Qed.

Lemma putAppointment_reject_writes_nothing (env : Env) (user : User.t)
  (id : ObjectId) (body : AppointmentBody) (w : World) :
  fst (putAppointment env user id body w) = notAvailable ->
  db (snd (putAppointment env user id body w)) = db w.
Proof.
  rewrite putAppointment_run. cbv zeta.
  destruct (find _ (appointments (db w))) as [apt|]; simpl; [|reflexivity].
  destruct (reschedules body); simpl.
  - destruct (candidateDate apt body) as [d|]; simpl; [|reflexivity].
    destruct (isSome (find _ (appointments (db w)))); simpl; [reflexivity|].
    intros H. exfalso. revert H. apply putAppointment_save_not_rejection.
  - intros H. exfalso. revert H. apply putAppointment_save_not_rejection.
Qed.

Lemma sameSlot_sym (a b : Appointment.t) : sameSlot a b = sameSlot b a.
Proof.
  unfold sameSlot.
  rewrite (String.eqb_sym (Appointment.doctor a)),
    (Z.eqb_sym (Appointment.date a)), (String.eqb_sym (Appointment.time a)).
  reflexivity.
Qed.

Lemma sameSlot_spec (a b : Appointment.t) :
  sameSlot a b = true
  <-> Appointment.doctor a = Appointment.doctor b
      /\ Appointment.date a = Appointment.date b
      /\ Appointment.time a = Appointment.time b.
Proof.
  unfold sameSlot. rewrite !andb_true_iff, !String.eqb_eq, Z.eqb_eq. tauto.
Qed.

Lemma uniqueSlots_same (l : list Appointment.t) (a b : Appointment.t) :
  uniqueSlots l -> In a l -> In b l -> sameSlot a b = true -> a = b.
Proof.
  intros Hu Ha Hb Hs.
  destruct (ForallOrdPairs_In Hu a b Ha Hb) as [E|[E|E]];
    [assumption| |]; [|rewrite sameSlot_sym in E]; congruence.
Qed.

(** When the update carries no date, time or doctor, the candidate is
    the stored appointment itself, and the unique index leaves no other
    document on its slot. *)
Lemma unrescheduled_has_no_rival (id : ObjectId) (body : AppointmentBody)
  (l : list Appointment.t) (apt a : Appointment.t) (d : Z) :
  uniqueSlots l ->
  find (fun a => String.eqb (Appointment._id a) id) l = Some apt ->
  reschedules body = false ->
  candidateDate apt body = Some d ->
  In a l ->
  Appointment._id a <> id ->
  ~ collides (candidateDoctor apt body) d (candidateTime apt body) a.
Proof.
  intros Hu Hfind Hr Hd Ha Hid Hc.
  unfold reschedules in Hr. apply orb_false_iff in Hr.
  destruct Hr as [Hr Hdoc]. apply orb_false_iff in Hr.
  destruct Hr as [Hdate Htime].
  unfold candidateDate in Hd. rewrite Hdate in Hd. inversion Hd; subst d.
  unfold candidateDoctor, candidateTime, orElse in Hc.
  rewrite Hdoc, Htime in Hc.
  destruct Hc as [H1 [H2 [H3 _]]].
  apply find_some in Hfind. destruct Hfind as [Hin Heq].
  apply String.eqb_eq in Heq.
  assert (a = apt).
  { apply (uniqueSlots_same l); try assumption.
    apply sameSlot_spec. tauto. }
  subst a. contradiction.
Qed.

Lemma overlapping_update_accepted :
  let r := putAppointment Sample.env Sample.doctor
             (Appointment._id Sample.elevenOClock) (Sample.moveTo "10:30")
             Sample.world in
  statusCode (fst r) = 200
  /\ exists a b,
       In a (appointments (db (snd r))) /\ In b (appointments (db (snd r)))
       /\ Appointment._id a <> Appointment._id b
       /\ Appointment.doctor a = Appointment.doctor b
       /\ Appointment.date a = Appointment.date b
       /\ Appointment.active a = true /\ Appointment.active b = true
       /\ intervalsOverlap a b.
Proof.
  cbv zeta. split; [vm_compute; reflexivity|].
  exists Sample.tenOClock.
  exists (Appointment.touch 5000
            (Appointment.setUpdatedBy (User._id Sample.doctor)
               (Sample.appointmentAt "64d000000000000000000002" "confirmed"
                  "10:30" 30))).
  split; [vm_compute; left; reflexivity|].
  split; [vm_compute; right; left; reflexivity|].
  split; [vm_compute; discriminate|].
  split; [reflexivity|]. split; [reflexivity|].
  split; [reflexivity|]. split; [reflexivity|].
  exists 600, 630. repeat split; vm_compute; reflexivity.
Qed.

(** C2. The create and update guards answer the Conflict envelope (400,
    [Doctor is not available at this time]) exactly when the request
    reaches the check and the collection holds an appointment, other
    than the one being updated, with the same doctor, the same date,
    the very same time string and a status that is neither cancelled
    nor no-show; the rejection writes nothing.  For an update the
    candidate doctor, date and time are those of the body where it
    gives them and those of the stored appointment otherwise.  Durations
    play no part: a candidate whose time string differs from that of
    every active appointment of the doctor on the date is not rejected,
    and an update that moves 11:00-11:30 to 10:30-11:00 beside a
    10:00-11:00 appointment of the same doctor and date is accepted. *)
Theorem conflict_guard_is_exact_match (env : Env) (user : User.t)
  (w : World) :
  uniqueSlots (appointments (db w)) ->
  (forall body,
      (fst (postAppointment env user body w) = notAvailable
       <-> patientResolves (db w) (n_patient body)
           /\ doctorResolves (db w) (n_doctor body)
           /\ exists d, parseDate (n_date body) = Some d
                /\ exists a, In a (appointments (db w))
                     /\ collides (n_doctor body) d (n_time body) a)
      /\ (fst (postAppointment env user body w) = notAvailable ->
          db (snd (postAppointment env user body w)) = db w))
  /\ (forall id body,
         (fst (putAppointment env user id body w) = notAvailable
          <-> exists apt,
                find (fun a => String.eqb (Appointment._id a) id)
                  (appointments (db w)) = Some apt
                /\ exists d, candidateDate apt body = Some d
                     /\ exists a, In a (appointments (db w))
                          /\ Appointment._id a <> id
                          /\ collides (candidateDoctor apt body) d
                               (candidateTime apt body) a)
         /\ (fst (putAppointment env user id body w) = notAvailable ->
             db (snd (putAppointment env user id body w)) = db w))
  /\ (forall body d,
         parseDate (n_date body) = Some d ->
         (forall a, In a (appointments (db w)) ->
                    Appointment.doctor a = n_doctor body ->
                    Appointment.date a = d ->
                    Appointment.active a = true ->
                    Appointment.time a <> n_time body) ->
         fst (postAppointment env user body w) <> notAvailable)
  /\ statusCode notAvailable = 400
  /\ (let r := putAppointment Sample.env Sample.doctor
                 (Appointment._id Sample.elevenOClock)
                 (Sample.moveTo "10:30") Sample.world in
      statusCode (fst r) = 200
      /\ exists a b,
           In a (appointments (db (snd r)))
           /\ In b (appointments (db (snd r)))
           /\ Appointment._id a <> Appointment._id b
           /\ Appointment.doctor a = Appointment.doctor b
           /\ Appointment.date a = Appointment.date b
           /\ Appointment.active a = true /\ Appointment.active b = true
           /\ intervalsOverlap a b).
Proof.
  intros Hu. split; [|split; [|split; [|split]]].
  - intros body. split.
    + apply postAppointment_rejects_iff.
    + apply postAppointment_reject_writes_nothing.
  - intros id body. split.
    + rewrite putAppointment_rejects_iff. split.
      * intros [apt [Hf [_ H]]]. exists apt. split; assumption.
      * intros [apt [Hf [d [Hd [a [Ha [Hid Hc]]]]]]].
        exists apt. split; [assumption|]. split.
        -- destruct (reschedules body) eqn:Hr; [reflexivity|].
           exfalso.
           apply (unrescheduled_has_no_rival id body (appointments (db w))
                    apt a d); assumption.
        -- exists d. split; [assumption|]. exists a. tauto.
    + apply putAppointment_reject_writes_nothing.
  - intros body d Hd Hdiff Hrej.
    apply postAppointment_rejects_iff in Hrej.
    destruct Hrej as [_ [_ [d' [Hd' [a [Ha Hc]]]]]].
    rewrite Hd in Hd'. inversion Hd'; subst d'.
    destruct Hc as [H1 [H2 [H3 H4]]].
    apply (Hdiff a); try assumption. apply active_spec, H4.
  - reflexivity.
  - apply overlapping_update_accepted.
Qed.

(** *** Properties kept by handlers *)

Section Preservation.

Variable P : World -> Prop.

Lemma preserves_ret {A : Type} (a : A) : preserves P (ret a).
Proof. intros w H. exact H. Qed.

Lemma preserves_send {A : Type} (r : Response) :
  preserves P (@send A r).
Proof. intros w H. exact H. Qed.

Lemma preserves_throw {A : Type} (e : Error) :
  preserves P (@throw A e).
Proof. intros w H. exact H. Qed.

Lemma preserves_rejectIf (c : bool) (r : Response) :
  preserves P (rejectIf c r).
Proof. intros w H. destruct c; exact H. Qed.

Lemma preserves_bind {A B : Type} (m : Handler A) (k : A -> Handler B) :
  preserves P m -> (forall a, preserves P (k a)) ->
  preserves P (bind m k).
Proof.
  intros Hm Hk w H. unfold bind.
  specialize (Hm w H). destruct (m w) as [[a|r|e] w']; simpl in *;
    try assumption.
  apply Hk, Hm.
Qed.

Lemma preserves_tryCatch (body : Handler Response) (w : World) :
  preserves P body -> P w -> P (snd (tryCatch body w)).
Proof.
  intros Hb H. unfold tryCatch. specialize (Hb w H).
  destruct (body w) as [[a|r|e] w']; simpl in *; assumption.
Qed.

Lemma preserves_castDate (s : string) : preserves P (castDate s).
Proof.
  unfold castDate. destruct (parseDate s);
    [apply preserves_ret|apply preserves_throw].
Qed.

Hypothesis P_log : forall op w, P w -> P (logOp op w).

Lemma preserves_Appointment_find (f : Appointment.t -> bool) :
  preserves P (Appointment_find f).
Proof. intros w H. apply P_log, H. Qed.

Lemma preserves_Appointment_findOne (f : Appointment.t -> bool) :
  preserves P (Appointment_findOne f).
Proof. intros w H. apply P_log, H. Qed.

Lemma preserves_Appointment_findById (id : ObjectId) :
  preserves P (Appointment_findById id).
Proof. apply preserves_Appointment_findOne. Qed.

Lemma preserves_Patient_findOne (f : Patient.t -> bool) :
  preserves P (Patient_findOne f).
Proof. intros w H. apply P_log, H. Qed.

Lemma preserves_User_findOne (f : User.t -> bool) :
  preserves P (User_findOne f).
Proof. intros w H. apply P_log, H. Qed.

End Preservation.

(** Breaks a handler into its statements; what remains are the writes. *)
Ltac step_handler P_log :=
  repeat first
    [ apply preserves_ret
    | apply preserves_send
    | apply preserves_throw
    | apply preserves_rejectIf
    | apply preserves_castDate
    | apply (preserves_Appointment_findById _ P_log)
    | apply (preserves_Appointment_findOne _ P_log)
    | apply (preserves_Appointment_find _ P_log)
    | apply (preserves_Patient_findOne _ P_log)
    | apply (preserves_User_findOne _ P_log)
    | apply preserves_bind; [|intros ?]
    | match goal with
      | |- preserves _ (match ?x with _ => _ end) => destruct x
      | |- preserves _ (if ?c then _ else _) => destruct c
      end ].

(** *** The unique indexes of the appointment collection *)

Lemma ForallOrdPairs_snoc {A : Type} (R : A -> A -> Prop) (l : list A)
  (a : A) :
  ForallOrdPairs R l -> Forall (fun b => R b a) l ->
  ForallOrdPairs R (l ++ [a]).
Proof.
  induction 1 as [|x l Hx Hl IH]; intros Hall; simpl.
  - constructor; constructor.
  - inversion Hall; subst. constructor.
    + apply Forall_app. split; [assumption|]. constructor; [assumption|].
      constructor.
    + apply IH. assumption.
Qed.

Lemma insert_keeps_indexes (l : list Appointment.t) (a : Appointment.t) :
  uniqueIds l -> uniqueSlots l ->
  existsb (fun b => String.eqb (Appointment._id b) (Appointment._id a)
                    || sameSlot b a) l = false ->
  uniqueIds (l ++ [a]) /\ uniqueSlots (l ++ [a]).
Proof.
  intros Hi Hs Hex.
  assert (Hall : forall b, In b l ->
                           Appointment._id b <> Appointment._id a
                           /\ sameSlot b a = false).
  { intros b Hb.
    destruct (String.eqb_spec (Appointment._id b) (Appointment._id a)) as [E|N];
      destruct (sameSlot b a) eqn:S; try (split; [assumption|reflexivity]);
      exfalso;
      assert (existsb (fun b => String.eqb (Appointment._id b) (Appointment._id a)
                                || sameSlot b a) l = true)
        by (apply existsb_exists; exists b; split; [assumption|];
            rewrite S; try rewrite E; try rewrite String.eqb_refl;
            auto using orb_true_r);
      congruence. }
  split.
  - unfold uniqueIds in *. rewrite map_app. simpl.
    apply NoDup_app; [assumption|repeat constructor; intros []|].
    intros x Hx [Hx'|[]]. subst x.
    apply in_map_iff in Hx. destruct Hx as [b [Eb Hb]].
    apply (Hall b Hb). assumption.
  - apply ForallOrdPairs_snoc; [assumption|].
    apply Forall_forall. intros b Hb. apply (Hall b Hb).
Qed.

Lemma replace_keeps_ids (l : list Appointment.t) (a : Appointment.t) :
  map Appointment._id (replaceAppointment a l) = map Appointment._id l.
Proof.
  unfold replaceAppointment. rewrite map_map. apply map_ext.
  intros b. destruct (String.eqb_spec (Appointment._id b) (Appointment._id a));
    congruence.
Qed.

Lemma replace_keeps_slots (l : list Appointment.t) (a : Appointment.t) :
  uniqueIds l -> uniqueSlots l ->
  (forall b, In b l -> Appointment._id b <> Appointment._id a ->
             sameSlot b a = false) ->
  uniqueSlots (replaceAppointment a l).
Proof.
  unfold uniqueIds, uniqueSlots, replaceAppointment.
  induction l as [|x l IH]; intros Hi Hs Hchk; simpl; [constructor|].
  inversion Hi as [|? ? Hnotin Hi']; subst.
  inversion Hs as [|? ? Hx Hs']; subst.
  constructor.
  - apply Forall_forall. intros y' Hy'.
    apply in_map_iff in Hy'. destruct Hy' as [y [Ey Hy]]. subst y'.
    rewrite Forall_forall in Hx.
    destruct (String.eqb_spec (Appointment._id x) (Appointment._id a)) as [Ex|Nx];
      destruct (String.eqb_spec (Appointment._id y) (Appointment._id a)) as [Ey|Ny].
    + exfalso. apply Hnotin. apply in_map_iff. exists y. split; congruence.
    + rewrite sameSlot_sym. apply Hchk; [right; assumption|assumption].
    + apply Hchk; [left; reflexivity|assumption].
    + apply Hx, Hy.
  - apply IH; try assumption.
    intros b Hb. apply Hchk. right. assumption.
Qed.

Lemma indexesHold_log (op : DbOp) (w : World) :
indexesHold w -> indexesHold (logOp op w).
Proof. intros H. exact H. Qed.

Lemma Appointment_insert_keeps_indexes (a : Appointment.t) :
preserves indexesHold (Appointment_insert a).
Proof.
intros w [Hi Hs]. unfold Appointment_insert.
destruct (negb (Appointment.validate a)); [split; assumption|].
destruct (existsb _ (appointments (db w))) eqn:E; [split; assumption|].
unfold indexesHold, setAppointments. cbn [snd db appointments].
apply insert_keeps_indexes; assumption.
Qed.

Lemma touch_keeps_slot (t : Z) (a b : Appointment.t) :
sameSlot b (Appointment.touch t a) = sameSlot b a.
Proof. reflexivity. Qed.

Lemma Appointment_update_keeps_indexes (env : Env) (old a : Appointment.t) :
preserves indexesHold (Appointment_update env old a).
Proof.
intros w [Hi Hs]. unfold Appointment_update.
destruct (Appointment.eq_dec a old); [split; assumption|].
destruct (negb (Appointment.validate a)); [split; assumption|].
destruct (existsb _ (appointments (db w))) eqn:E; [split; assumption|].
unfold indexesHold, setAppointments. cbn [snd db appointments]. split.
- unfold uniqueIds. rewrite replace_keeps_ids. assumption.
- apply replace_keeps_slots; try assumption.
  intros b Hb Hid. rewrite touch_keeps_slot.
  destruct (sameSlot b a) eqn:S; [|reflexivity].
  exfalso.
  assert (existsb (fun b => negb (String.eqb (Appointment._id b)
                                    (Appointment._id a))
                            && sameSlot b a) (appointments (db w)) = true).
  { apply existsb_exists. exists b. split; [assumption|].
    rewrite S, andb_true_r. apply negb_true_iff.
    apply String.eqb_neq. exact Hid. }
  congruence.
Qed.

Lemma Patient_insert_keeps_appointments (P : list Appointment.t -> Prop)
(p : Patient.t) :
preserves (fun w => P (appointments (db w))) (Patient_insert p).
Proof.
intros w H. unfold Patient_insert.
destruct (negb (Patient.validate p)); [assumption|].
destruct (existsb _ (patients (db w))); assumption.
Qed.

Lemma Patient_update_keeps_appointments (P : list Appointment.t -> Prop)
(env : Env) (old p : Patient.t) :
preserves (fun w => P (appointments (db w))) (Patient_update env old p).
Proof.
intros w H. unfold Patient_update.
destruct (Patient.eq_dec p old); [assumption|].
destruct (negb (Patient.validate p)); [assumption|].
destruct (existsb _ (patients (db w))); assumption.
Qed.

Lemma User_update_keeps_appointments (P : list Appointment.t -> Prop)
(env : Env) (old u : User.t) :
preserves (fun w => P (appointments (db w))) (User_update env old u).
Proof.
intros w H. unfold User_update.
destruct (User.eq_dec u old); [assumption|].
destruct (negb (User.validate u)); [assumption|].
destruct (existsb _ (users (db w))); assumption.
Qed.

(** Every request leaves the two unique indexes of the appointment
    collection in force. *)
Lemma route_keeps_indexes (c : Call) (w : World) :
indexesHold w -> indexesHold (snd (route c w)).
Proof.
intros H. unfold route, authorize.
destruct (request c);
  try (destruct (negb (JS.includes _ (User.role (user c)))); [exact H|]);
  unfold getAvailability, postAppointment, putAppointment, assignAndSave,
    deleteAppointment, getPatient, postPatient, putPatient, deletePatient,
    putUser, deleteUser, castParam;
  apply (preserves_tryCatch indexesHold); try exact H;
  step_handler indexesHold_log;
  try apply Appointment_insert_keeps_indexes;
  try apply Appointment_update_keeps_indexes;
  try apply (Patient_insert_keeps_appointments
               (fun l => uniqueIds l /\ uniqueSlots l));
  try apply (Patient_update_keeps_appointments
               (fun l => uniqueIds l /\ uniqueSlots l));
  try apply (User_update_keeps_appointments
               (fun l => uniqueIds l /\ uniqueSlots l)).
Qed.

Lemma serve_keeps_indexes (calls : list Call) (w : World) :
indexesHold w -> indexesHold (serve calls w).
Proof.
unfold serve. revert w.
induction calls as [|c calls IH]; intros w H; simpl; [exact H|].
apply IH, route_keeps_indexes, H.
Qed.

(** *** Cancelling *)

Lemma deleteAppointment_run (env : Env) (user : User.t) (id : ObjectId)
(w : World) :
deleteAppointment env user id w
= let w1 := logOp (Query Appointments) w in
  match find (fun a => String.eqb (Appointment._id a) id)
          (appointments (db w)) with
  | None => (failure 404 "Appointment not found", w1)
  | Some apt =>
      let cancelled := mkResponse 200 true
                         (Some "Appointment cancelled successfully") None in
      let a := Appointment.setStatusUpdatedBy "cancelled" (User._id user) apt in
      if Appointment.eq_dec a apt then (cancelled, w1)
      else if negb (Appointment.validate a) then (internalError, w1)
      else
        let w2 := logOp (Write Appointments) w1 in
        if existsb (fun b => negb (String.eqb (Appointment._id b)
                                     (Appointment._id a))
                             && sameSlot b a) (appointments (db w))
        then (internalError, w2)
        else
          (cancelled,
           setAppointments
             (replaceAppointment (Appointment.touch (now env) a)
                (appointments (db w))) w2)
  end.
Proof.
unfold deleteAppointment, tryCatch, bind, Appointment_findById,
  Appointment_findOne, Appointment_update, send, ret.
cbn [db log logOp fst snd].
destruct (find _ (appointments (db w))) as [apt|]; [|reflexivity].
cbv zeta.
destruct (Appointment.eq_dec _ apt); [reflexivity|].
destruct (negb (Appointment.validate _)); [reflexivity|].
cbn [db log logOp fst snd].
destruct (existsb _ (appointments (db w))); reflexivity.
Qed.

Lemma cancel_keeps_valid (u : ObjectId) (a : Appointment.t) :
Appointment.validate a = true ->
Appointment.validate (Appointment.setStatusUpdatedBy "cancelled" u a) = true.
Proof.
unfold Appointment.validate, Appointment.setStatusUpdatedBy.
cbn [Appointment.patient Appointment.doctor Appointment.type
     Appointment.status Appointment.time Appointment.duration
     Appointment.reason Appointment.notes Appointment.diagnosis
     Appointment.treatment Appointment.prescriptions Appointment.createdBy].
rewrite !andb_true_iff. intros H.
repeat match goal with H : _ /\ _ |- _ => destruct H end.
repeat split; assumption || reflexivity.
Qed.

Lemma find_snoc_fresh {A : Type} (f : A -> bool) (l : list A) (a : A) :
(forall b, In b l -> f b = false) -> f a = true ->
find f (l ++ [a]) = Some a.
Proof.
intros Hl Ha. induction l as [|x l IH]; simpl.
- rewrite Ha. reflexivity.
- rewrite (Hl x (or_introl eq_refl)). apply IH.
  intros b Hb. apply Hl. right. assumption.
Qed.

Lemma find_snoc_none {A : Type} (f : A -> bool) (l : list A) (a : A) :
(forall b, In b l -> f b = false) -> f a = false ->
find f (l ++ [a]) = None.
Proof.
intros Hl Ha. induction l as [|x l IH]; simpl.
- rewrite Ha. reflexivity.
- rewrite (Hl x (or_introl eq_refl)). apply IH.
  intros b Hb. apply Hl. right. assumption.
Qed.

Lemma replace_snoc_fresh (l : list Appointment.t) (a a' : Appointment.t) :
(forall b, In b l -> Appointment._id b <> Appointment._id a) ->
Appointment._id a' = Appointment._id a ->
replaceAppointment a' (l ++ [a]) = (l ++ [a'])%list.
Proof.
intros Hl Hid. unfold replaceAppointment. rewrite map_app. simpl.
rewrite Hid, String.eqb_refl. f_equal.
rewrite <- (map_id l) at 2. apply map_ext_in. intros b Hb.
destruct (String.eqb_spec (Appointment._id b) (Appointment._id a));
  [|reflexivity].
exfalso. apply (Hl b Hb). assumption.
Qed.

Lemma insert_check_false (l : list Appointment.t) (a : Appointment.t) :
existsb (fun b => String.eqb (Appointment._id b) (Appointment._id a)
                  || sameSlot b a) l = false
<-> forall b, In b l ->
              Appointment._id b <> Appointment._id a /\ sameSlot b a = false.
Proof.
split.
- intros H b Hb.
  destruct (String.eqb_spec (Appointment._id b) (Appointment._id a)) as [E|N];
    destruct (sameSlot b a) eqn:S; try (split; [assumption|reflexivity]);
    exfalso;
    assert (existsb (fun b => String.eqb (Appointment._id b) (Appointment._id a)
                              || sameSlot b a) l = true)
      by (apply existsb_exists; exists b; split; [assumption|];
          rewrite S; try rewrite E; try rewrite String.eqb_refl;
          auto using orb_true_r);
    congruence.
- intros H. destruct (existsb _ l) eqn:E; [|reflexivity].
  apply existsb_exists in E. destruct E as [b [Hb Hc]].
  destruct (H b Hb) as [Hid Hs]. rewrite Hs, orb_false_r in Hc.
  apply String.eqb_eq in Hc. contradiction.
Qed.

Lemma newAppointment_fields (env : Env) (user : User.t)
(body : NewAppointmentBody) (a : Appointment.t) :
newAppointment env user body = Some a ->
Appointment._id a = freshId env
/\ Appointment.doctor a = n_doctor body
/\ parseDate (n_date body) = Some (Appointment.date a)
/\ Appointment.time a = n_time body.
Proof.
unfold newAppointment.
destruct (parseDate (n_date body)) as [d|]; [|discriminate].
destruct (castOptDate (n_followUpDate body)) as [f|]; [|discriminate].
intros H. inversion H; subst. repeat split; reflexivity.
Qed.

Lemma postAppointment_created (env : Env) (user : User.t)
(body : NewAppointmentBody) (w : World) :
statusCode (fst (postAppointment env user body w)) = 201 ->
exists a,
  newAppointment env user body = Some a
  /\ Appointment.validate a = true
  /\ (forall b, In b (appointments (db w)) ->
                Appointment._id b <> Appointment._id a
                /\ sameSlot b a = false)
  /\ patientResolves (db w) (n_patient body)
  /\ doctorResolves (db w) (n_doctor body)
  /\ fst (postAppointment env user body w)
     = mkResponse 201 true (Some "Appointment created successfully")
         (Some (DataAppointment a))
  /\ db (snd (postAppointment env user body w))
     = mkDb (users (db w)) (patients (db w))
         (appointments (db w) ++ [a]).
Proof.
rewrite postAppointment_run. cbv zeta.
destruct (isNone (find _ (patients (db w)))) eqn:Hp; [discriminate|].
destruct (isNone (find _ (users (db w)))) eqn:Hdoc; [discriminate|].
destruct (parseDate (n_date body)) as [d|]; [|discriminate].
destruct (isSome (find _ (appointments (db w)))); [discriminate|].
destruct (newAppointment env user body) as [a|]; [|discriminate].
destruct (Appointment.validate a) eqn:Hv; [|discriminate].
cbn [negb].
destruct (existsb _ (appointments (db w))) eqn:Hex; [discriminate|].
intros _. exists a.
split; [reflexivity|]. split; [exact Hv|].
split; [apply insert_check_false, Hex|].
split; [apply patient_check_spec, Hp|].
split; [apply doctor_check_spec, Hdoc|].
split; reflexivity.
Qed.

(** A document on the slot, whatever its status, makes the insert of a
    second one fail on the unique index, although the conflict check
    found no active appointment there. *)
Lemma occupied_slot_refuses_insert (env : Env) (user : User.t)
(body : NewAppointmentBody) (w : World) (d : Z) (b a0 : Appointment.t) :
patientResolves (db w) (n_patient body) ->
doctorResolves (db w) (n_doctor body) ->
(forall a, In a (appointments (db w)) ->
           ~ collides (n_doctor body) d (n_time body) a) ->
newAppointment env user body = Some b ->
Appointment.validate b = true ->
In a0 (appointments (db w)) ->
sameSlot a0 b = true ->
Appointment.date b = d ->
fst (postAppointment env user body w) = internalError
/\ db (snd (postAppointment env user body w)) = db w
/\ (forall w', db w' = db w ->
               fst (Appointment_insert b w') = Thrown DuplicateKey).
Proof.
intros Hp Hdoc Hfree Hnew Hvalid Hin Hslot Hd.
assert (Hex : forall l, l = appointments (db w) ->
          existsb (fun x => String.eqb (Appointment._id x) (Appointment._id b)
                            || sameSlot x b) l = true).
{ intros l ->. apply existsb_exists. exists a0. split; [assumption|].
  rewrite Hslot. apply orb_true_r. }
destruct (newAppointment_fields env user body b Hnew)
  as [_ [_ [Hparse _]]].
rewrite Hd in Hparse.
rewrite postAppointment_run. cbv zeta.
apply patient_check_spec in Hp. apply doctor_check_spec in Hdoc.
rewrite Hp, Hdoc, Hparse.
assert (Hnone : isSome (find (conflictsWith (n_doctor body) d (n_time body))
                          (appointments (db w))) = false).
{ destruct (isSome _) eqn:E; [|reflexivity].
  apply isSome_find in E. destruct E as [a [Ha Hc]].
  exfalso. apply (Hfree a Ha). apply conflictsWith_spec, Hc. }
rewrite Hnone, Hnew, Hvalid. cbn [negb].
rewrite (Hex _ eq_refl). repeat split.
intros w' Hw'. unfold Appointment_insert.
rewrite Hvalid. cbn [negb]. rewrite Hw', (Hex _ eq_refl). reflexivity.
Qed.

Lemma uniqueIds_same (l : list Appointment.t) (a b : Appointment.t) :
uniqueIds l -> In a l -> In b l ->
Appointment._id a = Appointment._id b -> a = b.
Proof.
unfold uniqueIds. induction l as [|x l IH]; intros Hn Ha Hb E; [destruct Ha|].
simpl in Hn. inversion Hn as [|? ? Hnotin Hn']; subst.
destruct Ha as [Ha|Ha], Hb as [Hb|Hb]; subst.
- reflexivity.
- exfalso. apply Hnotin. rewrite E. apply in_map. assumption.
- exfalso. apply Hnotin. rewrite <- E. apply in_map. assumption.
- apply IH; assumption.
Qed.

Lemma replace_self (l : list Appointment.t) (a : Appointment.t) :
uniqueIds l -> In a l -> replaceAppointment a l = l.
Proof.
intros Hn Ha. unfold replaceAppointment.
rewrite <- (map_id l) at 2. apply map_ext_in. intros b Hb.
destruct (String.eqb_spec (Appointment._id b) (Appointment._id a)) as [E|N];
  [|reflexivity].
symmetry. apply (uniqueIds_same l); assumption.
Qed.

Lemma touch_same (a : Appointment.t) :
Appointment.touch (Appointment.updatedAt a) a = a.
Proof. destruct a. reflexivity. Qed.

Lemma find_replace (l : list Appointment.t) (a : Appointment.t) :
(exists b, In b l /\ Appointment._id b = Appointment._id a) ->
find (fun x => String.eqb (Appointment._id x) (Appointment._id a))
  (replaceAppointment a l) = Some a.
Proof.
unfold replaceAppointment.
induction l as [|x l IH]; intros [b [Hb E]]; [destruct Hb|].
simpl.
destruct (String.eqb_spec (Appointment._id x) (Appointment._id a)) as [Ex|Nx].
- rewrite String.eqb_refl. reflexivity.
- apply String.eqb_neq in Nx. rewrite Nx.
  destruct Hb as [Hb|Hb].
  + subst x. apply String.eqb_neq in Nx. contradiction.
  + apply IH. exists b. split; assumption.
Qed.

(** What DELETE /appointments/:id does to a stored, valid appointment. *)
Lemma deleteAppointment_cancels (env : Env) (user : User.t) (id : ObjectId)
(w : World) (apt : Appointment.t) :
indexesHold w ->
find (fun a => String.eqb (Appointment._id a) id) (appointments (db w))
= Some apt ->
Appointment.validate apt = true ->
exists t,
  (Appointment.status apt = "cancelled"
   /\ Appointment.updatedBy apt = Some (User._id user) ->
   t = Appointment.updatedAt apt)
  /\ (~ (Appointment.status apt = "cancelled"
         /\ Appointment.updatedBy apt = Some (User._id user)) ->
      t = now env)
  /\ fst (deleteAppointment env user id w) = cancelledResponse
  /\ appointments (db (snd (deleteAppointment env user id w)))
     = replaceAppointment
         (Appointment.touch t
            (Appointment.setStatusUpdatedBy "cancelled" (User._id user) apt))
         (appointments (db w))
  /\ users (db (snd (deleteAppointment env user id w))) = users (db w)
  /\ patients (db (snd (deleteAppointment env user id w)))
     = patients (db w).
Proof.
intros [Hids Hslots] Hfind Hvalid.
rewrite deleteAppointment_run. cbv zeta. rewrite Hfind.
pose proof (find_some _ _ Hfind) as [Hin Hid].
destruct (Appointment.eq_dec
            (Appointment.setStatusUpdatedBy "cancelled" (User._id user) apt)
            apt) as [E|N].
- exists (Appointment.updatedAt apt). split; [reflexivity|].
  split.
  { intros Hn. exfalso. apply Hn. split.
    - exact (eq_sym (f_equal Appointment.status E)).
    - exact (eq_sym (f_equal Appointment.updatedBy E)). }
  split; [reflexivity|]. split; [|split; reflexivity].
  rewrite E, touch_same. cbn [snd db logOp].
  symmetry. apply replace_self; assumption.
- rewrite (cancel_keeps_valid _ _ Hvalid). cbn [negb].
  destruct (existsb _ (appointments (db w))) eqn:Hex.
  + exfalso. apply existsb_exists in Hex.
    destruct Hex as [b [Hb Hc]]. apply andb_true_iff in Hc.
    destruct Hc as [Hne Hs]. apply negb_true_iff, String.eqb_neq in Hne.
    apply Hne.
    assert (b = apt) by (apply (uniqueSlots_same (appointments (db w)));
                         assumption).
    subst b. reflexivity.
  + exists (now env). split.
    { intros [Hs Hu]. exfalso. apply N.
      destruct apt. cbn in Hs, Hu. subst. reflexivity. }
    split; [reflexivity|].
    split; [reflexivity|]. split; [reflexivity|]. split; reflexivity.
Qed.

Lemma postAppointment_keeps_indexes (env : Env) (user : User.t)
(body : NewAppointmentBody) (w : World) :
indexesHold w -> indexesHold (snd (postAppointment env user body w)).
Proof.
intros H. unfold postAppointment.
apply (preserves_tryCatch indexesHold); [|exact H].
step_handler indexesHold_log.
apply Appointment_insert_keeps_indexes.
Qed.

(** The scenario: A is created, A is cancelled, B is posted on the slot
    of A. *)
Lemma cancelled_slot_stays_taken (env1 env2 env3 : Env)
(creator canceller creator2 : User.t) (bodyA bodyB : NewAppointmentBody)
(w : World) :
let r1 := postAppointment env1 creator bodyA w in
let r2 := deleteAppointment env2 canceller (freshId env1) (snd r1) in
let r3 := postAppointment env3 creator2 bodyB (snd r2) in
indexesHold w ->
statusCode (fst r1) = 201 ->
n_doctor bodyB = n_doctor bodyA ->
n_date bodyB = n_date bodyA ->
n_time bodyB = n_time bodyA ->
patientResolves (db w) (n_patient bodyB) ->
(exists b, newAppointment env3 creator2 bodyB = Some b
           /\ Appointment.validate b = true) ->
fst r2 = cancelledResponse
/\ (exists a,
      find (fun x => String.eqb (Appointment._id x) (freshId env1))
        (appointments (db (snd r2))) = Some a
      /\ Appointment.status a = "cancelled"
      /\ Appointment.doctor a = n_doctor bodyA
      /\ parseDate (n_date bodyA) = Some (Appointment.date a)
      /\ Appointment.time a = n_time bodyA)
/\ (forall d, parseDate (n_date bodyB) = Some d ->
              find (conflictsWith (n_doctor bodyB) d (n_time bodyB))
                (appointments (db (snd r2))) = None)
/\ fst r3 = internalError
/\ db (snd r3) = db (snd r2)
/\ (forall b, newAppointment env3 creator2 bodyB = Some b ->
              fst (Appointment_insert b (snd r2)) = Thrown DuplicateKey).
Proof.
intros r1 r2 r3 Hinv H201 Edoc Edate Etime Hpat [b [Hb Hbvalid]].
destruct (postAppointment_created env1 creator bodyA w H201)
  as [a [Ha [Havalid [Hfresh [_ [HdocA [_ Hdb1]]]]]]].
fold r1 in Hdb1.
destruct (newAppointment_fields _ _ _ _ Ha) as [Aid [Adoc [Adate Atime]]].
destruct (newAppointment_fields _ _ _ _ Hb) as [_ [Bdoc [Bdate Btime]]].
assert (Hinv1 : indexesHold (snd r1))
  by (apply postAppointment_keeps_indexes, Hinv).
assert (Happs1 : appointments (db (snd r1)) = (appointments (db w) ++ [a])%list)
  by (rewrite Hdb1; reflexivity).
assert (Hfind1 : find (fun x => String.eqb (Appointment._id x) (freshId env1))
                   (appointments (db (snd r1))) = Some a).
{ rewrite Happs1. apply find_snoc_fresh.
  - intros x Hx. apply String.eqb_neq. rewrite <- Aid. apply (Hfresh x Hx).
  - apply String.eqb_eq. exact Aid. }
destruct (deleteAppointment_cancels env2 canceller (freshId env1) (snd r1) a
            Hinv1 Hfind1 Havalid)
  as [t [_ [_ [Hresp [Happs2 [Husers2 Hpats2]]]]]].
fold r2 in Hresp, Happs2, Husers2, Hpats2.
set (a2 := Appointment.touch t
             (Appointment.setStatusUpdatedBy "cancelled"
                (User._id canceller) a)) in *.
rewrite Happs1 in Happs2.
rewrite (replace_snoc_fresh (appointments (db w)) a a2) in Happs2;
  [|intros x Hx; apply (Hfresh x Hx)|reflexivity].
assert (Hslot2 : forall x, sameSlot x a2 = sameSlot x a) by reflexivity.
assert (Hsame : sameSlot a2 b = true).
{ rewrite sameSlot_sym, Hslot2, sameSlot_sym. apply sameSlot_spec.
  rewrite Adoc, Bdoc, Atime, Btime.
  rewrite Edate, Adate in Bdate. inversion Bdate. auto. }
assert (Hfree : forall d, parseDate (n_date bodyB) = Some d ->
          forall x, In x (appointments (db (snd r2))) ->
                    ~ collides (n_doctor bodyB) d (n_time bodyB) x).
{ intros d Hd x Hx [C1 [C2 [C3 [C4 _]]]].
  rewrite Happs2 in Hx. apply in_app_or in Hx. destruct Hx as [Hx|[Hx|[]]].
  - destruct (Hfresh x Hx) as [_ Hs].
    assert (sameSlot x a = true); [|congruence].
    apply sameSlot_spec. rewrite Adoc, Atime.
    rewrite Edate, Adate in Hd. inversion Hd. subst d.
    rewrite <- Edoc, <- Etime. auto.
  - subst x. apply C4. reflexivity. }
split; [exact Hresp|].
split.
{ exists a2. split; [|repeat split; assumption].
  rewrite Happs2. apply find_snoc_fresh.
  - intros x Hx. apply String.eqb_neq. rewrite <- Aid. apply (Hfresh x Hx).
  - apply String.eqb_eq. exact Aid. }
split.
{ intros d Hd.
  destruct (find _ (appointments (db (snd r2)))) as [x|] eqn:E; [|reflexivity].
  apply find_some in E. destruct E as [Hx Hc]. exfalso.
  apply (Hfree d Hd x Hx). apply conflictsWith_spec, Hc. }
assert (HpatB : patientResolves (db (snd r2)) (n_patient bodyB)).
{ unfold patientResolves in *. rewrite Hpats2, Hdb1. exact Hpat. }
assert (HdocB : doctorResolves (db (snd r2)) (n_doctor bodyB)).
{ unfold doctorResolves in *. rewrite Husers2, Hdb1, Edoc. exact HdocA. }
destruct (occupied_slot_refuses_insert env3 creator2 bodyB (snd r2)
            (Appointment.date b) b a2 HpatB HdocB
            (Hfree _ Bdate) Hb Hbvalid)
  as [R1 [R2 R3]].
- rewrite Happs2. apply in_or_app. right. left. reflexivity.
- exact Hsame.
- reflexivity.
- fold r3 in R1, R2. split; [exact R1|]. split; [exact R2|].
  intros b' Hb'. rewrite Hb in Hb'. inversion Hb'; subst b'.
  apply R3. reflexivity.
Qed.

(** C3. The appointment collection keeps, through every sequence of
    requests, the invariant that no two of its documents, whatever their
    status, share doctor, date and time (and none share [_id]).
    Consequently, when appointment A is created, then cancelled, and an
    appointment B is posted on the doctor, date and time of A, the
    conflict check finds nothing (A is cancelled) and lets B through, but
    the insert of B fails with a duplicate key on the unique index: the
    request is answered 500 and the store keeps A alone. *)
Theorem slot_index_covers_every_status (w : World) :
indexesHold w ->
(forall calls, indexesHold (serve calls w))
/\ (forall calls a b,
      In a (appointments (db (serve calls w))) ->
      In b (appointments (db (serve calls w))) ->
      Appointment.doctor a = Appointment.doctor b ->
      Appointment.date a = Appointment.date b ->
      Appointment.time a = Appointment.time b ->
      a = b)
/\ (forall (env1 env2 env3 : Env) (creator canceller creator2 : User.t)
      (bodyA bodyB : NewAppointmentBody),
      let r1 := postAppointment env1 creator bodyA w in
      let r2 := deleteAppointment env2 canceller (freshId env1) (snd r1) in
      let r3 := postAppointment env3 creator2 bodyB (snd r2) in
      statusCode (fst r1) = 201 ->
      n_doctor bodyB = n_doctor bodyA ->
      n_date bodyB = n_date bodyA ->
      n_time bodyB = n_time bodyA ->
      patientResolves (db w) (n_patient bodyB) ->
      (exists b, newAppointment env3 creator2 bodyB = Some b
                 /\ Appointment.validate b = true) ->
      fst r2 = cancelledResponse
      /\ (exists a,
            find (fun x => String.eqb (Appointment._id x) (freshId env1))
              (appointments (db (snd r2))) = Some a
            /\ Appointment.status a = "cancelled"
            /\ Appointment.doctor a = n_doctor bodyA
            /\ parseDate (n_date bodyA) = Some (Appointment.date a)
            /\ Appointment.time a = n_time bodyA)
      /\ (forall d, parseDate (n_date bodyB) = Some d ->
                    find (conflictsWith (n_doctor bodyB) d (n_time bodyB))
                      (appointments (db (snd r2))) = None)
      /\ fst r3 = internalError
      /\ db (snd r3) = db (snd r2)
      /\ (forall b, newAppointment env3 creator2 bodyB = Some b ->
                    fst (Appointment_insert b (snd r2))
                    = Thrown DuplicateKey)).
Proof.
intros Hinv. split; [|split].
- intros calls. apply serve_keeps_indexes, Hinv.
- intros calls a b Ha Hb E1 E2 E3.
  destruct (serve_keeps_indexes calls w Hinv) as [_ Hs].
  apply (uniqueSlots_same _ a b Hs Ha Hb).
  apply sameSlot_spec. auto.
- intros env1 env2 env3 creator canceller creator2 bodyA bodyB.
  apply cancelled_slot_stays_taken. exact Hinv.
Qed.

(** C7. DELETE /appointments/:id on a stored appointment answers 200
    and keeps the document in the collection, which neither grows nor
    shrinks and whose other documents stay as they were: the document is
    stored with status cancelled and with [updatedBy] the authenticated
    account, every other path of the schema and [createdAt] as before,
    whatever the status was.  [updatedAt] alone is refreshed, to the time
    of the request, unless the appointment was already cancelled by the
    same account, in which case nothing is written. *)
Theorem delete_appointment_is_cancellation (env : Env) (user : User.t)
(id : ObjectId) (w : World) (apt : Appointment.t) :
indexesHold w ->
find (fun a => String.eqb (Appointment._id a) id) (appointments (db w))
= Some apt ->
Appointment.validate apt = true ->
exists stored,
  fst (deleteAppointment env user id w) = cancelledResponse
  /\ appointments (db (snd (deleteAppointment env user id w)))
     = replaceAppointment stored (appointments (db w))
  /\ List.length (appointments (db (snd (deleteAppointment env user id w))))
     = List.length (appointments (db w))
  /\ find (fun a => String.eqb (Appointment._id a) id)
       (appointments (db (snd (deleteAppointment env user id w))))
     = Some stored
  /\ (forall x, In x (appointments (db w)) -> Appointment._id x <> id ->
                In x (appointments
                        (db (snd (deleteAppointment env user id w)))))
  /\ Appointment.status stored = "cancelled"
  /\ Appointment.updatedBy stored = Some (User._id user)
  /\ Appointment._id stored = Appointment._id apt
  /\ Appointment.patient stored = Appointment.patient apt
  /\ Appointment.doctor stored = Appointment.doctor apt
  /\ Appointment.type stored = Appointment.type apt
  /\ Appointment.date stored = Appointment.date apt
  /\ Appointment.time stored = Appointment.time apt
  /\ Appointment.duration stored = Appointment.duration apt
  /\ Appointment.reason stored = Appointment.reason apt
  /\ Appointment.notes stored = Appointment.notes apt
  /\ Appointment.symptoms stored = Appointment.symptoms apt
  /\ Appointment.diagnosis stored = Appointment.diagnosis apt
  /\ Appointment.treatment stored = Appointment.treatment apt
  /\ Appointment.prescriptions stored = Appointment.prescriptions apt
  /\ Appointment.followUpRequired stored = Appointment.followUpRequired apt
  /\ Appointment.followUpDate stored = Appointment.followUpDate apt
  /\ Appointment.createdBy stored = Appointment.createdBy apt
  /\ Appointment.createdAt stored = Appointment.createdAt apt
  /\ (Appointment.status apt = "cancelled"
      /\ Appointment.updatedBy apt = Some (User._id user) ->
      Appointment.updatedAt stored = Appointment.updatedAt apt)
  /\ (~ (Appointment.status apt = "cancelled"
         /\ Appointment.updatedBy apt = Some (User._id user)) ->
      Appointment.updatedAt stored = now env)
  /\ users (db (snd (deleteAppointment env user id w))) = users (db w)
  /\ patients (db (snd (deleteAppointment env user id w)))
     = patients (db w).
Proof.
intros Hinv Hfind Hvalid.
destruct (deleteAppointment_cancels env user id w apt Hinv Hfind Hvalid)
  as [t [Hsame [Hchanged [Hresp [Happs [Hu Hp]]]]]].
pose proof (find_some _ _ Hfind) as [Hin Hid].
apply String.eqb_eq in Hid.
exists (Appointment.touch t
          (Appointment.setStatusUpdatedBy "cancelled" (User._id user) apt)).
split; [exact Hresp|]. split; [exact Happs|].
split; [rewrite Happs; unfold replaceAppointment; apply length_map|].
split.
{ rewrite Happs, <- Hid.
  apply (find_replace (appointments (db w))
           (Appointment.touch t
              (Appointment.setStatusUpdatedBy "cancelled" (User._id user)
                 apt))).
  exists apt. split; [assumption|reflexivity]. }
split.
{ intros x Hx Hne. rewrite Happs. unfold replaceAppointment.
  apply in_map_iff. exists x. split; [|assumption].
  cbn [Appointment._id Appointment.touch Appointment.setStatusUpdatedBy].
  rewrite Hid. apply String.eqb_neq in Hne. rewrite Hne. reflexivity. }
repeat (split; [reflexivity|]).
split; [exact Hsame|]. split; [exact Hchanged|].
split; assumption.
Qed.

(** *** Patients *)

Lemma getPatient_run (id : ObjectId) (w : World) :
getPatient id w
= match find (activePatient id) (patients (db w)) with
  | None => (patientNotFound, logOp (Query Patients) w)
  | Some p => (mkResponse 200 true None (Some (DataPatient p)),
               logOp (Query Patients) w)
  end.
Proof.
unfold getPatient, tryCatch, bind, Patient_findOne, send, ret.
cbn [db log logOp fst snd].
destruct (find _ (patients (db w))); reflexivity.
Qed.

Lemma deletePatient_run (env : Env) (id : ObjectId) (w : World) :
deletePatient env id w
= let w1 := logOp (Query Patients) w in
  match find (activePatient id) (patients (db w)) with
  | None => (patientNotFound, w1)
  | Some p =>
      let p' := Patient.setIsActive false p in
      if Patient.eq_dec p' p then (deletedResponse, w1)
      else if negb (Patient.validate p') then (internalError, w1)
      else
        let w2 := logOp (Write Patients) w1 in
        if existsb (fun q => negb (String.eqb (Patient._id q) (Patient._id p'))
                             && String.eqb (Patient.email q) (Patient.email p'))
             (patients (db w))
        then (internalError, w2)
        else
          (deletedResponse,
           setPatients
             (replacePatient (Patient.touch (now env) p') (patients (db w)))
             w2)
  end.
Proof.
unfold deletePatient, tryCatch, bind, Patient_findOne, Patient_update,
  send, ret.
cbn [db log logOp fst snd].
destruct (find _ (patients (db w))) as [p|]; [|reflexivity].
cbv zeta.
destruct (Patient.eq_dec _ p); [reflexivity|].
destruct (negb (Patient.validate _)); [reflexivity|].
cbn [db log logOp fst snd].
destruct (existsb _ (patients (db w))); reflexivity.
Qed.

Lemma putPatient_run (env : Env) (id : ObjectId) (body : PatientBody)
(w : World) :
putPatient env id body w
= let w1 := logOp (Query Patients) w in
  match find (activePatient id) (patients (db w)) with
  | None => (patientNotFound, w1)
  | Some p =>
      if negb (String.eqb (pb_email body) (Patient.email p)) then
        let w2 := logOp (Query Patients) w1 in
        if isSome (find (fun q => String.eqb (Patient.email q) (pb_email body)
                                  && negb (String.eqb (Patient._id q) id)
                                  && Patient.isActive q)
                     (patients (db w)))
        then (failure 400 "Patient with this email already exists", w2)
        else putPatient_save env p body w2
      else putPatient_save env p body w1
  end.
Proof.
assert (Hsave : forall p wk,
  tryCatch
    (match assignPatient p body with
     | None => throw ValidationError
     | Some updated =>
         bind (Patient_update env p updated)
           (fun saved =>
              ret (mkResponse 200 true (Some "Patient updated successfully")
                     (Some (DataPatient saved))))
     end) wk
  = putPatient_save env p body wk).
{ intros p wk.
  unfold tryCatch, putPatient_save, bind, Patient_update, ret, throw.
  destruct (assignPatient p body) as [updated|]; [|reflexivity].
  cbv zeta.
  destruct (Patient.eq_dec updated p); [reflexivity|].
  destruct (negb (Patient.validate updated)); [reflexivity|].
  destruct (existsb _ (patients (db wk))); reflexivity. }
unfold putPatient, Patient_findOne.
unfold tryCatch at 1. unfold bind at 1.
destruct (find _ (patients (db w))) as [p|]; [|reflexivity].
cbv zeta.
destruct (negb (String.eqb (pb_email body) (Patient.email p))).
- unfold bind at 1. unfold bind at 1. unfold rejectIf.
  cbn [db log logOp fst snd].
  destruct (isSome (find _ (patients (db w)))); [reflexivity|].
  apply Hsave.
- unfold bind at 1, ret at 1. apply Hsave.
Qed.

Lemma activePatient_found (id : ObjectId) (l : list Patient.t) (p : Patient.t) :
find (activePatient id) l = Some p ->
In p l /\ Patient._id p = id /\ Patient.isActive p = true.
Proof.
intros H. apply find_some in H. destruct H as [Hin H].
unfold activePatient in H. apply andb_true_iff in H.
rewrite String.eqb_eq in H. tauto.
Qed.

Lemma softDeleted_log (id : ObjectId) (stored : Patient.t) (op : DbOp)
(w : World) :
softDeleted id stored w -> softDeleted id stored (logOp op w).
Proof. intros H. exact H. Qed.

Lemma softDeleted_hides (id : ObjectId) (stored : Patient.t) (w : World) :
softDeleted id stored w -> find (activePatient id) (patients (db w)) = None.
Proof.
intros [_ H].
destruct (find (activePatient id) (patients (db w))) as [p|] eqn:E;
  [|reflexivity].
apply activePatient_found in E. destruct E as [Hin [Hid Hact]].
rewrite (H p Hin Hid) in Hact. discriminate.
Qed.

Lemma Patient_insert_keeps_softDeleted (id : ObjectId) (stored p : Patient.t) :
Patient._id stored = id ->
preserves (softDeleted id stored) (Patient_insert p).
Proof.
intros Hid w [Hin Hall]. unfold Patient_insert.
destruct (negb (Patient.validate p)); [split; assumption|].
destruct (existsb _ (patients (db w))) eqn:Hex; [split; assumption|].
unfold softDeleted, setPatients. cbn [snd db patients]. split.
- apply in_or_app. left. assumption.
- intros q Hq Hqid. apply in_app_or in Hq. destruct Hq as [Hq|[Hq|[]]].
  + apply Hall; assumption.
  + subst q. exfalso.
    assert (existsb (fun q => String.eqb (Patient._id q) (Patient._id p)
                              || String.eqb (Patient.email q) (Patient.email p))
              (patients (db w)) = true); [|congruence].
    apply existsb_exists. exists stored. split; [assumption|].
    rewrite Hid, Hqid, String.eqb_refl. reflexivity.
Qed.

Lemma replacePatient_keeps_softDeleted (id : ObjectId) (stored p : Patient.t)
(w : World) (log' : list DbOp) :
Patient._id stored = id ->
Patient._id p <> id ->
softDeleted id stored w ->
softDeleted id stored
  (mkWorld (mkDb (users (db w)) (replacePatient p (patients (db w)))
              (appointments (db w))) log').
Proof.
intros Hid Hne [Hin Hall]. unfold softDeleted, replacePatient.
cbn [db patients]. split.
- apply in_map_iff. exists stored. split; [|assumption].
  destruct (String.eqb_spec (Patient._id stored) (Patient._id p)) as [E|N];
    [|reflexivity].
  exfalso. apply Hne. congruence.
- intros q' Hq' Hq'id. apply in_map_iff in Hq'.
  destruct Hq' as [q [Eq Hq]].
  destruct (String.eqb_spec (Patient._id q) (Patient._id p)) as [E|N].
  + subst q'. contradiction.
  + subst q'. apply Hall; assumption.
Qed.

Lemma assignPatient_keeps_id (p updated : Patient.t) (body : PatientBody) :
assignPatient p body = Some updated -> Patient._id updated = Patient._id p.
Proof.
unfold assignPatient. destruct (parseDate (pb_dateOfBirth body));
  [|discriminate].
intros H. inversion H. reflexivity.
Qed.

Lemma putPatient_save_keeps_softDeleted (id : ObjectId) (stored : Patient.t)
(env : Env) (p : Patient.t) (body : PatientBody) (w : World) :
Patient._id stored = id ->
Patient._id p <> id ->
softDeleted id stored w ->
softDeleted id stored (snd (putPatient_save env p body w)).
Proof.
intros Hid Hne H. unfold putPatient_save.
destruct (assignPatient p body) as [updated|] eqn:Ha; [|exact H].
cbv zeta.
destruct (Patient.eq_dec updated p); [exact H|].
destruct (negb (Patient.validate updated)); [exact H|].
destruct (existsb _ (patients (db w))); [exact H|].
apply (replacePatient_keeps_softDeleted id stored
         (Patient.touch (now env) updated) w); try assumption.
change (Patient._id updated <> id).
rewrite (assignPatient_keeps_id _ _ _ Ha). exact Hne.
Qed.

Lemma putPatient_keeps_softDeleted (id : ObjectId) (stored : Patient.t)
(env : Env) (id' : ObjectId) (body : PatientBody) (w : World) :
Patient._id stored = id ->
softDeleted id stored w ->
softDeleted id stored (snd (putPatient env id' body w)).
Proof.
intros Hid H. rewrite putPatient_run. cbv zeta.
destruct (find _ (patients (db w))) as [p|] eqn:Hfind; [|exact H].
apply activePatient_found in Hfind. destruct Hfind as [Hin [Hpid Hact]].
assert (Hne : Patient._id p <> id).
{ intros E. destruct H as [_ Hall]. rewrite (Hall p Hin E) in Hact.
  discriminate. }
destruct (negb (String.eqb (pb_email body) (Patient.email p))).
- destruct (isSome (find _ (patients (db w)))); [exact H|].
  apply putPatient_save_keeps_softDeleted; assumption.
- apply putPatient_save_keeps_softDeleted; assumption.
Qed.

Lemma deletePatient_keeps_softDeleted (id : ObjectId) (stored : Patient.t)
(env : Env) (id' : ObjectId) (w : World) :
Patient._id stored = id ->
softDeleted id stored w ->
softDeleted id stored (snd (deletePatient env id' w)).
Proof.
intros Hid H. rewrite deletePatient_run. cbv zeta.
destruct (find _ (patients (db w))) as [p|] eqn:Hfind; [|exact H].
apply activePatient_found in Hfind. destruct Hfind as [Hin [Hpid Hact]].
assert (Hne : Patient._id p <> id).
{ intros E. destruct H as [_ Hall]. rewrite (Hall p Hin E) in Hact.
  discriminate. }
destruct (Patient.eq_dec _ p); [exact H|].
destruct (negb (Patient.validate _)); [exact H|].
destruct (existsb _ (patients (db w))); [exact H|].
apply (replacePatient_keeps_softDeleted id stored
         (Patient.touch (now env) (Patient.setIsActive false p)) w);
  assumption.
Qed.

Lemma Appointment_insert_keeps_patients (P : list Patient.t -> Prop)
(a : Appointment.t) :
preserves (fun w => P (patients (db w))) (Appointment_insert a).
Proof.
intros w H. unfold Appointment_insert.
destruct (negb (Appointment.validate a)); [assumption|].
destruct (existsb _ (appointments (db w))); assumption.
Qed.

Lemma Appointment_update_keeps_patients (P : list Patient.t -> Prop)
(env : Env) (old a : Appointment.t) :
preserves (fun w => P (patients (db w))) (Appointment_update env old a).
Proof.
intros w H. unfold Appointment_update.
destruct (Appointment.eq_dec a old); [assumption|].
destruct (negb (Appointment.validate a)); [assumption|].
destruct (existsb _ (appointments (db w))); assumption.
Qed.

Lemma User_update_keeps_patients (P : list Patient.t -> Prop)
(env : Env) (old u : User.t) :
preserves (fun w => P (patients (db w))) (User_update env old u).
Proof.
intros w H. unfold User_update.
destruct (User.eq_dec u old); [assumption|].
destruct (negb (User.validate u)); [assumption|].
destruct (existsb _ (users (db w))); assumption.
Qed.

(** No request brings a soft-deleted patient back or alters its record. *)
Lemma route_keeps_softDeleted (id : ObjectId) (stored : Patient.t) (c : Call)
(w : World) :
Patient._id stored = id ->
softDeleted id stored w -> softDeleted id stored (snd (route c w)).
Proof.
intros Hid H. unfold route, authorize.
destruct (request c);
  try (destruct (negb (JS.includes _ (User.role (user c)))); [exact H|]);
  try (apply putPatient_keeps_softDeleted; assumption);
  try (apply deletePatient_keeps_softDeleted; assumption);
  unfold getAvailability, postAppointment, putAppointment, assignAndSave,
    deleteAppointment, getPatient, postPatient, putUser, deleteUser,
    castParam;
  apply (preserves_tryCatch (softDeleted id stored)); try exact H;
  step_handler (softDeleted_log id stored);
  try apply (Patient_insert_keeps_softDeleted id stored _ Hid);
  try apply (Appointment_insert_keeps_patients
               (fun l => In stored l
                         /\ forall q, In q l -> Patient._id q = id ->
                                      Patient.isActive q = false));
  try apply (Appointment_update_keeps_patients
               (fun l => In stored l
                         /\ forall q, In q l -> Patient._id q = id ->
                                      Patient.isActive q = false));
  try apply (User_update_keeps_patients
               (fun l => In stored l
                         /\ forall q, In q l -> Patient._id q = id ->
                                      Patient.isActive q = false)).
Qed.

Lemma serve_keeps_softDeleted (id : ObjectId) (stored : Patient.t)
(calls : list Call) (w : World) :
Patient._id stored = id ->
softDeleted id stored w -> softDeleted id stored (serve calls w).
Proof.
intros Hid. unfold serve. revert w.
induction calls as [|c calls IH]; intros w H; simpl; [exact H|].
apply IH, route_keeps_softDeleted; assumption.
Qed.

Lemma deletePatient_soft (env : Env) (id : ObjectId) (w : World)
(p : Patient.t) :
find (activePatient id) (patients (db w)) = Some p ->
Patient.validate p = true ->
uniqueEmails (patients (db w)) ->
let stored := Patient.touch (now env) (Patient.setIsActive false p) in
fst (deletePatient env id w) = deletedResponse
/\ db (snd (deletePatient env id w))
   = mkDb (users (db w)) (replacePatient stored (patients (db w)))
       (appointments (db w))
/\ softDeleted id stored (snd (deletePatient env id w)).
Proof.
intros Hfind Hvalid Hemails stored.
pose proof (activePatient_found _ _ _ Hfind) as [Hin [Hid Hact]].
assert (Hrun : deletePatient env id w
               = (deletedResponse,
                  setPatients (replacePatient stored (patients (db w)))
                    (logOp (Write Patients) (logOp (Query Patients) w)))).
{ rewrite deletePatient_run. cbv zeta. rewrite Hfind.
  destruct (Patient.eq_dec (Patient.setIsActive false p) p) as [E|_].
  { exfalso. apply (f_equal Patient.isActive) in E.
    cbn [Patient.isActive Patient.setIsActive] in E. congruence. }
  change (Patient.validate (Patient.setIsActive false p))
    with (Patient.validate p).
  rewrite Hvalid. cbn [negb].
  destruct (existsb _ (patients (db w))) eqn:Hex; [|reflexivity].
  exfalso. apply existsb_exists in Hex. destruct Hex as [q [Hq Hc]].
  apply andb_true_iff in Hc. destruct Hc as [Hne He].
  apply negb_true_iff, String.eqb_neq in Hne.
  cbn [Patient._id Patient.email Patient.setIsActive] in Hne, He.
  destruct (ForallOrdPairs_In Hemails q p Hq Hin) as [E|[E|E]].
  - subst q. apply Hne. reflexivity.
  - congruence.
  - rewrite String.eqb_sym in E. congruence. }
rewrite Hrun. split; [reflexivity|]. split; [reflexivity|].
unfold softDeleted, setPatients, replacePatient. cbn [snd db patients].
split.
- apply in_map_iff. exists p. split; [|assumption].
  cbn [Patient._id Patient.touch Patient.setIsActive stored].
  rewrite String.eqb_refl. reflexivity.
- intros q' Hq' Hq'id. apply in_map_iff in Hq'.
  destruct Hq' as [q [Eq Hq]].
  destruct (String.eqb_spec (Patient._id q) (Patient._id stored)) as [E|N].
  + subst q'. reflexivity.
  + subst q'. exfalso. apply N. rewrite Hq'id. symmetry. exact Hid.
Qed.

(** C6. DELETE /patients/:id on an active patient answers 200 and
    stores the record with [isActive] false: the record stays in the
    collection, which keeps its size and its other records, and every
    other path of the schema and [createdAt] are as before; [updatedAt]
    is refreshed to the time of the request.  From then on, after any
    sequence of requests, GET /patients/:id answers 404 and the stored
    record is still in the collection, unaltered. *)
Theorem delete_patient_is_soft (env : Env) (id : ObjectId) (w : World)
(p : Patient.t) :
find (activePatient id) (patients (db w)) = Some p ->
Patient.validate p = true ->
uniqueEmails (patients (db w)) ->
exists stored,
  fst (deletePatient env id w) = deletedResponse
  /\ patients (db (snd (deletePatient env id w)))
     = replacePatient stored (patients (db w))
  /\ List.length (patients (db (snd (deletePatient env id w))))
     = List.length (patients (db w))
  /\ (forall q, In q (patients (db w)) -> Patient._id q <> id ->
                In q (patients (db (snd (deletePatient env id w)))))
  /\ users (db (snd (deletePatient env id w))) = users (db w)
  /\ appointments (db (snd (deletePatient env id w)))
     = appointments (db w)
  /\ Patient.isActive stored = false
  /\ Patient._id stored = Patient._id p
  /\ Patient.firstName stored = Patient.firstName p
  /\ Patient.lastName stored = Patient.lastName p
  /\ Patient.email stored = Patient.email p
  /\ Patient.phone stored = Patient.phone p
  /\ Patient.dateOfBirth stored = Patient.dateOfBirth p
  /\ Patient.gender stored = Patient.gender p
  /\ Patient.address stored = Patient.address p
  /\ Patient.emergencyContact stored = Patient.emergencyContact p
  /\ Patient.medicalHistory stored = Patient.medicalHistory p
  /\ Patient.currentMedications stored = Patient.currentMedications p
  /\ Patient.allergies stored = Patient.allergies p
  /\ Patient.bloodType stored = Patient.bloodType p
  /\ Patient.insuranceProvider stored = Patient.insuranceProvider p
  /\ Patient.insuranceNumber stored = Patient.insuranceNumber p
  /\ Patient.primaryDoctor stored = Patient.primaryDoctor p
  /\ Patient.profileImage stored = Patient.profileImage p
  /\ Patient.notes stored = Patient.notes p
  /\ Patient.createdAt stored = Patient.createdAt p
  /\ Patient.updatedAt stored = now env
  /\ fst (getPatient id (snd (deletePatient env id w))) = patientNotFound
  /\ (forall calls,
        fst (getPatient id (serve calls (snd (deletePatient env id w))))
        = patientNotFound
        /\ In stored
             (patients (db (serve calls (snd (deletePatient env id w)))))).
Proof.
intros Hfind Hvalid Hemails.
destruct (deletePatient_soft env id w p Hfind Hvalid Hemails)
  as [Hresp [Hdb Hsoft]].
pose proof (activePatient_found _ _ _ Hfind) as [Hin [Hid Hact]].
exists (Patient.touch (now env) (Patient.setIsActive false p)).
split; [exact Hresp|].
split; [rewrite Hdb; reflexivity|].
split; [rewrite Hdb; unfold replacePatient; apply length_map|].
split.
{ intros q Hq Hne. rewrite Hdb. cbn [db patients]. unfold replacePatient.
  apply in_map_iff. exists q. split; [|assumption].
  cbn [Patient._id Patient.touch Patient.setIsActive].
  rewrite Hid. apply String.eqb_neq in Hne. rewrite Hne. reflexivity. }
split; [rewrite Hdb; reflexivity|].
split; [rewrite Hdb; reflexivity|].
repeat (split; [reflexivity|]).
split.
{ rewrite getPatient_run, (softDeleted_hides id _ _ Hsoft). reflexivity. }
intros calls.
assert (Hlater : softDeleted id
                   (Patient.touch (now env) (Patient.setIsActive false p))
                   (serve calls (snd (deletePatient env id w)))).
{ apply serve_keeps_softDeleted; [exact Hid|exact Hsoft]. }
split.
- rewrite getPatient_run, (softDeleted_hides id _ _ Hlater). reflexivity.
- apply Hlater.
Qed.

(** *** Users *)

Lemma putUser_run (env : Env) (caller : User.t) (id : string)
(body : UserBody) (w : World) :
putUser env caller id body w
= match castId id with
  | None => (internalError, w)
  | Some oid =>
      let w1 := logOp (Query Users) w in
      match find (fun u => String.eqb (User._id u) oid && User.isActive u)
              (users (db w)) with
      | None => (failure 404 "User not found", w1)
      | Some user =>
          if negb (String.eqb (User.role caller) "admin")
             && negb (String.eqb (User._id caller) id)
          then (failure 403 "Access denied", w1)
          else
            let body := sanitizeUserBody caller body in
            if truthyField (ub_email body)
               && negb (String.eqb (orElse (ub_email body) "")
                          (User.email user))
            then
              let w2 := logOp (Query Users) w1 in
              if isSome (find (fun u => String.eqb (User.email u)
                                          (orElse (ub_email body) "")
                                        && negb (String.eqb (User._id u) oid)
                                        && User.isActive u) (users (db w)))
              then (failure 400 "User with this email already exists", w2)
              else putUser_username env user oid body w2
            else putUser_username env user oid body w1
      end
  end.
Proof.
unfold putUser, castParam. unfold tryCatch at 1. unfold bind at 1.
destruct (castId id) as [oid|]; [|reflexivity].
unfold ret at 1.
change (match
          bind
            (User_findOne
               (fun u => String.eqb (User._id u) oid && User.isActive u))
            ?k w
        with
        | (Next r, w') => (r, w')
        | (Sent r, w') => (r, w')
        | (Thrown _, w') => (internalError, w')
        end)
  with (tryCatch
          (bind
             (User_findOne
                (fun u => String.eqb (User._id u) oid && User.isActive u))
             k) w).
assert (Hsave : forall user b wk,
  tryCatch
    (bind (User_update env user (assignUser user b))
       (fun saved =>
          ret (mkResponse 200 true (Some "User updated successfully")
                 (Some (DataUser saved))))) wk
  = putUser_save env user b wk).
{ intros user b wk.
  unfold tryCatch, putUser_save, bind, User_update, ret.
  cbv zeta.
  destruct (User.eq_dec (assignUser user b) user); [reflexivity|].
  destruct (negb (User.validate (assignUser user b))); [reflexivity|].
  destruct (existsb _ (users (db wk))); reflexivity. }
assert (Hname : forall user b wk,
  tryCatch
    (bind
       (if truthyField (ub_username b)
           && negb (String.eqb (orElse (ub_username b) "") (User.username user))
        then
          bind (User_findOne
                  (fun u => String.eqb (User.username u)
                              (orElse (ub_username b) "")
                            && negb (String.eqb (User._id u) oid)
                            && User.isActive u))
            (fun existingUser =>
               rejectIf (isSome existingUser)
                 (failure 400 "Username already taken"))
        else ret tt)
       (fun _ =>
          bind (User_update env user (assignUser user b))
            (fun saved =>
               ret (mkResponse 200 true (Some "User updated successfully")
                      (Some (DataUser saved)))))) wk
  = putUser_username env user oid b wk).
{ intros user b wk. unfold putUser_username.
  destruct (truthyField (ub_username b)
            && negb (String.eqb (orElse (ub_username b) "")
                       (User.username user))).
  - unfold tryCatch at 1. unfold bind at 1. unfold bind at 1.
    unfold User_findOne, rejectIf. cbn [db log logOp fst snd].
    destruct (isSome (find _ (users (db wk)))); [reflexivity|].
    apply Hsave.
  - unfold tryCatch at 1. unfold bind at 1. unfold ret at 1.
    apply Hsave. }
unfold User_findOne.
unfold tryCatch at 1. unfold bind at 1.
destruct (find _ (users (db w))) as [user|]; [|reflexivity].
cbv zeta.
unfold bind at 1. unfold rejectIf at 1.
destruct (negb (String.eqb (User.role caller) "admin")
          && negb (String.eqb (User._id caller) id)); [reflexivity|].
unfold ret at 1.
set (b := sanitizeUserBody caller body).
destruct (truthyField (ub_email b)
          && negb (String.eqb (orElse (ub_email b) "") (User.email user))).
- unfold bind at 1. unfold bind at 1. unfold rejectIf at 1.
  cbn [db log logOp fst snd].
  destruct (isSome (find _ (users (db w)))); [reflexivity|].
  apply Hname.
- unfold bind at 1. unfold ret at 1. apply Hname.
Qed.

Lemma uniqueUserIds_same (l : list User.t) (a b : User.t) :
uniqueUserIds l -> In a l -> In b l -> User._id a = User._id b -> a = b.
Proof.
unfold uniqueUserIds. induction l as [|x l IH]; intros Hn Ha Hb E;
  [destruct Ha|].
simpl in Hn. inversion Hn as [|? ? Hnotin Hn']; subst.
destruct Ha as [Ha|Ha], Hb as [Hb|Hb]; subst.
- reflexivity.
- exfalso. apply Hnotin. rewrite E. apply in_map. assumption.
- exfalso. apply Hnotin. rewrite <- E. apply in_map. assumption.
- apply IH; assumption.
Qed.

(** Replacing a user by a document that agrees with it on a path leaves
    that path as it was, user by user. *)
Lemma replaceUser_keeps_path {A : Type} (g : User.t -> A) (l : list User.t)
(user u' : User.t) :
uniqueUserIds l -> In user l ->
User._id u' = User._id user -> g u' = g user ->
map (fun u => (User._id u, g u)) (replaceUser u' l)
= map (fun u => (User._id u, g u)) l.
Proof.
intros Hn Hin Hid Hg. unfold replaceUser. rewrite map_map.
apply map_ext_in. intros v Hv.
destruct (String.eqb_spec (User._id v) (User._id u')) as [E|N];
  [|reflexivity].
assert (v = user) by (apply (uniqueUserIds_same l); congruence).
subst v. congruence.
Qed.

Lemma putUser_save_outcome (env : Env) (user : User.t) (body : UserBody)
(w : World) :
db (snd (putUser_save env user body w)) = db w
\/ (User.validate (assignUser user body) = true
    /\ db (snd (putUser_save env user body w))
       = mkDb (replaceUser (User.touch (now env) (assignUser user body))
                 (users (db w)))
           (patients (db w)) (appointments (db w))).
Proof.
unfold putUser_save. cbv zeta.
destruct (User.eq_dec _ user); [left; reflexivity|].
destruct (User.validate (assignUser user body)); [|left; reflexivity].
cbn [negb].
destruct (existsb _ (users (db w))); [left; reflexivity|].
right. split; reflexivity.
Qed.

Lemma putUser_save_keeps_passwords (env : Env) (user : User.t)
(body : UserBody) (w : World) :
uniqueUserIds (users (db w)) -> In user (users (db w)) ->
ub_password body = None ->
passwords (snd (putUser_save env user body w)) = passwords w.
Proof.
intros Hn Hin Hpw. unfold passwords.
destruct (putUser_save_outcome env user body w) as [E|[_ E]]; rewrite E;
  [reflexivity|].
cbn [db users].
apply (replaceUser_keeps_path User.password _ user); try assumption;
  try reflexivity.
cbn [User.password User.touch assignUser]. rewrite Hpw. reflexivity.
Qed.

Lemma empty_role_invalid (user : User.t) (body : UserBody) :
ub_role body = Some "" -> User.validate (assignUser user body) = false.
Proof.
intros H. unfold User.validate, assignUser. cbn [User.role].
rewrite H. cbn [assigned]. apply andb_false_r.
Qed.

Lemma putUser_save_keeps_roles (env : Env) (user : User.t)
(body : UserBody) (w : World) :
uniqueUserIds (users (db w)) -> In user (users (db w)) ->
truthyField (ub_role body) = false ->
rolesOf (snd (putUser_save env user body w)) = rolesOf w.
Proof.
intros Hn Hin Hrole. unfold rolesOf.
destruct (putUser_save_outcome env user body w) as [E|[Hv E]]; rewrite E;
  [reflexivity|].
cbn [db users].
destruct (ub_role body) as [r|] eqn:Hr.
- destruct r as [|c r]; [|discriminate].
  rewrite (empty_role_invalid user body Hr) in Hv. discriminate.
- apply (replaceUser_keeps_path User.role _ user); try assumption;
    try reflexivity.
  cbn [User.role User.touch assignUser]. rewrite Hr. reflexivity.
Qed.

Lemma sanitize_strips_password (caller : User.t) (body : UserBody) :
ub_password (sanitizeUserBody caller body) = None.
Proof. reflexivity. Qed.

Lemma sanitize_strips_role (caller : User.t) (body : UserBody) :
User.role caller <> "admin" ->
truthyField (ub_role (sanitizeUserBody caller body)) = false.
Proof.
intros Hna. unfold sanitizeUserBody.
apply String.eqb_neq in Hna. rewrite Hna. cbn [negb andb].
destruct (truthyField (ub_role body)) eqn:E; cbn [ub_role deletePassword];
  [reflexivity|exact E].
Qed.

(** A property of the users that the save at the end of PUT /users/:id
    keeps is kept by the whole handler: nothing else writes. *)
Lemma putUser_writes_through_save (Q : World -> World -> Prop) (env : Env)
(caller : User.t) (id : string) (body : UserBody) (w : World) :
(forall w', db w' = db w -> Q w w') ->
(forall user w', db w' = db w -> In user (users (db w)) ->
                 Q w (snd (putUser_save env user
                             (sanitizeUserBody caller body) w'))) ->
Q w (snd (putUser env caller id body w)).
Proof.
intros Hsame Hsave. rewrite putUser_run.
destruct (castId id) as [oid|]; [|apply Hsame; reflexivity].
cbv zeta.
destruct (find _ (users (db w))) as [user|] eqn:Hfind;
  [|apply Hsame; reflexivity].
apply find_some in Hfind. destruct Hfind as [Hin _].
destruct (negb (String.eqb (User.role caller) "admin")
          && negb (String.eqb (User._id caller) id));
  [apply Hsame; reflexivity|].
assert (Hname : forall wk, db wk = db w ->
          Q w (snd (putUser_username env user oid
                      (sanitizeUserBody caller body) wk))).
{ intros wk Hwk. unfold putUser_username.
  destruct (truthyField (ub_username (sanitizeUserBody caller body))
            && negb (String.eqb
                       (orElse (ub_username (sanitizeUserBody caller body)) "")
                       (User.username user))).
  - cbv zeta. destruct (isSome (find _ (users (db wk))));
      [apply Hsame; exact Hwk|].
    apply Hsave; [exact Hwk|exact Hin].
  - apply Hsave; [exact Hwk|exact Hin]. }
destruct (truthyField (ub_email (sanitizeUserBody caller body))
          && negb (String.eqb
                     (orElse (ub_email (sanitizeUserBody caller body)) "")
                     (User.email user))).
- destruct (isSome (find _ (users (db w)))); [apply Hsame; reflexivity|].
  apply Hname. reflexivity.
- apply Hname. reflexivity.
Qed.

(** C10. PUT /users/:id strips [password] from every body, whoever
    calls, and the stored password hash of every user is after the
    request what it was before.  When the caller is not an admin, a role
    of the body that is truthy (a non-empty string) is stripped as well;
    an empty role is left in the body, and the save then fails on the
    enumeration of roles; either way the stored role of every user is
    what it was before. *)
Theorem put_user_keeps_password_and_role (env : Env) (caller : User.t)
(id : string) (body : UserBody) (w : World) :
uniqueUserIds (users (db w)) ->
ub_password (sanitizeUserBody caller body) = None
/\ passwords (snd (putUser env caller id body w)) = passwords w
/\ (User.role caller <> "admin" ->
    (truthyField (ub_role body) = true ->
     ub_role (sanitizeUserBody caller body) = None)
    /\ (ub_role (sanitizeUserBody caller body) = None
        \/ ub_role (sanitizeUserBody caller body) = Some "")
    /\ rolesOf (snd (putUser env caller id body w)) = rolesOf w).
Proof.
intros Hn. split; [reflexivity|]. split.
- apply (putUser_writes_through_save
           (fun w w' => passwords w' = passwords w)).
  + intros w' Hw'. unfold passwords. rewrite Hw'. reflexivity.
  + intros user w' Hw' Hin.
    rewrite putUser_save_keeps_passwords.
    * unfold passwords. rewrite Hw'. reflexivity.
    * rewrite Hw'. exact Hn.
    * rewrite Hw'. exact Hin.
    * reflexivity.
- intros Hna.
  pose proof (sanitize_strips_role caller body Hna) as Hrole.
  split; [|split].
  + intros Ht. unfold sanitizeUserBody.
    apply String.eqb_neq in Hna. rewrite Hna, Ht. reflexivity.
  + destruct (ub_role (sanitizeUserBody caller body)) as [[|c r]|];
      [right; reflexivity|discriminate|left; reflexivity].
  + apply (putUser_writes_through_save
             (fun w w' => rolesOf w' = rolesOf w)).
    * intros w' Hw'. unfold rolesOf. rewrite Hw'. reflexivity.
    * intros user w' Hw' Hin.
      rewrite putUser_save_keeps_roles.
      -- unfold rolesOf. rewrite Hw'. reflexivity.
      -- rewrite Hw'. exact Hn.
      -- rewrite Hw'. exact Hin.
      -- exact Hrole.
Qed.

(** *** The end time *)

Lemma in_Zrange (n : nat) (z : Z) :
0 <= z < Z.of_nat n -> In z (map Z.of_nat (seq 0 n)).
Proof.
intros H. apply in_map_iff. exists (Z.to_nat z). split; [lia|].
apply in_seq. lia.
Qed.

Lemma forallb_Zrange (f : Z -> bool) (n : nat) :
forallb f (map Z.of_nat (seq 0 n)) = true ->
forall z, 0 <= z < Z.of_nat n -> f z = true.
Proof.
intros H z Hz. rewrite forallb_forall in H. apply H, in_Zrange, Hz.
Qed.

Lemma forallb2_Zrange (f : Z -> Z -> bool) (n k : nat) :
forallb (fun x => forallb (f x) (map Z.of_nat (seq 0 k)))
  (map Z.of_nat (seq 0 n)) = true ->
forall x y, 0 <= x < Z.of_nat n -> 0 <= y < Z.of_nat k -> f x y = true.
Proof.
intros H x y Hx Hy.
apply (forallb_Zrange (f x) k); [|exact Hy].
apply (forallb_Zrange (fun x => forallb (f x) (map Z.of_nat (seq 0 k))) n);
  assumption.
Qed.

(** *** The pattern matcher *)

Lemma regexp_nullable_sound (r : RegExp.t) :
RegExp.nullable r = true -> RegExp.matches r "".
Proof.
induction r; simpl; intros H; try discriminate.
- constructor.
- apply andb_true_iff in H. destruct H.
  change "" with ("" ++ ""). constructor; auto.
- apply orb_true_iff in H.
  destruct H; [apply RegExp.MAltL|apply RegExp.MAltR]; auto.
- constructor.
Qed.

Lemma regexp_nullable_complete (r : RegExp.t) :
RegExp.matches r "" -> RegExp.nullable r = true.
Proof.
intros H. remember "" as e eqn:E.
induction H; simpl; try discriminate; auto.
- destruct x; [|discriminate]. destruct y; [|discriminate].
  rewrite IHmatches1, IHmatches2; auto.
- rewrite IHmatches; auto.
- rewrite IHmatches; auto using orb_true_r.
Qed.

Lemma regexp_seq_sound (r s : RegExp.t) (x : string) :
RegExp.matches (RegExp.seq r s) x -> RegExp.matches (RegExp.Seq r s) x.
Proof.
destruct r, s; simpl; intros H; try assumption; try (inversion H; fail);
  (apply (RegExp.MSeq RegExp.Eps _ "" x); [constructor|assumption]).
Qed.

Lemma regexp_seq_complete (r s : RegExp.t) (x : string) :
RegExp.matches (RegExp.Seq r s) x -> RegExp.matches (RegExp.seq r s) x.
Proof.
intros H. inversion H as [| | |r' s' x1 x2 H1 H2| | | |]; subst.
destruct r, s; simpl; try assumption; try (inversion H1; fail);
  try (inversion H2; fail); inversion H1; subst; simpl; assumption.
Qed.

Lemma regexp_eqb_eq (r s : RegExp.t) : RegExp.eqb r s = true -> r = s.
Proof.
revert s. induction r; destruct s; simpl; intros H; try discriminate;
  try reflexivity.
- apply Ascii.eqb_eq in H. congruence.
- apply andb_true_iff in H. destruct H as [H1 H2].
  apply Ascii.eqb_eq in H1, H2. congruence.
- apply andb_true_iff in H. destruct H as [H1 H2]. f_equal; auto.
- apply andb_true_iff in H. destruct H as [H1 H2]. f_equal; auto.
- f_equal; auto.
Qed.

Lemma regexp_offers_unfold (r s : RegExp.t) :
RegExp.offers r s
= RegExp.eqb r s
  || match r with
     | RegExp.Alt a b => RegExp.offers a s || RegExp.offers b s
     | _ => false
     end.
Proof. destruct r; reflexivity. Qed.

(** An alternative a pattern offers matches nothing the pattern does
    not. *)
Lemma regexp_offers_sound (r s : RegExp.t) (x : string) :
RegExp.offers r s = true -> RegExp.matches s x -> RegExp.matches r x.
Proof.
induction r; rewrite regexp_offers_unfold; intros H Hs;
  apply orb_true_iff in H; destruct H as [H|H];
  try (apply regexp_eqb_eq in H; subst; assumption); try discriminate.
apply orb_true_iff in H.
destruct H; [apply RegExp.MAltL|apply RegExp.MAltR]; auto.
Qed.

Lemma regexp_alt_sound (r s : RegExp.t) (x : string) :
RegExp.matches (RegExp.alt r s) x -> RegExp.matches (RegExp.Alt r s) x.
Proof.
unfold RegExp.alt. intros H.
destruct r; try (apply RegExp.MAltR; assumption);
  destruct s; try (apply RegExp.MAltL; assumption);
  match type of H with
  | RegExp.matches (if ?a then _ else if ?b then _ else _) _ =>
      destruct a; [apply RegExp.MAltL; assumption|];
      destruct b; [apply RegExp.MAltR; assumption|assumption]
  end.
Qed.

Lemma regexp_alt_complete (r s : RegExp.t) (x : string) :
RegExp.matches (RegExp.Alt r s) x -> RegExp.matches (RegExp.alt r s) x.
Proof.
intros H.
assert (Hgen : RegExp.matches
                 (if RegExp.offers r s then r
                  else if RegExp.offers s r then s else RegExp.Alt r s) x).
{ destruct (RegExp.offers r s) eqn:E1.
  - inversion H; subst; [assumption|].
    apply (regexp_offers_sound r s); assumption.
  - destruct (RegExp.offers s r) eqn:E2; [|assumption].
    inversion H; subst; [|assumption].
    apply (regexp_offers_sound s r); assumption. }
unfold RegExp.alt.
destruct r;
  try (inversion H; subst;
       [match goal with
        | H : RegExp.matches RegExp.Never _ |- _ => inversion H
        end|assumption]);
  destruct s; try exact Hgen;
  inversion H; subst; try assumption;
  match goal with
  | H : RegExp.matches RegExp.Never _ |- _ => inversion H
  end.
Qed.

Lemma regexp_deriv_sound (r : RegExp.t) (c : ascii) (x : string) :
RegExp.matches (RegExp.deriv c r) x -> RegExp.matches r (String c x).
Proof.
revert x. induction r; simpl; intros x H.
- inversion H.
- inversion H.
- destruct (Ascii.eqb_spec c0 c); inversion H; subst. constructor.
- destruct (RegExp.inRange lo hi c) eqn:E; inversion H; subst.
  constructor. assumption.
- destruct (RegExp.nullable r1) eqn:N.
  + apply regexp_alt_sound in H. inversion H; subst.
    * apply regexp_seq_sound in H3. inversion H3; subst.
      change (String c (x0 ++ y)) with (String c x0 ++ y).
      constructor; auto.
    * change (String c x) with ("" ++ String c x).
      constructor; auto using regexp_nullable_sound.
  + apply regexp_seq_sound in H. inversion H; subst.
    change (String c (x0 ++ y)) with (String c x0 ++ y).
    constructor; auto.
- apply regexp_alt_sound in H.
  inversion H; subst; [apply RegExp.MAltL|apply RegExp.MAltR]; auto.
- apply regexp_seq_sound in H. inversion H; subst.
  change (String c (x0 ++ y)) with (String c x0 ++ y).
  constructor; auto.
Qed.

Lemma regexp_deriv_complete (r : RegExp.t) (c : ascii) (x : string) :
RegExp.matches r (String c x) -> RegExp.matches (RegExp.deriv c r) x.
Proof.
intros H. remember (String c x) as z eqn:E. revert c x E.
induction H; intros c' x' E; simpl; try discriminate.
- inversion E; subst. rewrite Ascii.eqb_refl. constructor.
- inversion E; subst. rewrite H. constructor.
- destruct x as [|a x].
  + simpl in E. subst y.
    rewrite (regexp_nullable_complete r H).
    apply regexp_alt_complete, RegExp.MAltR.
    apply IHmatches2. reflexivity.
  + simpl in E. inversion E; subst.
    assert (Hl : RegExp.matches (RegExp.seq (RegExp.deriv c' r) s) (x ++ y)).
    { apply regexp_seq_complete. constructor; [|assumption].
      apply IHmatches1. reflexivity. }
    destruct (RegExp.nullable r);
      [apply regexp_alt_complete, RegExp.MAltL|]; assumption.
- apply regexp_alt_complete, RegExp.MAltL, IHmatches, E.
- apply regexp_alt_complete, RegExp.MAltR, IHmatches, E.
- destruct x as [|a x].
  + simpl in E. apply IHmatches2. assumption.
  + simpl in E. inversion E; subst.
    apply regexp_seq_complete. constructor; [|assumption].
    apply IHmatches1. reflexivity.
Qed.

(** The matcher by derivatives accepts exactly the strings of the
    pattern. *)
Lemma regexp_test_correct (r : RegExp.t) (s : string) :
RegExp.test r s = true <-> RegExp.matches r s.
Proof.
revert r. induction s as [|c s IH]; intros r; simpl.
- split; [apply regexp_nullable_sound|apply regexp_nullable_complete].
- rewrite IH. split; [apply regexp_deriv_sound|apply regexp_deriv_complete].
Qed.

Lemma regexp_chars_in (lo hi c : ascii) :
RegExp.inRange lo hi c = true -> In c (RegExp.chars lo hi).
Proof.
unfold RegExp.inRange, RegExp.chars. intros H.
apply andb_true_iff in H. destruct H as [H1 H2].
apply Nat.leb_le in H1, H2.
apply in_map_iff. exists (nat_of_ascii c). split.
- apply ascii_nat_embedding.
- apply in_seq. lia.
Qed.

(** A pattern without a star has finitely many strings, all listed by
    [words]. *)
Lemma regexp_words_complete (r : RegExp.t) (s : string) :
RegExp.starFree r = true -> RegExp.matches r s -> In s (RegExp.words r).
Proof.
intros Hf H. induction H; simpl in *; try discriminate.
- left. reflexivity.
- left. reflexivity.
- apply in_map_iff. exists c. split; [reflexivity|].
  apply regexp_chars_in. assumption.
- apply andb_true_iff in Hf. destruct Hf as [Hr Hs].
  apply in_flat_map. exists x. split; [auto|].
  apply in_map_iff. exists y. split; [reflexivity|auto].
- apply andb_true_iff in Hf. destruct Hf as [Hr Hs].
  apply in_or_app. left. auto.
- apply andb_true_iff in Hf. destruct Hf as [Hr Hs].
  apply in_or_app. right. auto.
Qed.

(** What holds of every string of a pattern without a star holds of
    every string the matcher accepts. *)
Lemma regexp_test_forallb (r : RegExp.t) (P : string -> bool) (s : string) :
RegExp.starFree r = true ->
forallb P (RegExp.words r) = true ->
RegExp.test r s = true -> P s = true.
Proof.
intros Hf Hall Ht. rewrite forallb_forall in Hall. apply Hall.
apply regexp_words_complete; [assumption|].
apply regexp_test_correct. assumption.
Qed.

(** Every time string the schema admits, [H:MM] or [HH:MM], reads back
    as an hour below 24 and a minute below 60. *)
Lemma valid_time_reads (s : string) :
RegExp.test Appointment.timePattern s = true -> readsAsTime s = true.
Proof.
apply regexp_test_forallb; vm_compute; reflexivity.
Qed.

(** A slot string is a time of the day exactly when its hour is below
    24, and then it denotes its minute of the day. *)
Lemma timeSlot_wellformed (H M : Z) :
0 <= H < 32 -> 0 <= M < 60 ->
RegExp.test Appointment.timePattern (timeSlot H M) = (H <? 24)
/\ timeMinutes (timeSlot H M) = Some (H * 60 + M).
Proof.
intros HH HM.
assert (E : slotStringChecks H M = true).
{ apply (forallb2_Zrange slotStringChecks 32 60);
    [vm_compute; reflexivity|lia|lia]. }
unfold slotStringChecks in E. apply andb_true_iff in E. destruct E as [E1 E2].
apply Bool.eqb_prop in E1.
destruct (timeMinutes (timeSlot H M)) as [t|]; [|discriminate].
apply Z.eqb_eq in E2. subst t. split; [exact E1|reflexivity].
Qed.

(** What the virtual [endTime] computes.  For an appointment whose
    start time the schema admits (H:MM or HH:MM, hour below 24, minute
    below 60) and which lasts d whole minutes, 15 <= d <= 480, the end
    time is the hour and the minute of start + d, each padded to two
    digits: the hour is the quotient of start + d by 60 and is not
    reduced modulo 24.  The end time is therefore a time of the day, and
    then denotes start + d, exactly when the appointment ends before
    midnight. *)
Theorem endTime_adds_without_wrapping (a : Appointment.t) :
RegExp.test Appointment.timePattern (Appointment.time a) = true ->
15 <= Appointment.duration a <= 480 ->
exists start,
  timeMinutes (Appointment.time a) = Some start
  /\ 0 <= start < 24 * 60
  /\ let total := start + Appointment.duration a in
     Appointment.endTime a = timeSlot (total / 60) (total mod 60)
     /\ (RegExp.test Appointment.timePattern (Appointment.endTime a) = true
         <-> total < 24 * 60)
     /\ (total < 24 * 60 ->
         timeMinutes (Appointment.endTime a) = Some total).
Proof.
intros Ht Hd.
pose proof (valid_time_reads _ Ht) as Hr. unfold readsAsTime in Hr.
destruct (JS.parseIntAt (JS.split ":" (Appointment.time a)) 0) as [h|] eqn:E0;
  [|discriminate].
destruct (JS.parseIntAt (JS.split ":" (Appointment.time a)) 1) as [m|] eqn:E1;
  [|discriminate].
destruct (timeMinutes (Appointment.time a)) as [start|]; [|discriminate].
repeat (apply andb_true_iff in Hr; destruct Hr as [Hr ?]).
apply Z.leb_le in Hr.
repeat match goal with
       | H : (_ <=? _) = true |- _ => apply Z.leb_le in H
       | H : (_ <? _) = true |- _ => apply Z.ltb_lt in H
       | H : (_ =? _) = true |- _ => apply Z.eqb_eq in H
       end.
subst start. exists (h * 60 + m).
split; [reflexivity|]. split; [lia|]. intros total.
assert (Hend : Appointment.endTime a = timeSlot (total / 60) (total mod 60)).
{ unfold Appointment.endTime. rewrite E0, E1.
  cbn [JS.mul JS.add JS.floorDiv JS.rem]. fold total.
  rewrite Z.rem_mod_nonneg by (unfold total; lia).
  reflexivity. }
assert (Hq : 0 <= total / 60 < 32).
{ unfold total. split.
  - apply Z.div_pos; lia.
  - apply Z.div_lt_upper_bound; lia. }
assert (Hm : 0 <= total mod 60 < 60) by (apply Z.mod_pos_bound; lia).
destruct (timeSlot_wellformed _ _ Hq Hm) as [Htest Hmin].
rewrite Hend. split; [reflexivity|]. split.
- rewrite Htest, Z.ltb_lt. split; intros H.
  + apply Z.lt_le_trans with (60 * (total / 60 + 1)); [|lia].
    pose proof (Z.div_mod total 60). lia.
  + apply Z.div_lt_upper_bound; lia.
- intros _. rewrite Hmin. f_equal.
  pose proof (Z.div_mod total 60). lia.
Qed.

(** *** The age distribution *)

Lemma bracket_below_eighteen_years (today : Z) (p : Patient.t) :
0 <= today - Patient.dateOfBirth p < 18 * msPerYear ->
ageBracket (aggregateAge today p) = "0-17".
Proof.
intros H. unfold ageBracket, aggregateAge.
assert ((today - Patient.dateOfBirth p) / msPerYear < 18)
  by (apply Z.div_lt_upper_bound; unfold msPerYear in *; lia).
destruct ((today - Patient.dateOfBirth p) / msPerYear <? 18) eqn:E;
  [reflexivity|].
apply Z.ltb_ge in E. lia.
Qed.

(** Eighteen calendar years that hold four leap days are 6574 days,
    half a day short of 18 * 365.25. *)
Lemma four_leap_days_fall_short (today : Z) (p : Patient.t) :
today - Patient.dateOfBirth p = 6574 * Calendar.msPerDay ->
ageBracket (aggregateAge today p) = "0-17".
Proof.
intros H. apply bracket_below_eighteen_years. rewrite H.
unfold Calendar.msPerDay, msPerYear. lia.
Qed.

Lemma five_leap_days_suffice (today : Z) (p : Patient.t) :
today - Patient.dateOfBirth p = 6575 * Calendar.msPerDay ->
ageBracket (aggregateAge today p) = "18-34".
Proof.
intros H. unfold aggregateAge. rewrite H. vm_compute. reflexivity.
Qed.

(** C4, at the failing input.  A patient born on 2001-03-01, on
    2019-03-01 at the same time of day: exactly eighteen calendar years,
    which the virtual [age] of the patient model reads as 18; the span is
    6574 days, the aggregate divides it by 365.25 days and floors it to
    17, and the patient is counted in 0-17 and not in 18-34. *)
Theorem eighteenth_birthday_counted_as_minor :
let today := Calendar.utc 2019 3 1 0 0 0 0 in
let p := Sample.bornOn 2001 3 1 in
let store := mkDb [] [p] [] in
Calendar.civil (Patient.dateOfBirth p) = (2001, 3, 1)
/\ Calendar.civil today = (2019, 3, 1)
/\ today - Patient.dateOfBirth p = 6574 * Calendar.msPerDay
/\ Patient_age today p = 18
/\ aggregateAge today p = 17
/\ ageDistribution today store = [("0-17", 1)]
/\ bracketCount "0-17" (ageDistribution today store) = 1
/\ bracketCount "18-34" (ageDistribution today store) = 0.
Proof.
cbv zeta. repeat split; vm_compute; reflexivity.
Qed.

(** Born on 2000-01-01 and read on 2018-01-01, five leap days lie in
    between and the same aggregate counts the patient in 18-34. *)
Example eighteenth_birthday_after_five_leap_days :
let today := Calendar.utc 2018 1 1 0 0 0 0 in
let p := Sample.bornOn 2000 1 1 in
Patient_age today p = 18
/\ ageDistribution today (mkDb [] [p] []) = [("18-34", 1)].
Proof.
cbv zeta. split; vm_compute; reflexivity.
Qed.

(** *** Stored documents stay valid

    The delete theorems above take a stored document that passes the
    validators of its schema, and a patient collection with unique emails.
    Every save validates and every write goes through the unique indexes,
    so no request can leave the store otherwise. *)

Lemma wellStored_log (op : DbOp) (w : World) :
wellStored w -> wellStored (logOp op w).
Proof. intros H. exact H. Qed.

Lemma Appointment_insert_keeps_wellStored (a : Appointment.t) :
preserves wellStored (Appointment_insert a).
Proof.
intros w [Ha Hrest]. unfold Appointment_insert.
destruct (Appointment.validate a) eqn:V; cbn [negb]; [|split; assumption].
destruct (existsb _ (appointments (db w))); [split; assumption|].
unfold wellStored, setAppointments. cbn [snd db appointments patients logOp].
split; [|exact Hrest].
apply Forall_app. split; [assumption|]. constructor; [exact V|constructor].
Qed.

Lemma Appointment_update_keeps_wellStored (env : Env)
(old a : Appointment.t) :
preserves wellStored (Appointment_update env old a).
Proof.
intros w [Ha Hrest]. unfold Appointment_update.
destruct (Appointment.eq_dec a old); [split; assumption|].
destruct (Appointment.validate a) eqn:V; cbn [negb]; [|split; assumption].
destruct (existsb _ (appointments (db w))); [split; assumption|].
unfold wellStored, setAppointments. cbn [snd db appointments patients logOp].
split; [|exact Hrest].
unfold replaceAppointment. apply Forall_map.
apply (Forall_impl _ (P := fun b => Appointment.validate b = true));
  [|exact Ha].
intros b Hb. destruct (String.eqb _ _); [exact V|exact Hb].
Qed.

Lemma replacePatient_keeps_ids (l : list Patient.t) (p : Patient.t) :
map Patient._id (replacePatient p l) = map Patient._id l.
Proof.
unfold replacePatient. rewrite map_map. apply map_ext.
intros q. destruct (String.eqb_spec (Patient._id q) (Patient._id p));
  congruence.
Qed.

Lemma replacePatient_keeps_emails (l : list Patient.t) (p : Patient.t) :
uniquePatientIds l -> uniqueEmails l ->
(forall q, In q l -> Patient._id q <> Patient._id p ->
           String.eqb (Patient.email q) (Patient.email p) = false) ->
uniqueEmails (replacePatient p l).
Proof.
unfold uniquePatientIds, uniqueEmails, replacePatient.
induction l as [|x l IH]; intros Hi Hs Hchk; simpl; [constructor|].
inversion Hi as [|? ? Hnotin Hi']; subst.
inversion Hs as [|? ? Hx Hs']; subst.
constructor.
- apply Forall_forall. intros y' Hy'.
  apply in_map_iff in Hy'. destruct Hy' as [y [Ey Hy]]. subst y'.
  rewrite Forall_forall in Hx.
  destruct (String.eqb_spec (Patient._id x) (Patient._id p)) as [Ex|Nx];
    destruct (String.eqb_spec (Patient._id y) (Patient._id p)) as [Ey|Ny].
  + exfalso. apply Hnotin. apply in_map_iff. exists y. split; congruence.
  + rewrite String.eqb_sym. apply Hchk; [right; assumption|assumption].
  + apply Hchk; [left; reflexivity|assumption].
  + apply Hx, Hy.
- apply IH; try assumption.
  intros b Hb. apply Hchk. right. assumption.
Qed.

Lemma Patient_insert_keeps_wellStored (p : Patient.t) :
preserves wellStored (Patient_insert p).
Proof.
intros w [Ha [Hp [Hi He]]]. unfold Patient_insert.
destruct (Patient.validate p) eqn:V; cbn [negb];
  [|repeat split; assumption].
destruct (existsb _ (patients (db w))) eqn:Hex; [repeat split; assumption|].
assert (Hall : forall q, In q (patients (db w)) ->
                 Patient._id q <> Patient._id p
                 /\ String.eqb (Patient.email q) (Patient.email p) = false).
{ intros q Hq.
  assert (Hq' : String.eqb (Patient._id q) (Patient._id p)
                || String.eqb (Patient.email q) (Patient.email p) = false).
  { destruct (_ || _) eqn:E; [|reflexivity].
    rewrite <- Hex. symmetry. apply existsb_exists. exists q. auto. }
  apply orb_false_iff in Hq'. destruct Hq' as [H1 H2].
  split; [apply String.eqb_neq; exact H1|exact H2]. }
unfold wellStored, setPatients. cbn [snd db appointments patients logOp].
split; [exact Ha|]. split; [|split].
- apply Forall_app. split; [assumption|]. constructor; [exact V|constructor].
- unfold uniquePatientIds in *. rewrite map_app. simpl.
  apply NoDup_app; [assumption|repeat constructor; intros []|].
  intros x Hx [Hx'|[]]. subst x.
  apply in_map_iff in Hx. destruct Hx as [q [Eq Hq]].
  apply (Hall q Hq). assumption.
- apply ForallOrdPairs_snoc; [assumption|].
  apply Forall_forall. intros q Hq. apply (Hall q Hq).
Qed.

Lemma Patient_update_keeps_wellStored (env : Env) (old p : Patient.t) :
preserves wellStored (Patient_update env old p).
Proof.
intros w [Ha [Hp [Hi He]]]. unfold Patient_update.
destruct (Patient.eq_dec p old); [repeat split; assumption|].
destruct (Patient.validate p) eqn:V; cbn [negb];
  [|repeat split; assumption].
destruct (existsb _ (patients (db w))) eqn:Hex; [repeat split; assumption|].
unfold wellStored, setPatients. cbn [snd db appointments patients logOp].
split; [exact Ha|]. split; [|split].
- unfold replacePatient. apply Forall_map.
  apply (Forall_impl _ (P := fun q => Patient.validate q = true));
    [|exact Hp].
  intros q Hq. destruct (String.eqb _ _); [exact V|exact Hq].
- unfold uniquePatientIds. rewrite replacePatient_keeps_ids. assumption.
- apply replacePatient_keeps_emails; try assumption.
  intros q Hq Hid.
  cbn [Patient.email Patient.touch].
  destruct (String.eqb (Patient.email q) (Patient.email p)) eqn:E;
    [|reflexivity].
  rewrite <- Hex. symmetry. apply existsb_exists. exists q.
  split; [assumption|]. rewrite E, andb_true_r.
  apply negb_true_iff, String.eqb_neq. exact Hid.
Qed.

Lemma User_update_keeps_wellStored (env : Env) (old u : User.t) :
preserves wellStored (User_update env old u).
Proof.
intros w H. unfold User_update.
destruct (User.eq_dec u old); [assumption|].
destruct (negb (User.validate u)); [assumption|].
destruct (existsb _ (users (db w))); assumption.
Qed.

Lemma route_keeps_wellStored (c : Call) (w : World) :
wellStored w -> wellStored (snd (route c w)).
Proof.
intros H. unfold route, authorize.
destruct (request c);
  try (destruct (negb (JS.includes _ (User.role (user c)))); [exact H|]);
  unfold getAvailability, postAppointment, putAppointment, assignAndSave,
    deleteAppointment, getPatient, postPatient, putPatient, deletePatient,
    putUser, deleteUser, castParam;
  apply (preserves_tryCatch wellStored); try exact H;
  step_handler wellStored_log;
  try apply Appointment_insert_keeps_wellStored;
  try apply Appointment_update_keeps_wellStored;
  try apply Patient_insert_keeps_wellStored;
  try apply Patient_update_keeps_wellStored;
  try apply User_update_keeps_wellStored.
Qed.

(** Whatever requests are served, every stored appointment and patient
    passes its validators and the patient emails stay unique. *)
Lemma serve_keeps_wellStored (calls : list Call) (w : World) :
wellStored w -> wellStored (serve calls w).
Proof.
unfold serve. revert w.
induction calls as [|c calls IH]; intros w H; simpl; [exact H|].
apply IH, route_keeps_wellStored, H.
Qed.

(** *** The error middleware *)

Lemma append_nonempty (s t : string) : t <> "" -> (s ++ t)%string <> "".
Proof.
intros Ht. destruct s; simpl; [exact Ht|discriminate].
Qed.

Lemma shown_message_nonempty (m : string) :
(if JS.truthy m then m else "Server Error") <> "".
Proof. destruct m; simpl; discriminate. Qed.

(** X1. The error middleware never reports success and never answers an
    empty message; its status is 400, 401, 404 or 500 unless the error
    brings a status of its own, and the stack is left out of the body
    outside development. *)
Theorem errorHandler_answers_failure (nodeEnv : option string)
(err : ErrorHandler.CustomError) :
let a := ErrorHandler.errorHandler nodeEnv err in
ErrorHandler.success a = false
/\ ErrorHandler.bodyMessage a <> ""
/\ (In (ErrorHandler.status a) [400; 401; 404; 500]
    \/ ErrorHandler.statusCode err = Some (ErrorHandler.status a))
/\ (nodeEnv <> Some "development" -> ErrorHandler.bodyStack a = None).
Proof.
cbv zeta. unfold ErrorHandler.errorHandler.
split; [reflexivity|]. split; [|split].
- cbn [ErrorHandler.bodyMessage]. apply shown_message_nonempty.
- cbn [ErrorHandler.status].
  destruct (String.eqb (ErrorHandler.name err) "TokenExpiredError");
    [left; simpl; auto|].
  destruct (String.eqb (ErrorHandler.name err) "JsonWebTokenError");
    [left; simpl; auto|].
  destruct (String.eqb (ErrorHandler.name err) "ValidationError");
    [left; simpl; auto|].
  destruct (match ErrorHandler.code err with
            | Some c => c =? 11000
            | None => false
            end); [left; simpl; auto|].
  destruct (String.eqb (ErrorHandler.name err) "CastError");
    [left; simpl; auto|].
  cbn [ErrorHandler.shownStatus].
  destruct (ErrorHandler.statusCode err) as [n|]; [|left; simpl; auto].
  destruct (n =? 0); [left; simpl; auto|right; reflexivity].
- intros Hdev. cbn [ErrorHandler.bodyStack].
  destruct nodeEnv as [v|]; [|reflexivity].
  destruct (String.eqb_spec v "development") as [E|N]; [|reflexivity].
  subst v. exfalso. apply Hdev. reflexivity.
Qed.

(** X2. A duplicate-key error (code 11000) is answered 400 with the first
    key of [keyValue], its first letter in upper case, followed by
    "already exists", whatever the name of the error unless it is one of
    the three names checked after it. *)
Theorem duplicate_key_names_the_field (nodeEnv : option string)
(err : ErrorHandler.CustomError) (c : ascii) (rest : string)
(others : list string) :
ErrorHandler.code err = Some 11000 ->
ErrorHandler.keyValue err = Some (String c rest :: others) ->
ErrorHandler.name err <> "ValidationError" ->
ErrorHandler.name err <> "JsonWebTokenError" ->
ErrorHandler.name err <> "TokenExpiredError" ->
ErrorHandler.status (ErrorHandler.errorHandler nodeEnv err) = 400
/\ ErrorHandler.bodyMessage (ErrorHandler.errorHandler nodeEnv err)
   = (String (JS.upperChar c) rest ++ " already exists")%string.
Proof.
intros Hcode Hkeys Hv Hj Ht. unfold ErrorHandler.errorHandler.
apply String.eqb_neq in Hv, Hj, Ht. rewrite Hv, Hj, Ht, Hcode.
unfold ErrorHandler.firstKey. rewrite Hkeys.
cbn [Z.eqb Pos.eqb ErrorHandler.capitalized JS.slice
     ErrorHandler.shownStatus ErrorHandler.shownMessage
     ErrorHandler.status ErrorHandler.bodyMessage].
split; [reflexivity|]. reflexivity.
Qed.

(** *** Authentication *)

(** X3. [authenticate] hands the request on only with the profile of a
    stored, active user whose identifier the token decodes to; every
    other request is answered 401 or 500, and the store is never
    written. *)
Theorem authenticate_admits_active_users_only
(verify : string -> JwtResult) (authorization : option string) (w : World) :
(forall profile,
    fst (authenticate verify authorization w) = Next profile ->
    exists header user,
      authorization = Some header
      /\ verify (JS.replace "Bearer " "" header) = Decoded (User._id user)
      /\ In user (users (db w))
      /\ User.isActive user = true
      /\ profile = User.withoutPassword user)
/\ (forall r,
      fst (authenticate verify authorization w) = Sent r ->
      success r = false /\ data r = None
      /\ (statusCode r = 401 \/ statusCode r = 500))
/\ (forall e, fst (authenticate verify authorization w) <> Thrown e)
/\ db (snd (authenticate verify authorization w)) = db w.
Proof.
unfold authenticate.
assert (Hsent : forall (r : Response) (w' : World),
          success r = false -> data r = None ->
          statusCode r = 401 \/ statusCode r = 500 ->
          db w' = db w ->
          (forall profile,
              fst (@Sent User.Profile r, w') = Next profile ->
              exists header user,
                authorization = Some header
                /\ verify (JS.replace "Bearer " "" header)
                   = Decoded (User._id user)
                /\ In user (users (db w))
                /\ User.isActive user = true
                /\ profile = User.withoutPassword user)
          /\ (forall r',
                fst (@Sent User.Profile r, w') = Sent r' ->
                success r' = false /\ data r' = None
                /\ (statusCode r' = 401 \/ statusCode r' = 500))
          /\ (forall e, fst (@Sent User.Profile r, w') <> Thrown e)
          /\ db (snd (@Sent User.Profile r, w')) = db w).
{ intros r w' H1 H2 H3 H4. split; [intros profile H; discriminate H|].
  split; [intros r' H; inversion H; subst; auto|].
  split; [intros e; discriminate|exact H4]. }
destruct authorization as [header|]; cbn [option_map truthyField negb];
  [|apply Hsent; auto].
destruct (JS.truthy (JS.replace "Bearer " "" header)) eqn:Htok;
  cbn [negb]; [|apply Hsent; auto].
assert (Hor : orElse (Some (JS.replace "Bearer " "" header)) ""
              = JS.replace "Bearer " "" header).
{ unfold orElse. cbn [truthyField]. rewrite Htok. reflexivity. }
rewrite Hor.
destruct (verify (JS.replace "Bearer " "" header)) as [userId|e] eqn:Hv.
- destruct (find _ (users (db w))) as [user|] eqn:Hfind;
    [|apply Hsent; auto].
  apply find_some in Hfind. destruct Hfind as [Hin Hid].
  apply String.eqb_eq in Hid.
  destruct (User.isActive user) eqn:Hact; cbn [negb];
    [|apply Hsent; auto].
  split.
  { intros profile H. inversion H; subst.
    exists header, user. repeat split; auto. }
  split; [intros r H; discriminate H|].
  split; [intros e; discriminate|reflexivity].
- destruct e; cbn [instanceofJsonWebTokenError instanceofTokenExpiredError];
    apply Hsent; auto.
Qed.

(** X4. An expired token is answered like a malformed one: the check for
    [JsonWebTokenError] comes first and [TokenExpiredError] is one of
    its subclasses, so that "Token expired." is never answered. *)
Theorem expired_token_is_reported_invalid
(verify : string -> JwtResult) (authorization : option string) (w : World) :
(forall header,
    authorization = Some header ->
    JS.truthy (JS.replace "Bearer " "" header) = true ->
    verify (JS.replace "Bearer " "" header) = Failed TokenExpiredError ->
    authenticate verify authorization w
    = (Sent (failure 401 "Invalid token."), w))
/\ fst (authenticate verify authorization w)
   <> Sent (failure 401 "Token expired.").
Proof.
split.
- intros header -> Htok Hv. unfold authenticate.
  cbn [option_map truthyField negb]. rewrite Htok. cbn [negb].
  unfold orElse. cbn [truthyField]. rewrite Htok, Hv. reflexivity.
- unfold authenticate.
  destruct (negb (truthyField _)); [discriminate|].
  destruct (verify _) as [userId|e].
  + destruct (find _ _) as [user|]; [|discriminate].
    destruct (negb (User.isActive user)); discriminate.
  + destruct e; cbn; discriminate.
Qed.

(** *** Users *)

Lemma activeUser_found (id : ObjectId) (l : list User.t) (u : User.t) :
find (activeUser id) l = Some u ->
In u l /\ User._id u = id /\ User.isActive u = true.
Proof.
intros H. apply find_some in H. destruct H as [Hin H].
unfold activeUser in H. apply andb_true_iff in H. destruct H as [H1 H2].
apply String.eqb_eq in H1. auto.
Qed.

Lemma getUser_run (caller : User.t) (id : string) (w : World) :
getUser caller id w
= match castId id with
  | None => (mkReply 500 false (Some "Internal server error") None, w)
  | Some oid =>
      let w1 := logOp (Query Users) w in
      match find (activeUser oid) (users (db w)) with
      | None => (mkReply 404 false (Some "User not found") None, w1)
      | Some u =>
          if negb (String.eqb (User.role caller) "admin")
             && negb (String.eqb (User._id caller) id)
          then (mkReply 403 false (Some "Access denied") None, w1)
          else (mkReply 200 true None (Some (User.withoutPassword u)), w1)
      end
  end.
Proof.
unfold getUser, castParam, tryCatchData, bind, User_findOne, send, ret,
  throw, rejectIf.
destruct (castId id) as [oid|]; [|reflexivity].
cbn [db log logOp fst snd].
destruct (find _ (users (db w))) as [u|]; [|reflexivity].
destruct (negb _ && negb _); reflexivity.
Qed.

Lemma activeUser_present (l : list User.t) (u : User.t) :
In u l -> User.isActive u = true ->
find (activeUser (User._id u)) l <> None.
Proof.
intros Hin Hact Hnone.
apply (find_none _ _ Hnone) in Hin. unfold activeUser in Hin.
rewrite String.eqb_refl, Hact in Hin. discriminate.
Qed.

(** X5. GET /users/:id answers 200 only to an admin or to a caller whose
    own identifier is the parameter character for character, and then
    with the profile of the active user the parameter casts to.  Any
    other caller learns whether the identifier is in use: 404 when no
    active user has it, 403 when one has.  The owner of the profile is
    such a caller, and is answered 403, when the parameter spells the
    identifier otherwise than [toString()] prints it (hexadecimal digits
    in upper case).  A parameter that does not cast is answered 500, and
    the route never writes. *)
Theorem profile_is_for_owner_or_admin (caller : User.t) (id : string)
(w : World) :
(replyStatus (fst (getUser caller id w)) = 200 ->
 (User.role caller = "admin" \/ User._id caller = id)
 /\ exists u, In u (users (db w)) /\ castId id = Some (User._id u)
              /\ User.isActive u = true
              /\ replyData (fst (getUser caller id w))
                 = Some (User.withoutPassword u))
/\ (forall oid, castId id = Some oid ->
    User.role caller <> "admin" -> User._id caller <> id ->
    (find (activeUser oid) (users (db w)) = None ->
     replyStatus (fst (getUser caller id w)) = 404)
    /\ (find (activeUser oid) (users (db w)) <> None ->
        replyStatus (fst (getUser caller id w)) = 403))
/\ (castId id = Some (User._id caller) -> User._id caller <> id ->
    User.role caller <> "admin" ->
    In caller (users (db w)) -> User.isActive caller = true ->
    fst (getUser caller id w)
    = mkReply 403 false (Some "Access denied") None)
/\ (castId id = None -> replyStatus (fst (getUser caller id w)) = 500)
/\ db (snd (getUser caller id w)) = db w.
Proof.
rewrite getUser_run.
destruct (castId id) as [oid|] eqn:Hcast.
2:{ cbn [fst snd replyStatus].
    split; [discriminate|]. split; [intros oid H; discriminate H|].
    split; [intros H; discriminate H|]. split; reflexivity. }
cbv zeta.
destruct (find (activeUser oid) (users (db w))) as [u|] eqn:Hfind.
- pose proof (activeUser_found _ _ _ Hfind) as [Hin [Hid Hact]].
  destruct (String.eqb_spec (User.role caller) "admin") as [Ha|Ha];
    destruct (String.eqb_spec (User._id caller) id) as [Ho|Ho];
    cbn [negb andb fst snd replyStatus replyData].
  + split; [intros _; split; [auto|exists u; rewrite Hid; auto]|].
    split; [intros ? _ N; contradiction|].
    split; [intros _ N; contradiction|].
    split; [discriminate|reflexivity].
  + split; [intros _; split; [auto|exists u; rewrite Hid; auto]|].
    split; [intros ? _ N; contradiction|].
    split; [intros _ _ N; contradiction|].
    split; [discriminate|reflexivity].
  + split; [intros _; split; [auto|exists u; rewrite Hid; auto]|].
    split; [intros ? _ _ N; contradiction|].
    split; [intros _ N; contradiction|].
    split; [discriminate|reflexivity].
  + split; [discriminate|].
    split.
    { intros oid' Hoid _ _. inversion Hoid; subst oid'.
      split; [rewrite Hfind; discriminate|reflexivity]. }
    split; [reflexivity|]. split; [discriminate|reflexivity].
- cbn [fst snd replyStatus]. split; [discriminate|].
  split.
  { intros oid' Hoid _ _. inversion Hoid; subst oid'.
    split; [reflexivity|intros N; contradiction]. }
  split.
  { intros Hown _ _ Hin Hact. inversion Hown; subst oid.
    exfalso. exact (activeUser_present _ _ Hin Hact Hfind). }
  split; [discriminate|reflexivity].
Qed.

Lemma deleteUser_run (env : Env) (caller : User.t) (id : string)
(w : World) :
deleteUser env caller id w
= match castId id with
  | None => (internalError, w)
  | Some oid =>
      let w1 := logOp (Query Users) w in
      match find (activeUser oid) (users (db w)) with
      | None => (failure 404 "User not found", w1)
      | Some u =>
          if String.eqb (User._id caller) id
          then (failure 400 "Cannot delete your own account", w1)
          else
            let deleted :=
              mkResponse 200 true (Some "User deleted successfully") None in
            let u' := User.setIsActive false u in
            if User.eq_dec u' u then (deleted, w1)
            else if negb (User.validate u') then (internalError, w1)
            else
              let w2 := logOp (Write Users) w1 in
              if existsb
                   (fun v => negb (String.eqb (User._id v) (User._id u'))
                             && (String.eqb (User.email v) (User.email u')
                                 || String.eqb (User.username v)
                                      (User.username u')))
                   (users (db w))
              then (internalError, w2)
              else
                (deleted,
                 setUsers
                   (replaceUser (User.touch (now env) u') (users (db w)))
                   w2)
      end
  end.
Proof.
unfold deleteUser, castParam, tryCatch, bind, User_findOne, User_update,
  send, ret, throw, rejectIf.
destruct (castId id) as [oid|]; [|reflexivity].
cbn [db log logOp fst snd].
destruct (find _ (users (db w))) as [u|]; [|reflexivity].
destruct (String.eqb (User._id caller) id); [reflexivity|].
unfold ret, send. cbv zeta.
destruct (User.eq_dec _ u); [reflexivity|].
destruct (negb (User.validate _)); [reflexivity|].
cbn [db log logOp fst snd].
destruct (existsb _ (users (db w))); reflexivity.
Qed.

(** What a DELETE /users/:id that answers 200 leaves: the account found
    is stored inactive in the place of every document of its
    identifier. *)
Lemma deleteUser_ok (env : Env) (caller : User.t) (id : string)
(w : World) :
statusCode (fst (deleteUser env caller id w)) = 200 ->
exists u,
  castId id = Some (User._id u) /\ User.isActive u = false
  /\ String.eqb (User._id caller) id = false
  /\ (exists v, In v (users (db w)) /\ User._id v = User._id u)
  /\ users (db (snd (deleteUser env caller id w)))
     = replaceUser u (users (db w)).
Proof.
rewrite deleteUser_run.
destruct (castId id) as [oid|]; [|discriminate].
cbv zeta.
destruct (find (activeUser oid) (users (db w))) as [u|] eqn:Hfind;
  [|discriminate].
apply activeUser_found in Hfind. destruct Hfind as [Hin [Hid Hact]].
destruct (String.eqb (User._id caller) id); [discriminate|].
destruct (User.eq_dec _ u) as [E|_].
{ exfalso. apply (f_equal User.isActive) in E. simpl in E. congruence. }
destruct (negb (User.validate _)); [discriminate|].
destruct (existsb _ (users (db w))); [discriminate|].
intros _. exists (User.touch (now env) (User.setIsActive false u)).
cbn [User._id User.touch User.setIsActive User.isActive].
split; [rewrite Hid; reflexivity|]. split; [reflexivity|].
split; [reflexivity|].
split; [exists u; split; [exact Hin|reflexivity]|reflexivity].
Qed.

(** X6. DELETE /users/:id protects the caller only against the parameter
    that is [req.user._id.toString()] character for character: then it
    answers 404, 400 or 500 and writes nothing.  With the caller's
    identifier spelled otherwise (hexadecimal digits in upper case) the
    query still finds the caller's account and the check lets the
    request through: when the answer is 200, every stored account of
    the caller is inactive.  A parameter that does not cast to the
    caller's identifier leaves the caller's accounts as they are. *)
Theorem self_delete_guard_compares_spelling (env : Env) (caller : User.t)
(w : World) :
(fst (deleteUser env caller (User._id caller) w)
 = failure 404 "User not found"
 \/ fst (deleteUser env caller (User._id caller) w)
    = failure 400 "Cannot delete your own account"
 \/ fst (deleteUser env caller (User._id caller) w) = internalError)
/\ db (snd (deleteUser env caller (User._id caller) w)) = db w
/\ (forall id,
      castId id = Some (User._id caller) ->
      statusCode (fst (deleteUser env caller id w)) = 200 ->
      id <> User._id caller
      /\ forall u,
           In u (users (db (snd (deleteUser env caller id w)))) ->
           User._id u = User._id caller -> User.isActive u = false)
/\ (forall id u,
      castId id <> Some (User._id caller) ->
      In u (users (db w)) -> User._id u = User._id caller ->
      In u (users (db (snd (deleteUser env caller id w))))).
Proof.
split; [|split; [|split]].
- rewrite deleteUser_run.
  destruct (castId (User._id caller)); [|right; right; reflexivity].
  cbv zeta.
  destruct (find _ (users (db w))); [|left; reflexivity].
  rewrite String.eqb_refl. right. left. reflexivity.
- rewrite deleteUser_run.
  destruct (castId (User._id caller)); [|reflexivity].
  cbv zeta.
  destruct (find _ (users (db w))); [|reflexivity].
  rewrite String.eqb_refl. reflexivity.
- intros id Hcast Hok.
  destruct (deleteUser_ok env caller id w Hok)
    as [u' [Hcast' [Hact [Hne [_ Husers]]]]].
  split.
  { intros E. rewrite E, String.eqb_refl in Hne. discriminate. }
  intros u Hin Hid. rewrite Husers in Hin.
  unfold replaceUser in Hin. apply in_map_iff in Hin.
  destruct Hin as [v [Hv _]].
  assert (Hu' : User._id u' = User._id caller) by congruence.
  destruct (String.eqb_spec (User._id v) (User._id u')) as [E|N].
  + subst u. exact Hact.
  + subst u. exfalso. apply N. congruence.
- intros id u Hcast Hin Hid. rewrite deleteUser_run.
  destruct (castId id) as [oid|]; [|exact Hin].
  cbv zeta.
  destruct (find (activeUser oid) (users (db w))) as [v|] eqn:Hfind;
    [|exact Hin].
  apply activeUser_found in Hfind. destruct Hfind as [_ [Hv _]].
  destruct (String.eqb (User._id caller) id); [exact Hin|].
  destruct (User.eq_dec _ v); [exact Hin|].
  destruct (negb (User.validate _)); [exact Hin|].
  destruct (existsb _ (users (db w))); [exact Hin|].
  unfold setUsers, replaceUser. cbn [snd db users].
  apply in_map_iff. exists u. split; [|exact Hin].
  cbn [User._id User.touch User.setIsActive].
  destruct (String.eqb_spec (User._id u) (User._id v)) as [E|_];
    [|reflexivity].
  exfalso. apply Hcast. congruence.
Qed.

Lemma replaceUser_first (l : list User.t) (u : User.t) :
(exists v, In v l /\ User._id v = User._id u) ->
find (fun x => String.eqb (User._id x) (User._id u)) (replaceUser u l)
= Some u.
Proof.
induction l as [|x l IH]; intros [v [Hin Hid]]; [destruct Hin|].
simpl. destruct (String.eqb_spec (User._id x) (User._id u)) as [E|N].
- rewrite String.eqb_refl. reflexivity.
- apply String.eqb_neq in N. rewrite N.
  apply IH. destruct Hin as [->|Hin].
  + apply String.eqb_neq in N. contradiction.
  + exists v. auto.
Qed.

Lemma replaceUser_inactive (l : list User.t) (u : User.t) :
User.isActive u = false ->
find (activeUser (User._id u)) (replaceUser u l) = None.
Proof.
intros Hu. induction l as [|x l IH]; [reflexivity|].
simpl. destruct (String.eqb_spec (User._id x) (User._id u)) as [E|N].
- unfold activeUser at 1. rewrite Hu, andb_false_r. exact IH.
- unfold activeUser at 1. apply String.eqb_neq in N. rewrite N. exact IH.
Qed.

(** X7. Once DELETE /users/:id has answered 200, the account is locked out:
    a token that decodes to it is refused by [authenticate] with
    "Account is deactivated.", and GET /users/:id answers 404 to
    everyone. *)
Theorem deleted_user_is_locked_out (env : Env) (caller : User.t)
(id : string) (oid : ObjectId) (w : World) (verify : string -> JwtResult)
(header : string) (reader : User.t) :
statusCode (fst (deleteUser env caller id w)) = 200 ->
castId id = Some oid ->
JS.truthy (JS.replace "Bearer " "" header) = true ->
verify (JS.replace "Bearer " "" header) = Decoded oid ->
fst (authenticate verify (Some header) (snd (deleteUser env caller id w)))
= Sent (failure 401 "Account is deactivated.")
/\ replyStatus (fst (getUser reader id (snd (deleteUser env caller id w))))
   = 404.
Proof.
intros Hok Hcast Htok Hv.
destruct (deleteUser_ok env caller id w Hok)
  as [u [Hid [Hact [_ [Hex Husers]]]]].
rewrite Hcast in Hid. inversion Hid; subst oid.
split.
- unfold authenticate. cbn [option_map truthyField negb].
  rewrite Htok. cbn [negb]. unfold orElse. cbn [truthyField].
  rewrite Htok, Hv, Husers, (replaceUser_first _ u Hex), Hact.
  reflexivity.
- rewrite getUser_run, Hcast. cbv zeta.
  rewrite Husers, (replaceUser_inactive _ u Hact). reflexivity.
Qed.

(** *** Patient records *)

Lemma getMedicalHistory_run (id : ObjectId) (w : World) :
getMedicalHistory id w
= match find (activePatient id) (patients (db w)) with
  | None => (mkReply 404 false (Some "Patient not found") None,
             logOp (Query Patients) w)
  | Some p => (mkReply 200 true None (Some (Patient.medicalHistory p)),
               logOp (Query Patients) w)
  end.
Proof.
unfold getMedicalHistory, tryCatchData, bind, Patient_findOne, send, ret.
cbn [db log logOp fst snd].
destruct (find _ (patients (db w))); reflexivity.
Qed.

Lemma getMedications_run (id : ObjectId) (w : World) :
getMedications id w
= match find (activePatient id) (patients (db w)) with
  | None => (mkReply 404 false (Some "Patient not found") None,
             logOp (Query Patients) w)
  | Some p =>
      (mkReply 200 true None
         (Some (filter Patient.med_isActive (Patient.currentMedications p))),
       logOp (Query Patients) w)
  end.
Proof.
unfold getMedications, tryCatchData, bind, Patient_findOne, send, ret.
cbn [db log logOp fst snd].
destruct (find _ (patients (db w))); reflexivity.
Qed.

Lemma deletePatient_ok_soft (env : Env) (id : ObjectId) (w : World) :
statusCode (fst (deletePatient env id w)) = 200 ->
exists p,
  find (activePatient id) (patients (db w)) = Some p
  /\ softDeleted id (Patient.touch (now env) (Patient.setIsActive false p))
       (snd (deletePatient env id w)).
Proof.
rewrite deletePatient_run. cbv zeta.
destruct (find (activePatient id) (patients (db w))) as [p|] eqn:Hfind;
  [|discriminate].
pose proof (activePatient_found _ _ _ Hfind) as [Hin [Hid Hact]].
destruct (Patient.eq_dec _ p) as [E|_].
{ exfalso. apply (f_equal Patient.isActive) in E. simpl in E. congruence. }
destruct (negb (Patient.validate _)); [discriminate|].
destruct (existsb _ (patients (db w))); [discriminate|].
intros _. exists p. split; [reflexivity|].
unfold softDeleted, setPatients, replacePatient. cbn [snd db patients].
split.
- apply in_map_iff. exists p. split; [|exact Hin].
  cbn [Patient._id Patient.touch Patient.setIsActive].
  rewrite String.eqb_refl. reflexivity.
- intros q Hq Hqid. apply in_map_iff in Hq. destruct Hq as [x [Hx _]].
  revert Hx. cbn [Patient._id Patient.touch Patient.setIsActive].
  destruct (String.eqb_spec (Patient._id x) (Patient._id p)) as [E|N];
    intros Hx; subst q; [reflexivity|].
  exfalso. apply N. congruence.
Qed.

(** X8. Once DELETE /patients/:id has answered 200, the medical history and
    the medications of the patient, which were served until then, are
    answered 404, whatever requests come in between. *)
Theorem deleted_patient_records_are_hidden (env : Env) (id : ObjectId)
(w : World) (calls : list Call) :
statusCode (fst (deletePatient env id w)) = 200 ->
(exists p,
    In p (patients (db w))
    /\ fst (getMedicalHistory id w)
       = mkReply 200 true None (Some (Patient.medicalHistory p))
    /\ fst (getMedications id w)
       = mkReply 200 true None
           (Some (filter Patient.med_isActive (Patient.currentMedications p))))
/\ fst (getMedicalHistory id (serve calls (snd (deletePatient env id w))))
   = mkReply 404 false (Some "Patient not found") None
/\ fst (getMedications id (serve calls (snd (deletePatient env id w))))
   = mkReply 404 false (Some "Patient not found") None.
Proof.
intros Hok.
destruct (deletePatient_ok_soft env id w Hok) as [p [Hfind Hsoft]].
split.
- exists p. rewrite getMedicalHistory_run, getMedications_run, Hfind.
  split; [|split; reflexivity].
  apply (activePatient_found _ _ _ Hfind).
- assert (Hlater : softDeleted id
                     (Patient.touch (now env) (Patient.setIsActive false p))
                     (serve calls (snd (deletePatient env id w)))).
  { apply serve_keeps_softDeleted; [|exact Hsoft].
    cbn [Patient._id Patient.touch Patient.setIsActive].
    apply (activePatient_found _ _ _ Hfind). }
  rewrite getMedicalHistory_run, getMedications_run,
    (softDeleted_hides id _ _ Hlater).
  split; reflexivity.
Qed.

(** *** Reading an appointment back *)

Lemma getAppointment_run (id : ObjectId) (w : World) :
getAppointment id w
= match find (fun a => String.eqb (Appointment._id a) id)
          (appointments (db w)) with
  | None => (mkReply 404 false (Some "Appointment not found") None,
             logOp (Query Appointments) w)
  | Some a => (mkReply 200 true None (Some a), logOp (Query Appointments) w)
  end.
Proof.
unfold getAppointment, tryCatchData, bind, Appointment_findById,
  Appointment_findOne, send, ret.
cbn [db log logOp fst snd].
destruct (find _ (appointments (db w))); reflexivity.
Qed.

(** X9. An appointment that POST /appointments has created (201) is read
    back by GET /appointments/:id under the identifier it was given,
    which no appointment had before; it is stamped with the creator,
    whatever the body said. *)
Theorem created_appointment_is_readable (env : Env) (user : User.t)
(body : NewAppointmentBody) (w : World) :
statusCode (fst (postAppointment env user body w)) = 201 ->
exists a,
  fst (postAppointment env user body w)
  = mkResponse 201 true (Some "Appointment created successfully")
      (Some (DataAppointment a))
  /\ Appointment._id a = freshId env
  /\ Appointment.createdBy a = User._id user
  /\ fst (getAppointment (freshId env) w)
     = mkReply 404 false (Some "Appointment not found") None
  /\ fst (getAppointment (freshId env)
            (snd (postAppointment env user body w)))
     = mkReply 200 true None (Some a).
Proof.
intros Hok.
destruct (postAppointment_created env user body w Hok)
  as [a [Hnew [Hvalid [Hfresh [_ [_ [Hresp Hdb]]]]]]].
pose proof (newAppointment_fields env user body a Hnew) as [Hid _].
assert (Hnone : forall b, In b (appointments (db w)) ->
                  String.eqb (Appointment._id b) (freshId env) = false).
{ intros b Hb. apply String.eqb_neq. rewrite <- Hid. apply (Hfresh b Hb). }
exists a. split; [exact Hresp|]. split; [exact Hid|]. split.
{ revert Hnew. unfold newAppointment.
  destruct (parseDate (n_date body)); [|discriminate].
  destruct (castOptDate (n_followUpDate body));
    [|discriminate].
  intros H. inversion H. reflexivity. }
split.
- rewrite getAppointment_run.
  destruct (find _ (appointments (db w))) as [b|] eqn:Hfind; [|reflexivity].
  apply find_some in Hfind. destruct Hfind as [Hb Hbid].
  rewrite (Hnone b Hb) in Hbid. discriminate.
- rewrite getAppointment_run, Hdb. cbn [appointments].
  rewrite (find_snoc_fresh _ _ a Hnone); [reflexivity|].
  apply String.eqb_eq. exact Hid.
Qed.

(** *** Bookings and the availability answer *)

Lemma getAvailability_of_filter (doctorId : ObjectId) (date : option string)
(w1 w2 : World) :
(forall d, filter (onDoctorDate doctorId d) (appointments (db w1))
           = filter (onDoctorDate doctorId d) (appointments (db w2))) ->
fst (getAvailability doctorId date w1) = fst (getAvailability doctorId date w2).
Proof.
intros H.
destruct date as [date|]; [|reflexivity].
destruct (JS.truthy date) eqn:Ht; [|destruct date; [reflexivity|discriminate]].
destruct (parseDate date) as [d|] eqn:Hd.
- rewrite !(getAvailability_ok doctorId date d) by assumption.
  cbv zeta. cbn [fst]. rewrite H. reflexivity.
- rewrite !(getAvailability_invalid_date doctorId date) by assumption.
  reflexivity.
Qed.

Lemma validate_time_duration (a : Appointment.t) :
Appointment.validate a = true ->
RegExp.test Appointment.timePattern (Appointment.time a) = true
/\ 15 <= Appointment.duration a <= 480.
Proof.
unfold Appointment.validate. intros H.
repeat (apply andb_true_iff in H; destruct H as [H ?]).
repeat match goal with
       | H : (_ <=? _) = true |- _ => apply Z.leb_le in H
       end.
split; [assumption|lia].
Qed.

(** X10. After POST /appointments has created an appointment (201) whose
    status is neither cancelled nor no-show, the availability of its
    doctor on its date lists it among the booked slots and offers none
    of the slots it overlaps, its own start time least of all. *)
Theorem booked_slot_is_not_available (env : Env) (user : User.t)
(body : NewAppointmentBody) (w : World) :
statusCode (fst (postAppointment env user body w)) = 201 ->
JS.truthy (n_date body) = true ->
n_status body <> Some "cancelled" ->
n_status body <> Some "no-show" ->
exists avail booked start,
  fst (getAvailability (n_doctor body) (Some (n_date body))
         (snd (postAppointment env user body w)))
  = availabilityResponse (n_date body) avail booked
  /\ In (mkBookedSlot (n_time body) (n_duration body)) booked
  /\ ~ In (n_time body) avail
  /\ timeMinutes (n_time body) = Some start
  /\ (forall m, In m grid -> m < start + n_duration body -> start < m + 30 ->
                ~ In (slotString m) avail).
Proof.
intros Hok Hdate Hc Hn.
destruct (postAppointment_created env user body w Hok)
  as [a [Hnew [Hvalid [_ [_ [_ [_ Hdb]]]]]]].
destruct (newAppointment_fields env user body a Hnew)
  as [_ [Hdoc [Hd Htime]]].
assert (Hdur : Appointment.duration a = n_duration body
               /\ Appointment.status a = assigned (n_status body) "scheduled").
{ revert Hnew. unfold newAppointment.
  destruct (parseDate (n_date body)); [|discriminate].
  destruct (castOptDate (n_followUpDate body));
    [|discriminate].
  intros H. inversion H. split; reflexivity. }
destruct Hdur as [Hdur Hstatus].
destruct (validate_time_duration a Hvalid) as [Hpat Hrange].
pose proof (valid_time_reads _ Hpat) as Hreads. unfold readsAsTime in Hreads.
destruct (JS.parseIntAt (JS.split ":" (Appointment.time a)) 0); [|discriminate].
destruct (JS.parseIntAt (JS.split ":" (Appointment.time a)) 1); [|discriminate].
destruct (timeMinutes (Appointment.time a)) as [start|] eqn:Hstart;
  [|discriminate].
clear Hreads.
set (w' := snd (postAppointment env user body w)) in *.
set (found := filter (onDoctorDate (n_doctor body) (Appointment.date a))
                (appointments (db w'))).
assert (Hin : In a found).
{ unfold found. apply filter_In. split.
  - rewrite Hdb. cbn [appointments]. apply in_or_app. right. left. reflexivity.
  - unfold onDoctorDate. rewrite Hdoc, String.eqb_refl, Z.eqb_refl.
    cbn [andb]. apply active_spec. rewrite Hstatus.
    destruct (n_status body) as [s|]; cbn [assigned].
    + split; intros E; subst s; [apply Hc|apply Hn]; reflexivity.
    + split; discriminate. }
assert (Hblocked : forall m, m < start + n_duration body -> start < m + 30 ->
                     free found m = false).
{ intros m H1 H2. apply not_free_spec. exists a. split; [exact Hin|].
  exists start. rewrite Hdur. repeat split; [exact Hstart|lia|lia]. }
exists (availableSlots found), (bookedSlots found), start.
split.
{ rewrite (getAvailability_ok (n_doctor body) (n_date body)
             (Appointment.date a) w' Hdate Hd).
  reflexivity. }
split.
{ unfold bookedSlots. apply in_map_iff. exists a.
  split; [rewrite Htime, Hdur; reflexivity|exact Hin]. }
assert (Hoffer : forall m, In m grid -> m < start + n_duration body ->
                   start < m + 30 -> ~ In (slotString m) (availableSlots found)).
{ intros m Hm H1 H2 Hs. rewrite availableSlots_filter in Hs.
  apply in_map_iff in Hs. destruct Hs as [m' [Es Hm']].
  apply filter_In in Hm'. destruct Hm' as [Hg Hfree].
  assert (m' = m).
  { pose proof grid_slots_wellformed as Hwf. rewrite Forall_forall in Hwf.
    destruct (Hwf m Hm) as [_ E1]. destruct (Hwf m' Hg) as [_ E2].
    rewrite Es in E2. congruence. }
  subst m'. rewrite (Hblocked m H1 H2) in Hfree. discriminate. }
split.
{ intros Hs. rewrite availableSlots_filter in Hs.
  apply in_map_iff in Hs. destruct Hs as [m [Es Hm]].
  apply filter_In in Hm. destruct Hm as [Hg Hfree].
  pose proof grid_slots_wellformed as Hwf. rewrite Forall_forall in Hwf.
  destruct (Hwf m Hg) as [_ E]. rewrite Es, <- Htime, Hstart in E.
  inversion E; subst m.
  rewrite (Hblocked start) in Hfree; [discriminate|lia|lia]. }
split; [rewrite <- Htime; exact Hstart|exact Hoffer].
Qed.

Lemma create_then_cancel (env1 env2 : Env) (creator canceller : User.t)
(bodyA : NewAppointmentBody) (w : World) :
let r1 := postAppointment env1 creator bodyA w in
let r2 := deleteAppointment env2 canceller (freshId env1) (snd r1) in
indexesHold w ->
statusCode (fst r1) = 201 ->
exists a2,
  Appointment.status a2 = "cancelled"
  /\ appointments (db (snd r2)) = (appointments (db w) ++ [a2])%list.
Proof.
intros r1 r2 Hinv H201.
destruct (postAppointment_created env1 creator bodyA w H201)
  as [a [Ha [Havalid [Hfresh [_ [_ [_ Hdb1]]]]]]].
fold r1 in Hdb1.
destruct (newAppointment_fields _ _ _ _ Ha) as [Aid _].
assert (Hinv1 : indexesHold (snd r1))
  by (apply postAppointment_keeps_indexes, Hinv).
assert (Happs1 : appointments (db (snd r1)) = (appointments (db w) ++ [a])%list)
  by (rewrite Hdb1; reflexivity).
assert (Hfind1 : find (fun x => String.eqb (Appointment._id x) (freshId env1))
                   (appointments (db (snd r1))) = Some a).
{ rewrite Happs1. apply find_snoc_fresh.
  - intros x Hx. apply String.eqb_neq. rewrite <- Aid. apply (Hfresh x Hx).
  - apply String.eqb_eq. exact Aid. }
destruct (deleteAppointment_cancels env2 canceller (freshId env1) (snd r1) a
            Hinv1 Hfind1 Havalid)
  as [t [_ [_ [_ [Happs2 _]]]]].
fold r2 in Happs2.
exists (Appointment.touch t
          (Appointment.setStatusUpdatedBy "cancelled" (User._id canceller) a)).
split; [reflexivity|].
rewrite Happs2, Happs1.
apply replace_snoc_fresh; [|reflexivity].
intros x Hx. apply (Hfresh x Hx).
Qed.

(** X11. Booking a slot and cancelling the booking brings every
    availability answer back to what it was before: a slot that was
    offered is offered again.  Yet the cancelled document still holds
    the key of the unique index, and booking the same doctor, date and
    time again is answered 500 and writes nothing. *)
Theorem cancelled_slot_is_offered_but_refused (env1 env2 env3 : Env)
(creator canceller creator2 : User.t) (bodyA bodyB : NewAppointmentBody)
(w : World) :
let r1 := postAppointment env1 creator bodyA w in
let r2 := deleteAppointment env2 canceller (freshId env1) (snd r1) in
let r3 := postAppointment env3 creator2 bodyB (snd r2) in
indexesHold w ->
statusCode (fst r1) = 201 ->
n_doctor bodyB = n_doctor bodyA ->
n_date bodyB = n_date bodyA ->
n_time bodyB = n_time bodyA ->
patientResolves (db w) (n_patient bodyB) ->
(exists b, newAppointment env3 creator2 bodyB = Some b
           /\ Appointment.validate b = true) ->
(forall doctorId date,
    fst (getAvailability doctorId date (snd r2))
    = fst (getAvailability doctorId date w))
/\ fst r3 = internalError
/\ db (snd r3) = db (snd r2).
Proof.
intros r1 r2 r3 Hinv H201 Edoc Edate Etime Hpat Hb.
split.
- intros doctorId date. apply getAvailability_of_filter. intros d.
  destruct (create_then_cancel env1 env2 creator canceller bodyA w Hinv H201)
    as [a2 [Hst Happs]].
  fold r1 r2 in Happs. rewrite Happs, filter_app. cbn [filter].
  assert (E : onDoctorDate doctorId d a2 = false).
  { unfold onDoctorDate, Appointment.active. rewrite Hst.
    cbn [JS.includes existsb String.eqb Ascii.eqb Bool.eqb orb negb].
    apply andb_false_r. }
  rewrite E. apply app_nil_r.
- destruct (cancelled_slot_stays_taken env1 env2 env3 creator canceller
              creator2 bodyA bodyB w Hinv H201 Edoc Edate Etime Hpat Hb)
    as [_ [_ [_ [R3 [R4 _]]]]].
  split; [exact R3|exact R4].
Qed.

Lemma find_replace_at (l : list Appointment.t) (a : Appointment.t)
(id : ObjectId) :
Appointment._id a = id ->
(exists b, In b l /\ Appointment._id b = id) ->
find (fun x => String.eqb (Appointment._id x) id) (replaceAppointment a l)
= Some a.
Proof.
intros Hid Hex. subst id. apply find_replace. exact Hex.
Qed.

(** X12. A PUT /appointments/:id that answers 200 leaves the appointment
    stored under its identifier with [updatedBy] the caller, whatever
    [updatedBy] the body carried; [createdBy], on the contrary, is
    taken from the body when the body has one. *)
Theorem update_is_stamped_with_the_caller (env : Env) (user : User.t)
(id : ObjectId) (body : AppointmentBody) (w : World) :
statusCode (fst (putAppointment env user id body w)) = 200 ->
exists a,
  fst (putAppointment env user id body w)
  = mkResponse 200 true (Some "Appointment updated successfully")
      (Some (DataAppointment a))
  /\ Appointment._id a = id
  /\ Appointment.updatedBy a = Some (User._id user)
  /\ (forall c, b_createdBy body = Some c -> Appointment.createdBy a = c)
  /\ find (fun x => String.eqb (Appointment._id x) id)
       (appointments (db (snd (putAppointment env user id body w))))
     = Some a.
Proof.
rewrite putAppointment_run. cbv zeta.
destruct (find (fun a => String.eqb (Appointment._id a) id)
            (appointments (db w))) as [apt|] eqn:Hfind; [|discriminate].
pose proof (find_some _ _ Hfind) as [Hin Hid].
apply String.eqb_eq in Hid.
assert (Hsave : forall w1,
          appointments (db w1) = appointments (db w) ->
          statusCode (fst (putAppointment_save env user apt body w1)) = 200 ->
          exists a,
            fst (putAppointment_save env user apt body w1)
            = mkResponse 200 true (Some "Appointment updated successfully")
                (Some (DataAppointment a))
            /\ Appointment._id a = id
            /\ Appointment.updatedBy a = Some (User._id user)
            /\ (forall c, b_createdBy body = Some c ->
                          Appointment.createdBy a = c)
            /\ find (fun x => String.eqb (Appointment._id x) id)
                 (appointments
                    (db (snd (putAppointment_save env user apt body w1))))
               = Some a).
{ intros w1 Hw1. unfold putAppointment_save.
  destruct (assignAppointment apt body) as [updated|] eqn:Hassign;
    [|discriminate].
  assert (Hfields : Appointment._id updated = Appointment._id apt
                    /\ forall c, b_createdBy body = Some c ->
                                 Appointment.createdBy updated = c).
  { revert Hassign. unfold assignAppointment.
    destruct (castOptDate (b_date body)); [|discriminate].
    destruct (castOptDate (b_followUpDate body));
      [|discriminate].
    intros H. inversion H. cbn [Appointment._id Appointment.createdBy].
    split; [reflexivity|]. intros c Hc. rewrite Hc. reflexivity. }
  destruct Hfields as [Hsame Hcreated].
  cbv zeta.
  destruct (Appointment.eq_dec _ apt) as [E|_].
  - intros _. exists apt. split; [reflexivity|]. split; [exact Hid|].
    split; [rewrite <- E; reflexivity|].
    split; [intros c Hc; rewrite <- E; apply (Hcreated c Hc)|].
    cbn [snd]. rewrite Hw1. exact Hfind.
  - destruct (negb (Appointment.validate _)); [discriminate|].
    destruct (existsb _ (appointments (db w1))); [discriminate|].
    intros _.
    exists (Appointment.touch (now env)
              (Appointment.setUpdatedBy (User._id user) updated)).
    split; [reflexivity|].
    split; [cbn [Appointment._id Appointment.touch Appointment.setUpdatedBy
                 Appointment.setStatusUpdatedBy]; congruence|].
    split; [reflexivity|].
    split; [intros c Hc; apply (Hcreated c Hc)|].
    unfold setAppointments. cbn [snd db appointments]. rewrite Hw1.
    apply find_replace_at.
    + cbn [Appointment._id Appointment.touch Appointment.setUpdatedBy
           Appointment.setStatusUpdatedBy]. congruence.
    + exists apt. split; [exact Hin|exact Hid]. }
destruct (reschedules body).
- destruct (candidateDate apt body) as [d|]; [|discriminate].
  destruct (isSome _); [discriminate|].
  apply Hsave. reflexivity.
- apply Hsave. reflexivity.
Qed.

(** *** The aggregates of the dashboard *)

Lemma increment_keys (key : string) (groups : list (string * Z)) :
map fst (increment key groups)
= if existsb (String.eqb key) (map fst groups)
  then map fst groups else (map fst groups ++ [key])%list.
Proof.
induction groups as [|[k n] rest IH]; [reflexivity|].
cbn [increment map fst existsb].
rewrite (String.eqb_sym key k).
destruct (String.eqb k key); [reflexivity|].
cbn [map fst orb]. rewrite IH.
destruct (existsb _ (map fst rest)); reflexivity.
Qed.

Lemma increment_NoDup (key : string) (groups : list (string * Z)) :
NoDup (map fst groups) -> NoDup (map fst (increment key groups)).
Proof.
intros H. rewrite increment_keys.
destruct (existsb (String.eqb key) (map fst groups)) eqn:E; [exact H|].
apply NoDup_app; [exact H|repeat constructor; intros []|].
intros x Hx [<-|[]].
assert (existsb (String.eqb key) (map fst groups) = true); [|congruence].
apply existsb_exists. exists key. split; [exact Hx|apply String.eqb_refl].
Qed.

Lemma increment_count (key k : string) (groups : list (string * Z)) :
bracketCount k (increment key groups)
= bracketCount k groups + (if String.eqb k key then 1 else 0).
Proof.
unfold bracketCount.
induction groups as [|[k' n] rest IH].
- cbn [increment find fst snd]. rewrite (String.eqb_sym key k).
  destruct (String.eqb k key); reflexivity.
- cbn [increment].
  destruct (String.eqb_spec k' key) as [E|N]; cbn [find fst snd].
  + subst k'. rewrite (String.eqb_sym key k).
    destruct (String.eqb k key); cbn [snd]; lia.
  + destruct (String.eqb_spec k' k) as [E'|N'].
    * subst k'. apply String.eqb_neq in N. rewrite N. cbn [snd]. lia.
    * exact IH.
Qed.

Lemma increment_total (key : string) (groups : list (string * Z)) :
totalCount (increment key groups) = totalCount groups + 1.
Proof.
unfold totalCount.
induction groups as [|[k n] rest IH]; [reflexivity|].
cbn [increment]. destruct (String.eqb k key); cbn [fold_right snd]; lia.
Qed.

Lemma increment_positive (key : string) (groups : list (string * Z)) :
Forall (fun g => 0 < snd g) groups ->
Forall (fun g => 0 < snd g) (increment key groups).
Proof.
induction 1 as [|[k n] rest Hn Hrest IH]; cbn [increment].
- constructor; [simpl; lia|constructor].
- destruct (String.eqb k key); constructor; auto. simpl in *. lia.
Qed.

Lemma fold_increment (keys : list string) (groups : list (string * Z)) :
NoDup (map fst groups) ->
Forall (fun g => 0 < snd g) groups ->
let result := fold_left (fun groups key => increment key groups) keys groups in
NoDup (map fst result)
/\ Forall (fun g => 0 < snd g) result
/\ totalCount result = totalCount groups + Z.of_nat (List.length keys)
/\ (forall k, bracketCount k result
              = bracketCount k groups
                + Z.of_nat (List.length (filter (String.eqb k) keys)))
/\ (forall k, In k (map fst result) -> In k (map fst groups) \/ In k keys).
Proof.
revert groups. induction keys as [|key keys IH]; intros groups Hnd Hpos.
- cbn [fold_left List.length filter]. repeat split; auto; intros; lia.
- cbn [fold_left].
  destruct (IH (increment key groups) (increment_NoDup key groups Hnd)
              (increment_positive key groups Hpos))
    as [H1 [H2 [H3 [H4 H5]]]].
  split; [exact H1|]. split; [exact H2|]. split; [|split].
  + rewrite H3, increment_total. cbn [List.length]. lia.
  + intros k. rewrite H4, increment_count. cbn [filter].
    destruct (String.eqb k key); cbn [List.length]; lia.
  + intros k Hk. destruct (H5 k Hk) as [Hk'|Hk'].
    * rewrite increment_keys in Hk'.
      destruct (existsb _ (map fst groups)); [left; exact Hk'|].
      apply in_app_or in Hk'. destruct Hk' as [Hk'|[<-|[]]].
      -- left. exact Hk'.
      -- right. left. reflexivity.
    * right. right. exact Hk'.
Qed.

Lemma groupCount_spec (keys : list string) :
NoDup (map fst (groupCount keys))
/\ Forall (fun g => 0 < snd g) (groupCount keys)
/\ totalCount (groupCount keys) = Z.of_nat (List.length keys)
/\ (forall k, bracketCount k (groupCount keys)
              = Z.of_nat (List.length (filter (String.eqb k) keys)))
/\ (forall k, In k (map fst (groupCount keys)) -> In k keys).
Proof.
unfold groupCount.
destruct (fold_increment keys [] (NoDup_nil _) (Forall_nil _))
  as [H1 [H2 [H3 [H4 H5]]]].
split; [exact H1|]. split; [exact H2|]. split; [exact H3|].
split; [exact H4|].
intros k Hk. destruct (H5 k Hk) as [[]|Hk']. exact Hk'.
Qed.

Lemma filter_map_length {A B : Type} (f : A -> B) (p : B -> bool)
(l : list A) :
List.length (filter p (map f l))
= List.length (filter (fun x => p (f x)) l).
Proof.
induction l as [|x l IH]; [reflexivity|].
cbn [map filter]. destruct (p (f x)); cbn [List.length]; rewrite IH;
  reflexivity.
Qed.

Lemma filter_filter_length {A : Type} (p q : A -> bool) (l : list A) :
List.length (filter q (filter p l))
= List.length (filter (fun x => p x && q x) l).
Proof.
induction l as [|x l IH]; [reflexivity|].
cbn [filter]. destruct (p x); cbn [filter andb]; [|exact IH].
destruct (q x); cbn [List.length]; rewrite IH; reflexivity.
Qed.

(** X13. The appointment statistics of the dashboard list every status that
    has appointments exactly once, with the number of the appointments
    of that status; a status without appointments has no entry, and the
    counts add up to the size of the collection. *)
Theorem appointment_stats_count_every_status (store : Db) :
NoDup (map fst (appointmentStats store))
/\ Forall (fun g => 0 < snd g) (appointmentStats store)
/\ (forall s,
      bracketCount s (appointmentStats store)
      = Z.of_nat
          (List.length
             (filter (fun a => String.eqb s (Appointment.status a))
                (appointments store))))
/\ totalCount (appointmentStats store)
   = Z.of_nat (List.length (appointments store)).
Proof.
unfold appointmentStats.
destruct (groupCount_spec (map Appointment.status (appointments store)))
  as [H1 [H2 [H3 [H4 _]]]].
split; [exact H1|]. split; [exact H2|]. split.
- intros s. rewrite H4, filter_map_length. reflexivity.
- rewrite H3, length_map. reflexivity.
Qed.

(** X14. The two patient aggregates of the dashboard count the active
    patients and no one else: the counts by gender and the counts by age
    bracket both add up to the number of active patients, each patient
    falls under one of the five brackets, and the count of a bracket is
    the number of active patients whose age the bracket holds. *)
Theorem dashboard_counts_active_patients (today : Z) (store : Db) :
totalCount (patientDemographics store) = totalPatients store
/\ totalCount (ageDistribution today store) = totalPatients store
/\ (forall label, In label (map fst (ageDistribution today store)) ->
                  In label ageBrackets)
/\ NoDup (map fst (ageDistribution today store))
/\ (forall label,
      bracketCount label (ageDistribution today store)
      = Z.of_nat
          (List.length
             (filter (fun p => Patient.isActive p
                               && String.eqb label
                                    (ageBracket (aggregateAge today p)))
                (patients store)))).
Proof.
unfold patientDemographics, ageDistribution, totalPatients.
destruct (groupCount_spec
            (map Patient.gender (filter Patient.isActive (patients store))))
  as [_ [_ [G3 _]]].
destruct (groupCount_spec
            (map (fun p => ageBracket (aggregateAge today p))
               (filter Patient.isActive (patients store))))
  as [A1 [_ [A3 [A4 A5]]]].
split; [rewrite G3, length_map; reflexivity|].
split; [rewrite A3, length_map; reflexivity|].
split; [|split; [exact A1|]].
- intros label Hl. apply A5 in Hl. apply in_map_iff in Hl.
  destruct Hl as [p [<- _]]. unfold ageBracket, ageBrackets.
  repeat match goal with
         | |- context [if ?c then _ else _] => destruct c
         end; simpl; auto 10.
- intros label. rewrite A4, filter_map_length, filter_filter_length.
  reflexivity.
Qed.

Lemma div_lt_iff (a n c : Z) : 0 < c -> (a / c < n <-> a < n * c).
Proof.
intros Hc. split; intros H.
- apply Z.lt_le_trans with (c * (a / c + 1)); [|nia].
  pose proof (Z.div_mod a c). pose proof (Z.mod_pos_bound a c Hc). lia.
- apply Z.div_lt_upper_bound; lia.
Qed.

(** X15. The age brackets of the dashboard are spans of time since birth in
    years of 365.25 days: a patient is counted under 18-34 from
    18 * 365.25 days on and until 35 * 365.25 days, and so on; a birth
    date in the future counts under 0-17. *)
Theorem age_brackets_are_spans_of_days (today : Z) (p : Patient.t) :
let lived := today - Patient.dateOfBirth p in
let bracket := ageBracket (aggregateAge today p) in
(bracket = "0-17" <-> lived < 18 * msPerYear)
/\ (bracket = "18-34" <-> 18 * msPerYear <= lived < 35 * msPerYear)
/\ (bracket = "35-49" <-> 35 * msPerYear <= lived < 50 * msPerYear)
/\ (bracket = "50-64" <-> 50 * msPerYear <= lived < 65 * msPerYear)
/\ (bracket = "65+" <-> 65 * msPerYear <= lived)
/\ msPerYear = 36525 * Calendar.msPerDay / 100.
Proof.
cbv zeta. unfold ageBracket, aggregateAge.
set (lived := today - Patient.dateOfBirth p).
assert (Hc : 0 < msPerYear) by reflexivity.
pose proof (div_lt_iff lived 18 msPerYear Hc) as H18.
pose proof (div_lt_iff lived 35 msPerYear Hc) as H35.
pose proof (div_lt_iff lived 50 msPerYear Hc) as H50.
pose proof (div_lt_iff lived 65 msPerYear Hc) as H65.
set (age := lived / msPerYear) in *.
destruct (age <? 18) eqn:E18;
  [apply Z.ltb_lt in E18|apply Z.ltb_ge in E18;
   destruct (age <? 35) eqn:E35;
   [apply Z.ltb_lt in E35|apply Z.ltb_ge in E35;
    destruct (age <? 50) eqn:E50;
    [apply Z.ltb_lt in E50|apply Z.ltb_ge in E50;
     destruct (age <? 65) eqn:E65;
     [apply Z.ltb_lt in E65|apply Z.ltb_ge in E65]]]];
  repeat split; try reflexivity; try discriminate; intros; try lia.
Qed.

(** *** The virtual [datetime] *)

(** X16. For an appointment that passes the validators of the schema, the
    virtual [datetime] is the midnight of the day of [date] plus the
    minutes the time string denotes: an instant of that same day. *)
Theorem datetime_is_on_the_day_of_the_date (a : Appointment.t) :
Appointment.validate a = true ->
let midnight := Appointment.date a / Calendar.msPerDay * Calendar.msPerDay in
exists start,
  timeMinutes (Appointment.time a) = Some start
  /\ 0 <= start < 24 * 60
  /\ Appointment_datetime a = Some (midnight + start * 60000)
  /\ midnight <= midnight + start * 60000 < midnight + Calendar.msPerDay
  /\ midnight <= Appointment.date a < midnight + Calendar.msPerDay.
Proof.
intros Hvalid midnight.
destruct (validate_time_duration a Hvalid) as [Hpat _].
pose proof (valid_time_reads _ Hpat) as Hr. unfold readsAsTime in Hr.
unfold Appointment_datetime. cbv zeta.
destruct (JS.parseIntAt (JS.split ":" (Appointment.time a)) 0) as [h|];
  [|discriminate].
destruct (JS.parseIntAt (JS.split ":" (Appointment.time a)) 1) as [m|];
  [|discriminate].
destruct (timeMinutes (Appointment.time a)) as [start|]; [|discriminate].
repeat (apply andb_true_iff in Hr; destruct Hr as [Hr ?]).
apply Z.leb_le in Hr.
repeat match goal with
       | H : (_ <=? _) = true |- _ => apply Z.leb_le in H
       | H : (_ <? _) = true |- _ => apply Z.ltb_lt in H
       | H : (_ =? _) = true |- _ => apply Z.eqb_eq in H
       end.
subst start. exists (h * 60 + m).
split; [reflexivity|]. split; [lia|]. split.
{ fold midnight. f_equal. lia. }
split; [unfold Calendar.msPerDay; lia|].
unfold midnight.
pose proof (Z.div_mod (Appointment.date a) Calendar.msPerDay).
pose proof (Z.mod_pos_bound (Appointment.date a) Calendar.msPerDay).
unfold Calendar.msPerDay in *. lia.
Qed.

(** *** What no request does *)

Lemma keepsIds_refl (l : list ObjectId) : keepsIds l l.
Proof. exists []. symmetry. apply app_nil_r. Qed.

Lemma keepsIds_snoc (l l' : list ObjectId) (x : ObjectId) :
keepsIds l l' -> keepsIds l (l' ++ [x]).
Proof.
intros [added H]. exists (added ++ [x])%list. rewrite H.
symmetry. apply app_assoc.
Qed.

Lemma keepsDocuments_log (w0 : World) (op : DbOp) (w : World) :
keepsDocuments w0 w -> keepsDocuments w0 (logOp op w).
Proof. intros H. exact H. Qed.

Lemma replaceUser_keeps_ids (l : list User.t) (u : User.t) :
map User._id (replaceUser u l) = map User._id l.
Proof.
unfold replaceUser. rewrite map_map. apply map_ext.
intros v. destruct (String.eqb_spec (User._id v) (User._id u)); congruence.
Qed.

Lemma Appointment_insert_keeps_documents (w0 : World) (a : Appointment.t) :
preserves (keepsDocuments w0) (Appointment_insert a).
Proof.
intros w [Ha Hrest]. unfold Appointment_insert.
destruct (negb (Appointment.validate a)); [split; assumption|].
destruct (existsb _ (appointments (db w))); [split; assumption|].
unfold keepsDocuments, setAppointments.
cbn [snd db appointments patients users logOp].
split; [|exact Hrest]. rewrite map_app. apply keepsIds_snoc, Ha.
Qed.

Lemma Appointment_update_keeps_documents (w0 : World) (env : Env)
(old a : Appointment.t) :
preserves (keepsDocuments w0) (Appointment_update env old a).
Proof.
intros w [Ha Hrest]. unfold Appointment_update.
destruct (Appointment.eq_dec a old); [split; assumption|].
destruct (negb (Appointment.validate a)); [split; assumption|].
destruct (existsb _ (appointments (db w))); [split; assumption|].
unfold keepsDocuments, setAppointments.
cbn [snd db appointments patients users logOp].
split; [|exact Hrest]. rewrite replace_keeps_ids. exact Ha.
Qed.

Lemma Patient_insert_keeps_documents (w0 : World) (p : Patient.t) :
preserves (keepsDocuments w0) (Patient_insert p).
Proof.
intros w [Ha [Hp Hu]]. unfold Patient_insert.
destruct (negb (Patient.validate p)); [repeat split; assumption|].
destruct (existsb _ (patients (db w))); [repeat split; assumption|].
unfold keepsDocuments, setPatients.
cbn [snd db appointments patients users logOp].
split; [exact Ha|]. split; [|exact Hu].
rewrite map_app. apply keepsIds_snoc, Hp.
Qed.

Lemma Patient_update_keeps_documents (w0 : World) (env : Env)
(old p : Patient.t) :
preserves (keepsDocuments w0) (Patient_update env old p).
Proof.
intros w [Ha [Hp Hu]]. unfold Patient_update.
destruct (Patient.eq_dec p old); [repeat split; assumption|].
destruct (negb (Patient.validate p)); [repeat split; assumption|].
destruct (existsb _ (patients (db w))); [repeat split; assumption|].
unfold keepsDocuments, setPatients.
cbn [snd db appointments patients users logOp].
split; [exact Ha|]. split; [|exact Hu].
rewrite replacePatient_keeps_ids. exact Hp.
Qed.

Lemma User_update_keeps_documents (w0 : World) (env : Env)
(old u : User.t) :
preserves (keepsDocuments w0) (User_update env old u).
Proof.
intros w [Ha [Hp Hu]]. unfold User_update.
destruct (User.eq_dec u old); [repeat split; assumption|].
destruct (negb (User.validate u)); [repeat split; assumption|].
destruct (existsb _ (users (db w))); [repeat split; assumption|].
unfold keepsDocuments, setUsers.
cbn [snd db appointments patients users logOp].
split; [exact Ha|]. split; [exact Hp|].
rewrite replaceUser_keeps_ids. exact Hu.
Qed.

Lemma route_keeps_documents (w0 : World) (c : Call) (w : World) :
keepsDocuments w0 w -> keepsDocuments w0 (snd (route c w)).
Proof.
intros H. unfold route, authorize.
destruct (request c);
  try (destruct (negb (JS.includes _ (User.role (user c)))); [exact H|]);
  unfold getAvailability, postAppointment,
    putAppointment, assignAndSave,
    deleteAppointment, getPatient, postPatient,
    putPatient, deletePatient, putUser, deleteUser, castParam;
  apply (preserves_tryCatch (keepsDocuments w0)); try exact H;
  step_handler (keepsDocuments_log w0);
  try apply Appointment_insert_keeps_documents;
  try apply Appointment_update_keeps_documents;
  try apply Patient_insert_keeps_documents;
  try apply Patient_update_keeps_documents;
  try apply User_update_keeps_documents.
Qed.

(** X17. No request of the router (the availability and patient reads,
    POST, PUT and DELETE of appointments and of patients, PUT and
    DELETE of users) removes a document or changes an identifier: after
    any sequence of them the collections of appointments and of
    patients hold the identifiers they held, in the same places,
    followed by those created since, and the collection of users holds
    exactly the identifiers it held. *)
Theorem no_request_removes_a_document (calls : list Call) (w : World) :
keepsDocuments w (serve calls w)
/\ (List.length (appointments (db w))
    <= List.length (appointments (db (serve calls w))))%nat
/\ (List.length (patients (db w))
    <= List.length (patients (db (serve calls w))))%nat
/\ List.length (users (db (serve calls w))) = List.length (users (db w)).
Proof.
assert (H : keepsDocuments w (serve calls w)).
{ unfold serve.
  assert (G : forall w', keepsDocuments w w' ->
                keepsDocuments w
                  (fold_left (fun w c => snd (route c w)) calls w')).
  { induction calls as [|c calls IH]; intros w' H'; simpl; [exact H'|].
    apply IH, route_keeps_documents, H'. }
  apply G. split; [apply keepsIds_refl|].
  split; [apply keepsIds_refl|reflexivity]. }
split; [exact H|].
destruct H as [[addedA Ha] [[addedP Hp] Hu]].
apply (f_equal (@List.length _)) in Ha, Hp, Hu.
rewrite length_app, !length_map in Ha, Hp.
rewrite !length_map in Hu. lia.
Qed.

(** X18. Whatever requests are served, every stored appointment and patient
    still passes the validators of its schema, and no two patients share
    an identifier or an email. *)
Theorem requests_keep_documents_valid (calls : list Call) (w : World) :
wellStored w ->
Forall (fun a => Appointment.validate a = true)
  (appointments (db (serve calls w)))
/\ Forall (fun p => Patient.validate p = true)
     (patients (db (serve calls w)))
/\ NoDup (map Patient._id (patients (db (serve calls w))))
/\ (forall p q,
      In p (patients (db (serve calls w))) ->
      In q (patients (db (serve calls w))) ->
      Patient.email p = Patient.email q -> p = q).
Proof.
intros H.
destruct (serve_keeps_wellStored calls w H) as [H1 [H2 [H3 H4]]].
split; [exact H1|]. split; [exact H2|]. split; [exact H3|].
intros p q Hp Hq E.
unfold uniqueEmails in H4.
induction H4 as [|x l Hx Hl IH]; [destruct Hp|].
rewrite Forall_forall in Hx.
inversion H3 as [|? ? Hnotin H3']; subst.
inversion H2 as [|? ? _ H2']; subst.
destruct Hp as [->|Hp], Hq as [->|Hq].
- reflexivity.
- specialize (Hx q Hq). rewrite E, String.eqb_refl in Hx. discriminate.
- specialize (Hx p Hp). rewrite <- E, String.eqb_refl in Hx. discriminate.
- apply IH; assumption.
Qed.

(** *** Patients: emails and deactivation *)

Lemma postPatient_run (env : Env) (body : PatientBody) (w : World) :
postPatient env body w
= let w1 := logOp (Query Patients) w in
  if isSome (find (fun p => String.eqb (Patient.email p) (pb_email body)
                            && Patient.isActive p) (patients (db w)))
  then (failure 400 "Patient with this email already exists", w1)
  else
    match newPatient env body with
    | None => (internalError, w1)
    | Some p =>
        if negb (Patient.validate p) then (internalError, w1)
        else
          let w2 := logOp (Write Patients) w1 in
          if existsb (fun q => String.eqb (Patient._id q) (Patient._id p)
                               || String.eqb (Patient.email q) (Patient.email p))
               (patients (db w))
          then (internalError, w2)
          else
            (mkResponse 201 true (Some "Patient created successfully")
               (Some (DataPatient p)),
             setPatients (patients (db w) ++ [p]) w2)
    end.
Proof.
unfold postPatient, tryCatch, bind, Patient_findOne, Patient_insert,
  send, ret, rejectIf, throw.
cbn [db log logOp fst snd]. cbv zeta.
destruct (isSome (find _ (patients (db w)))); [reflexivity|].
unfold ret. cbn [db log logOp fst snd].
destruct (newPatient env body) as [p|]; [|reflexivity].
destruct (negb (Patient.validate p)); [reflexivity|].
cbn [db log logOp fst snd].
destruct (existsb _ (patients (db w))); reflexivity.
Qed.

(** X19. The email of a patient deleted by DELETE /patients/:id is lost for
    good: whatever requests follow, a POST /patients whose email, once
    trimmed and lower-cased, is that of the deleted record is answered
    400 or 500 and creates nothing.  The existence check looks at active
    patients only, the unique index at all of them. *)
Theorem deleted_patient_email_is_never_reusable (env env' : Env)
(id : ObjectId) (w : World) (calls : list Call) (body : PatientBody)
(p q : Patient.t) :
statusCode (fst (deletePatient env id w)) = 200 ->
find (activePatient id) (patients (db w)) = Some p ->
newPatient env' body = Some q ->
Patient.email q = Patient.email p ->
let w' := serve calls (snd (deletePatient env id w)) in
(fst (postPatient env' body w')
 = failure 400 "Patient with this email already exists"
 \/ fst (postPatient env' body w') = internalError)
/\ db (snd (postPatient env' body w')) = db w'.
Proof.
intros Hok Hfind Hnew Hemail w'.
destruct (deletePatient_ok_soft env id w Hok) as [p' [Hfind' Hsoft]].
rewrite Hfind in Hfind'. inversion Hfind'; subst p'. clear Hfind'.
assert (Hlater : softDeleted id
                   (Patient.touch (now env) (Patient.setIsActive false p)) w').
{ apply serve_keeps_softDeleted; [|exact Hsoft].
  cbn [Patient._id Patient.touch Patient.setIsActive].
  apply (activePatient_found _ _ _ Hfind). }
destruct Hlater as [Hin _].
rewrite postPatient_run. cbv zeta.
destruct (isSome (find _ (patients (db w')))); [split; [left|]; reflexivity|].
rewrite Hnew.
destruct (negb (Patient.validate q)); [split; [right|]; reflexivity|].
assert (Hdup : existsb (fun x => String.eqb (Patient._id x) (Patient._id q)
                                 || String.eqb (Patient.email x)
                                      (Patient.email q))
                 (patients (db w')) = true).
{ apply existsb_exists. eexists. split; [exact Hin|].
  cbn [Patient.email Patient.touch Patient.setIsActive].
  rewrite Hemail, String.eqb_refl. apply orb_true_r. }
rewrite Hdup. split; [right|]; reflexivity.
Qed.

Lemma putPatient_ok_inactive (env : Env) (id : ObjectId)
(body : PatientBody) (w : World) :
pb_isActive body = Some false ->
statusCode (fst (putPatient env id body w)) = 200 ->
find (activePatient id) (patients (db (snd (putPatient env id body w))))
= None.
Proof.
intros Hbody. rewrite putPatient_run. cbv zeta.
destruct (find (activePatient id) (patients (db w))) as [p|] eqn:Hfind;
  [|discriminate].
pose proof (activePatient_found _ _ _ Hfind) as [Hin [Hid Hact]].
assert (Hsave : forall w1,
          patients (db w1) = patients (db w) ->
          statusCode (fst (putPatient_save env p body w1)) = 200 ->
          find (activePatient id)
            (patients (db (snd (putPatient_save env p body w1)))) = None).
{ intros w1 Hw1. unfold putPatient_save.
  destruct (assignPatient p body) as [updated|] eqn:Hassign;
    [|discriminate].
  assert (Hfields : Patient._id updated = Patient._id p
                    /\ Patient.isActive updated = false).
  { revert Hassign. unfold assignPatient.
    destruct (parseDate (pb_dateOfBirth body)); [|discriminate].
    intros H. inversion H. cbn [Patient._id Patient.isActive].
    rewrite Hbody. split; reflexivity. }
  destruct Hfields as [Hsame Hinactive].
  destruct (Patient.eq_dec updated p) as [E|_].
  { exfalso. subst updated. congruence. }
  destruct (negb (Patient.validate updated)); [discriminate|].
  destruct (existsb _ (patients (db w1))); [discriminate|].
  intros _. unfold setPatients, replacePatient. cbn [snd db patients].
  rewrite Hw1.
  destruct (find _ (map _ (patients (db w)))) as [x|] eqn:E; [|reflexivity].
  exfalso. apply find_some in E. destruct E as [Hx Hax].
  unfold activePatient in Hax. apply andb_true_iff in Hax.
  destruct Hax as [Hxid Hxact]. apply String.eqb_eq in Hxid.
  apply in_map_iff in Hx. destruct Hx as [y [Hy _]].
  revert Hy. cbn [Patient._id Patient.touch].
  destruct (String.eqb_spec (Patient._id y) (Patient._id updated)) as [Ey|Ny];
    intros Hy; subst x.
  - cbn [Patient.isActive Patient.touch] in Hxact. congruence.
  - apply Ny. congruence. }
destruct (negb (String.eqb (pb_email body) (Patient.email p))).
- destruct (isSome _); [discriminate|]. apply Hsave. reflexivity.
- apply Hsave. reflexivity.
Qed.

(** X20. DELETE /patients/:id is for admins, and a doctor or a nurse is
    answered 403; but the [isActive] of the body of PUT /patients/:id is
    assigned like any other field, so the same doctor or nurse deletes
    the patient with a PUT: once that PUT has answered 200 the patient
    is answered 404. *)
Theorem put_deactivates_where_delete_is_refused (env : Env) (caller : User.t)
(id : ObjectId) (body : PatientBody) (w : World) :
User.role caller = "doctor" \/ User.role caller = "nurse" ->
pb_isActive body = Some false ->
route (mkCall env caller (DeletePatient id)) w
= (failure 403 "Insufficient permissions.", w)
/\ (statusCode (fst (route (mkCall env caller (PutPatient id body)) w)) = 200 ->
    fst (getPatient id (snd (route (mkCall env caller (PutPatient id body)) w)))
    = patientNotFound).
Proof.
intros Hrole Hbody.
change (route (mkCall env caller (DeletePatient id)) w)
  with (authorize ["admin"] caller (deletePatient env id) w).
change (route (mkCall env caller (PutPatient id body)) w)
  with (authorize staffRoles caller (putPatient env id body) w).
unfold authorize.
split.
- destruct Hrole as [-> | ->]; reflexivity.
- assert (Hstaff : negb (JS.includes staffRoles (User.role caller)) = false)
    by (destruct Hrole as [-> | ->]; reflexivity).
  rewrite Hstaff. intros Hok.
  rewrite getPatient_run, (putPatient_ok_inactive env id body w Hbody Hok).
  reflexivity.
Qed.

(** *** Dates that are not dates *)

(** X21. A date that is not empty and does not parse is an internal error:
    the availability route answers 500 without a query, and neither
    POST /appointments nor a PUT /appointments/:id that carries it
    succeeds or writes. *)
Theorem unparseable_date_is_an_internal_error (date : string) (w : World) :
JS.truthy date = true ->
parseDate date = None ->
(forall doctorId,
    getAvailability doctorId (Some date) w = (internalError, w))
/\ (forall env user body,
      n_date body = date ->
      statusCode (fst (postAppointment env user body w)) <> 201
      /\ db (snd (postAppointment env user body w)) = db w)
/\ (forall env user id body,
      b_date body = Some date ->
      statusCode (fst (putAppointment env user id body w)) <> 200
      /\ db (snd (putAppointment env user id body w)) = db w).
Proof.
intros Ht Hd. split; [|split].
- intros doctorId. apply getAvailability_invalid_date; assumption.
- intros env user body E. rewrite postAppointment_run. cbv zeta.
  rewrite E, Hd.
  destruct (isNone (find _ (patients (db w)))); [split; [discriminate|reflexivity]|].
  destruct (isNone (find _ (users (db w)))); split; try discriminate; reflexivity.
- intros env user id body E. rewrite putAppointment_run. cbv zeta.
  destruct (find _ (appointments (db w))) as [apt|];
    [|split; [discriminate|reflexivity]].
  assert (Hres : reschedules body = true).
  { unfold reschedules. rewrite E. cbn [truthyField]. rewrite Ht. reflexivity. }
  assert (Hcand : candidateDate apt body = None).
  { unfold candidateDate. rewrite E. cbn [truthyField]. rewrite Ht.
    unfold orElse. cbn [truthyField]. rewrite Ht. exact Hd. }
  rewrite Hres, Hcand. split; [discriminate|reflexivity].
Qed.

(** *** Sorting *)

Lemma insertSorted_perm {A : Type} (leb : A -> A -> bool) (x : A)
(l : list A) : Permutation (JS.insertSorted leb x l) (x :: l).
Proof.
induction l as [|y l IH]; simpl; [apply Permutation_refl|].
destruct (leb x y); [apply Permutation_refl|].
apply perm_trans with (y :: x :: l); [apply perm_skip, IH|apply perm_swap].
Qed.

Lemma sortBy_perm {A : Type} (leb : A -> A -> bool) (l : list A) :
Permutation (JS.sortBy leb l) l.
Proof.
induction l as [|x l IH]; simpl; [apply perm_nil|].
apply perm_trans with (x :: JS.sortBy leb l);
  [apply insertSorted_perm|apply perm_skip, IH].
Qed.

Lemma insertSorted_sorted {A : Type} (leb : A -> A -> bool) (x : A)
(l : list A) :
(forall a b, leb a b = false -> leb b a = true) ->
Sorted (fun a b => leb a b = true) l ->
Sorted (fun a b => leb a b = true) (JS.insertSorted leb x l).
Proof.
intros Htotal H. induction H as [|y l Hl IH Hy]; simpl.
- repeat constructor.
- destruct (leb x y) eqn:E.
  + constructor; [constructor; assumption|constructor; exact E].
  + constructor; [exact IH|].
    destruct l as [|z l]; simpl.
    * constructor. apply Htotal, E.
    * destruct (leb x z); constructor;
        [apply Htotal, E|inversion Hy; assumption].
Qed.

Lemma sortBy_sorted {A : Type} (leb : A -> A -> bool) (l : list A) :
(forall a b, leb a b = false -> leb b a = true) ->
Sorted (fun a b => leb a b = true) (JS.sortBy leb l).
Proof.
intros Htotal. induction l as [|x l IH]; simpl; [constructor|].
apply insertSorted_sorted; assumption.
Qed.

Lemma In_firstn {A : Type} (n : nat) (l : list A) (a : A) :
In a (firstn n l) -> In a l.
Proof.
intros H. rewrite <- (firstn_skipn n l). apply in_or_app. left. exact H.
Qed.

Lemma In_skipn {A : Type} (n : nat) (l : list A) (a : A) :
In a (skipn n l) -> In a l.
Proof.
intros H. rewrite <- (firstn_skipn n l). apply in_or_app. right. exact H.
Qed.

Lemma Sorted_skipn {A : Type} (R : A -> A -> Prop) (n : nat) (l : list A) :
Sorted R l -> Sorted R (skipn n l).
Proof.
revert l. induction n as [|n IH]; intros l H; [exact H|].
destruct l as [|x l]; [constructor|].
simpl. apply IH. inversion H; assumption.
Qed.

Lemma Sorted_firstn {A : Type} (R : A -> A -> Prop) (n : nat) (l : list A) :
Sorted R l -> Sorted R (firstn n l).
Proof.
revert l. induction n as [|n IH]; intros l H; [constructor|].
destruct l as [|x l]; [constructor|].
simpl. inversion H as [|? ? Hl Hx]; subst.
constructor; [apply IH, Hl|].
destruct l as [|y l]; [destruct n; constructor|].
destruct n; simpl; [constructor|].
constructor. inversion Hx; assumption.
Qed.

Lemma byDateTime_total (a b : Appointment.t) :
byDateTime a b = false -> byDateTime b a = true.
Proof.
unfold byDateTime. intros H.
apply orb_false_iff in H. destruct H as [H1 H2].
apply Z.ltb_ge in H1.
destruct (Z.eqb_spec (Appointment.date a) (Appointment.date b)) as [E|N].
- cbn [andb] in H2. rewrite <- E, Z.ltb_irrefl, Z.eqb_refl. cbn [orb andb].
  destruct (String.leb_total (Appointment.time a) (Appointment.time b));
    congruence.
- assert (Appointment.date b < Appointment.date a) by lia.
  apply Z.ltb_lt in H. rewrite H. reflexivity.
Qed.

(** *** Pages *)

Lemma ceilDiv_bounds (a b : Z) :
0 < b -> (JS.ceilDiv a b - 1) * b < a <= JS.ceilDiv a b * b.
Proof.
intros Hb. unfold JS.ceilDiv.
pose proof (Z.div_mod (- a) b). pose proof (Z.mod_pos_bound (- a) b Hb).
nia.
Qed.

Lemma validated_page (page : option string) :
match page with
| Some v => isInt 1 None v = true
| None => True
end ->
1 <= JS.orNumber (parseIntParam page) 1.
Proof.
destruct page as [v|]; [|intros _; simpl; lia].
unfold isInt, parseIntParam, JS.orNumber. intros H.
apply andb_true_iff in H. destruct H as [_ H].
destruct (JS.parseInteger v) as [n|]; [|discriminate].
apply andb_true_iff in H. destruct H as [H _]. apply Z.leb_le in H.
destruct (n =? 0); lia.
Qed.

Lemma validated_limit (limit : option string) :
match limit with
| Some v => isInt 1 (Some 100) v = true
| None => True
end ->
1 <= JS.orNumber (parseIntParam limit) 10 <= 100.
Proof.
destruct limit as [v|]; [|intros _; simpl; lia].
unfold isInt, parseIntParam, JS.orNumber. intros H.
apply andb_true_iff in H. destruct H as [_ H].
destruct (JS.parseInteger v) as [n|]; [|discriminate].
apply andb_true_iff in H. destruct H as [H1 H2].
apply Z.leb_le in H1, H2.
destruct (n =? 0); lia.
Qed.

Lemma validatePagination_passed (page limit : option string) :
validatePagination page limit = [] ->
1 <= JS.orNumber (parseIntParam page) 1
/\ 1 <= JS.orNumber (parseIntParam limit) 10 <= 100.
Proof.
unfold validatePagination. intros H.
apply app_eq_nil in H. destruct H as [Hp Hl]. split.
- apply validated_page. destruct page as [v|]; [|exact I].
  destruct (isInt 1 None v); [reflexivity|discriminate].
- apply validated_limit. destruct limit as [v|]; [|exact I].
  destruct (isInt 1 (Some 100) v); [reflexivity|discriminate].
Qed.

(** X22. GET /appointments answers 400 (the page or the limit is not
    valid), 500 (a value of the filter does not cast) or 200.  A 200
    carries the page asked for of the matching appointments sorted by
    date and time: at most [itemsPerPage] documents, [itemsPerPage]
    between 1 and 100, each stored and matching the filter, with
    [totalItems] the number of all matching appointments and
    [totalPages] that number divided by [itemsPerPage] and rounded
    up.  Nothing is written. *)
Theorem appointment_list_is_a_bounded_page
(castObjectId : string -> option ObjectId) (q : AppointmentQuery)
(w : World) :
let r := fst (getAppointments castObjectId q w) in
let matching := filter (appointmentFilter castObjectId q)
                  (appointments (db w)) in
((listStatus r = 400 /\ listSuccess r = false /\ listData r = None)
 \/ r = listFailed
 \/ exists data page,
      r = mkListReply 200 true None None (Some data) (Some page)
      /\ 1 <= currentPage page
      /\ 1 <= itemsPerPage page <= 100
      /\ data = pageOf (currentPage page) (itemsPerPage page)
                  (JS.sortBy byDateTime matching)
      /\ (List.length data <= Z.to_nat (itemsPerPage page))%nat
      /\ (forall a, In a data ->
                    In a (appointments (db w))
                    /\ appointmentFilter castObjectId q a = true)
      /\ Sorted (fun a b => byDateTime a b = true) data
      /\ totalItems page = Z.of_nat (List.length matching)
      /\ (totalPages page - 1) * itemsPerPage page < totalItems page
         <= totalPages page * itemsPerPage page)
/\ db (snd (getAppointments castObjectId q w)) = db w.
Proof.
cbv zeta. unfold getAppointments.
destruct (validatePagination (q_page q) (q_limit q)) as [|e errors] eqn:Hv.
2:{ split; [left; repeat split|reflexivity]. }
destruct (validatePagination_passed _ _ Hv) as [Hpage Hlimit].
unfold listAppointments. cbv zeta.
set (page := JS.orNumber (parseIntParam (q_page q)) 1) in *.
set (limit := JS.orNumber (parseIntParam (q_limit q)) 10) in *.
destruct (negb _); [split; [right; left|]; reflexivity|].
set (matching := filter (appointmentFilter castObjectId q)
                   (appointments (db w))).
unfold mongoSkip.
assert (Hskip : ((page - 1) * limit <? 0) = false) by (apply Z.ltb_ge; nia).
rewrite Hskip. cbn [fst snd]. split; [|reflexivity].
right. right.
set (sorted := JS.sortBy byDateTime matching).
exists (mongoLimit limit (skipn (Z.to_nat ((page - 1) * limit)) sorted)),
  (mkPagination page (JS.ceilDiv (Z.of_nat (List.length matching)) limit)
     (Z.of_nat (List.length matching)) limit).
cbn [currentPage itemsPerPage totalItems totalPages].
assert (Hlim : (limit =? 0) = false) by (apply Z.eqb_neq; lia).
split; [reflexivity|]. split; [exact Hpage|]. split; [exact Hlimit|].
split; [unfold pageOf, mongoSkip; rewrite Hskip; reflexivity|].
unfold mongoLimit. rewrite Hlim.
rewrite (Z.abs_eq limit) by lia.
split; [apply firstn_le_length|].
split.
{ intros a Ha. apply In_firstn, In_skipn in Ha.
  unfold sorted in Ha.
  apply (Permutation_in _ (sortBy_perm byDateTime matching)) in Ha.
  apply filter_In in Ha. exact Ha. }
split.
{ apply Sorted_firstn, Sorted_skipn, sortBy_sorted, byDateTime_total. }
split; [reflexivity|].
apply ceilDiv_bounds. lia.
Qed.

Lemma pages_concat {A : Type} (limit : nat) (l : list A) (n : nat) :
(0 < limit)%nat ->
List.concat (map (fun k => firstn limit (skipn (k * limit) l)) (seq 0 n))
= firstn (n * limit) l.
Proof.
intros Hl. induction n as [|n IH]; [reflexivity|].
rewrite seq_S, map_app, concat_app, IH. cbn [map List.concat plus].
rewrite app_nil_r.
replace (S n * limit)%nat with (n * limit + limit)%nat by lia.
rewrite <- (firstn_skipn (n * limit) (firstn (n * limit + limit) l)).
rewrite firstn_firstn, Nat.min_l by lia.
f_equal. rewrite firstn_skipn_comm. reflexivity.
Qed.

Lemma pages_tile {A : Type} (limit : Z) (l : list A) :
1 <= limit ->
let total := Z.of_nat (List.length l) in
List.concat (map (fun page => pageOf page limit l)
               (pagesUpTo (JS.ceilDiv total limit)))
= l
/\ (forall page, JS.ceilDiv total limit < page -> pageOf page limit l = []).
Proof.
intros Hlimit total.
pose proof (ceilDiv_bounds total limit ltac:(lia)) as [Hlow Hhigh].
assert (Hpages : 0 <= JS.ceilDiv total limit) by (unfold total in *; nia).
assert (Hpage : forall k : nat,
          pageOf (Z.of_nat k + 1) limit l
          = firstn (Z.to_nat limit) (skipn (k * Z.to_nat limit) l)).
{ intros k. unfold pageOf, mongoSkip, mongoLimit.
  assert (E1 : ((Z.of_nat k + 1 - 1) * limit <? 0) = false)
    by (apply Z.ltb_ge; nia).
  assert (E2 : (limit =? 0) = false) by (apply Z.eqb_neq; lia).
  rewrite E1, E2, (Z.abs_eq limit) by lia.
  f_equal. f_equal. nia. }
split.
- unfold pagesUpTo. rewrite map_map.
  rewrite (map_ext _ (fun k => firstn (Z.to_nat limit)
                                 (skipn (k * Z.to_nat limit) l)) Hpage).
  rewrite pages_concat by lia.
  apply firstn_all2. unfold total in *. nia.
- intros page Hbeyond. unfold pageOf, mongoSkip, mongoLimit.
  assert (E1 : ((page - 1) * limit <? 0) = false) by (apply Z.ltb_ge; nia).
  assert (E2 : (limit =? 0) = false) by (apply Z.eqb_neq; lia).
  rewrite E1, E2.
  rewrite skipn_all2; [destruct (Z.to_nat (Z.abs limit)); reflexivity|].
  unfold total in *. nia.
Qed.

Lemma pagesUpTo_positive (n k : Z) : In k (pagesUpTo n) -> 1 <= k.
Proof.
unfold pagesUpTo. intros H. apply in_map_iff in H.
destruct H as [i [Hi _]]. lia.
Qed.

Lemma getAppointments_at_page (castObjectId : string -> option ObjectId)
(q : AppointmentQuery) (w : World) (s : string) (k : Z) :
listStatus (fst (getAppointments castObjectId q w)) = 200 ->
isInt 1 None s = true ->
JS.parseInteger s = Some k ->
1 <= k ->
listed (fst (getAppointments castObjectId (atPage s q) w))
= pageOf k (JS.orNumber (parseIntParam (q_limit q)) 10)
    (JS.sortBy byDateTime
       (filter (appointmentFilter castObjectId q) (appointments (db w)))).
Proof.
intros Hok Hint Hparse Hk.
unfold getAppointments in Hok.
destruct (validatePagination (q_page q) (q_limit q)) as [|e errors] eqn:Hv;
  [|discriminate Hok].
unfold validatePagination in Hv. apply app_eq_nil in Hv.
destruct Hv as [_ Hl].
unfold getAppointments.
assert (Hv' : validatePagination (q_page (atPage s q)) (q_limit (atPage s q))
              = []).
{ unfold validatePagination. cbn [atPage q_page q_limit].
  rewrite Hint, Hl. reflexivity. }
rewrite Hv'.
unfold listAppointments in *. cbv zeta in *.
cbn [atPage q_page q_limit q_doctor q_patient] in *.
change (dateCondition (atPage s q)) with (dateCondition q).
change (appointmentFilter castObjectId (atPage s q))
  with (appointmentFilter castObjectId q).
destruct (negb _); [discriminate Hok|]. clear Hok.
change (parseIntParam (Some s)) with (JS.parseInteger s).
rewrite Hparse.
assert (Hor : JS.orNumber (Some k) 1 = k).
{ unfold JS.orNumber. destruct (Z.eqb_spec k 0); [lia|reflexivity]. }
rewrite Hor. unfold pageOf.
destruct (mongoSkip _ _); reflexivity.
Qed.

(** X23. A listing of appointments answered with 200 can be read page by
    page: asked again for the pages 1 to [totalPages], each written as
    an integer that [validatePagination] accepts, the answers put one
    after the other are the matching appointments in the order of date
    and time, each once, the store being the same at each request and
    the sort ordering equal keys the same way each time. *)
Theorem walking_the_pages_lists_every_match
(castObjectId : string -> option ObjectId) (q : AppointmentQuery)
(w : World) (pages : list string) :
let matching := filter (appointmentFilter castObjectId q)
                  (appointments (db w)) in
let limit := JS.orNumber (parseIntParam (q_limit q)) 10 in
let total := JS.ceilDiv (Z.of_nat (List.length matching)) limit in
listStatus (fst (getAppointments castObjectId q w)) = 200 ->
Forall (fun s => isInt 1 None s = true) pages ->
map JS.parseInteger pages = map Some (pagesUpTo total) ->
List.concat
  (map (fun s => listed (fst (getAppointments castObjectId (atPage s q) w)))
     pages)
= JS.sortBy byDateTime matching
/\ Permutation
     (List.concat
        (map (fun s =>
                listed (fst (getAppointments castObjectId (atPage s q) w)))
           pages))
     matching.
Proof.
intros matching limit total Hok Hint Hparse.
assert (Hlimit : 1 <= limit).
{ unfold getAppointments in Hok.
  destruct (validatePagination (q_page q) (q_limit q)) as [|e errors] eqn:Hv;
    [|discriminate Hok].
  apply validatePagination_passed in Hv. unfold limit. lia. }
assert (Heach :
  forall ks, (forall k, In k ks -> 1 <= k) ->
  map JS.parseInteger pages = map Some ks ->
  map (fun s => listed (fst (getAppointments castObjectId (atPage s q) w)))
    pages
  = map (fun k => pageOf k limit (JS.sortBy byDateTime matching)) ks).
{ clear Hparse. induction Hint as [|s pages Hs Hrest IH]; intros ks Hks Hmap.
  - destruct ks; [reflexivity|discriminate Hmap].
  - destruct ks as [|k ks]; [discriminate Hmap|].
    cbn [map] in Hmap. injection Hmap as Hk Hmap.
    cbn [map]. f_equal.
    + apply getAppointments_at_page;
        [exact Hok|exact Hs|exact Hk|apply Hks; left; reflexivity].
    + apply IH; [|exact Hmap]. intros k' Hin. apply Hks. right. exact Hin. }
assert (Hall : List.concat
  (map (fun s => listed (fst (getAppointments castObjectId (atPage s q) w)))
     pages)
  = JS.sortBy byDateTime matching).
{ rewrite (Heach (pagesUpTo total) (pagesUpTo_positive total) Hparse).
  pose proof (pages_tile limit (JS.sortBy byDateTime matching) Hlimit)
    as [Htile _].
  cbv zeta in Htile.
  rewrite (Permutation_length (sortBy_perm byDateTime matching)) in Htile.
  exact Htile. }
split; [exact Hall|].
rewrite Hall. apply sortBy_perm.
Qed.

(** *** Doctors *)

(** X24. GET /users/doctors lists the active users of role doctor and no
    one else, each once, by first name in the order of the characters;
    the answer does not carry a password. *)
Theorem doctors_are_listed_in_order (w : World) :
exists doctors,
  fst (getDoctors w)
  = mkReply 200 true None
      (Some (map (fun u => mkDoctorEntry (User._id u) (User.firstName u)
                             (User.lastName u) (User.email u)) doctors))
  /\ Permutation doctors (filter isActiveDoctor (users (db w)))
  /\ Sorted (fun u v => String.leb (User.firstName u) (User.firstName v)
                        = true) doctors
  /\ (forall u, In u doctors
                <-> In u (users (db w)) /\ User.role u = "doctor"
                    /\ User.isActive u = true)
  /\ db (snd (getDoctors w)) = db w.
Proof.
exists (JS.sortBy byFirstName (filter isActiveDoctor (users (db w)))).
split; [reflexivity|].
split; [apply sortBy_perm|].
split.
{ apply (sortBy_sorted byFirstName). intros a b H. unfold byFirstName in *.
  destruct (String.leb_total (User.firstName a) (User.firstName b));
    congruence. }
split; [|reflexivity].
intros u. split.
- intros H.
  apply (Permutation_in _ (sortBy_perm byFirstName _)) in H.
  apply filter_In in H. destruct H as [Hin H].
  unfold isActiveDoctor in H. apply andb_true_iff in H.
  destruct H as [H1 H2]. apply String.eqb_eq in H1. auto.
- intros [Hin [Hrole Hact]].
  apply (Permutation_in _ (Permutation_sym (sortBy_perm byFirstName _))).
  apply filter_In. split; [exact Hin|].
  unfold isActiveDoctor. rewrite Hrole, Hact. reflexivity.
Qed.

(** *** The calendar *)

Lemma holdsFrom_spec (check : Z -> bool) (count : nat) (from k : Z) :
holdsFrom check from count = true ->
from <= k < from + Z.of_nat count -> check k = true.
Proof.
revert from. induction count as [|n IH]; intros from H Hk; [lia|].
cbn [holdsFrom] in H. apply andb_true_iff in H. destruct H as [H1 H2].
destruct (Z.eq_dec k from) as [->|Hne]; [exact H1|].
apply (IH (from + 1)); [exact H2|lia].
Qed.

Lemma every_day_round_trips :
holdsFrom dayRoundTrips 0 (Z.to_nat 146097) = true.
Proof. vm_compute. reflexivity. Qed.

Lemma every_month_ends :
holdsFrom monthEnds 0 (Z.to_nat 4800) = true.
Proof. vm_compute. reflexivity. Qed.

Lemma daysFromCivil_shift (y m d e : Z) :
Calendar.daysFromCivil (y + 400 * e) m d
= Calendar.daysFromCivil y m d + e * 146097.
Proof.
unfold Calendar.daysFromCivil. cbv zeta.
set (y' := if m <=? 2 then y - 1 else y).
replace (if m <=? 2 then y + 400 * e - 1 else y + 400 * e)
  with (y' + e * 400) by (unfold y'; destruct (m <=? 2); lia).
rewrite Z.div_add by lia. 
replace (y' + e * 400 - (y' / 400 + e) * 400) with (y' - y' / 400 * 400)
  by lia.
lia.
Qed.

Lemma isLeap_shift (y e : Z) :
Calendar.isLeap (y + 400 * e) = Calendar.isLeap y.
Proof.
unfold Calendar.isLeap.
replace (y + 400 * e) with (y + (100 * e) * 4) at 1 by lia.
replace (y + 400 * e) with (y + (4 * e) * 100) at 1 by lia.
replace (y + 400 * e) with (y + e * 400) by lia.
rewrite !Z.mod_add by lia. reflexivity.
Qed.

Lemma daysInMonth_shift (y m e : Z) :
Calendar.daysInMonth (y + 400 * e) m = Calendar.daysInMonth y m.
Proof. unfold Calendar.daysInMonth. rewrite isLeap_shift. reflexivity. Qed.

Lemma civilFromDays_shift (z : Z) :
let era := (z + 719468) / 146097 in
let doe := (z + 719468) mod 146097 in
Calendar.civilFromDays z
= let '(y, m, d) := Calendar.civilFromDays (doe - 719468) in
  (y + 400 * era, m, d).
Proof.
cbv zeta. unfold Calendar.civilFromDays. cbv zeta.
pose proof (Z.mod_pos_bound (z + 719468) 146097 ltac:(lia)) as Hdoe.
set (doe := (z + 719468) mod 146097) in *.
set (era := (z + 719468) / 146097).
replace (doe - 719468 + 719468) with doe by lia.
rewrite (Z.div_small doe 146097) by lia.
replace (z + 719468 - era * 146097) with doe
  by (unfold doe, era; rewrite Z.mod_eq by lia; lia).
replace (doe - 0 * 146097) with doe by lia.
set (yoe := (doe - doe / 1460 + doe / 36524 - doe / 146096) / 365).
set (doy := doe - (365 * yoe + yoe / 4 - yoe / 100)).
set (mp := (5 * doy + 2) / 153).
destruct ((if mp <? 10 then mp + 3 else mp - 9) <=? 2);
  f_equal; f_equal; lia.
Qed.

(** Every day number has a date of the calendar, from which
    [daysFromCivil] counts the same day number. *)
Lemma civilFromDays_valid (z : Z) :
let '(y, m, d) := Calendar.civilFromDays z in
1 <= m <= 12 /\ 1 <= d <= Calendar.daysInMonth y m
/\ Calendar.daysFromCivil y m d = z.
Proof.
pose proof (civilFromDays_shift z) as Hshift. cbv zeta in Hshift.
pose proof (Z.mod_pos_bound (z + 719468) 146097 ltac:(lia)) as Hdoe.
pose proof (holdsFrom_spec dayRoundTrips _ 0 ((z + 719468) mod 146097)
              every_day_round_trips ltac:(lia)) as Hcheck.
unfold dayRoundTrips in Hcheck. cbv zeta in Hcheck.
rewrite Hshift.
destruct (Calendar.civilFromDays ((z + 719468) mod 146097 - 719468))
  as [[y m] d].
rewrite !andb_true_iff in Hcheck.
destruct Hcheck as [[[[H1 H2] H3] H4] H5].
apply Z.leb_le in H1, H2, H3, H4. apply Z.eqb_eq in H5.
rewrite daysInMonth_shift, daysFromCivil_shift, H5.
split; [lia|]. split; [lia|].
rewrite (Z.mod_eq (z + 719468) 146097) by lia. lia.
Qed.

(** The day before the first of the month after is the last day of the
    month. *)
Lemma month_ends (y m : Z) :
1 <= m <= 12 ->
Calendar.daysFromCivil (y + m / 12) (m mod 12 + 1) 1 - 1
= Calendar.daysFromCivil y m (Calendar.daysInMonth y m).
Proof.
intros Hm.
pose proof (Z.mod_pos_bound y 400 ltac:(lia)) as Hr.
assert (Hy : y = y mod 400 + 400 * (y / 400))
  by (rewrite (Z.mod_eq y 400) by lia; lia).
revert Hr Hy. generalize (y mod 400) (y / 400). intros r e Hr ->.
pose proof (holdsFrom_spec monthEnds _ 0 (r * 12 + (m - 1))
              every_month_ends ltac:(lia)) as Hcheck.
unfold monthEnds in Hcheck. cbv zeta in Hcheck.
replace ((r * 12 + (m - 1)) / 12) with r in Hcheck
  by (apply (Z.div_unique _ 12 _ (m - 1)); lia).
replace ((r * 12 + (m - 1)) mod 12 + 1) with m in Hcheck
  by (rewrite <- (Z.mod_unique _ 12 r (m - 1)); lia).
apply Z.eqb_eq in Hcheck.
replace (r + 400 * e + m / 12) with (r + m / 12 + 400 * e) by lia.
rewrite daysInMonth_shift, !daysFromCivil_shift. lia.
Qed.

Lemma endOfDay_day (t : Z) :
Calendar.endOfDay t / Calendar.msPerDay = t / Calendar.msPerDay.
Proof.
unfold Calendar.endOfDay.
assert (H : 0 < Calendar.msPerDay) by (vm_compute; reflexivity).
rewrite Z.add_comm, Z.div_add by lia.
rewrite Z.div_small by lia. lia.
Qed.

(** X25. The window of [newPatientsThisMonth] runs from the first instant of
    the month of the clock to the first instant of its last day: what
    is counted are the active patients created from 00:00 of the first
    to 00:00 of the last day of the month, both included, so that the
    present instant is inside the window unless the clock reads the
    last day of the month after midnight. *)
Theorem new_patients_are_counted_to_the_last_midnight (today : Z)
(store : Db) :
let '(year, month, day) := Calendar.civil today in
let lastDay := Calendar.daysInMonth year month in
1 <= month <= 12 /\ 1 <= day <= lastDay
/\ startOfMonth today = Calendar.utc year month 1 0 0 0 0
/\ endOfMonth today = Calendar.utc year month lastDay 0 0 0 0
/\ o_newPatientsThisMonth (overview today store)
   = List.length
       (filter (fun p => Patient.isActive p
                         && (Calendar.utc year month 1 0 0 0 0
                             <=? Patient.createdAt p)
                         && (Patient.createdAt p
                             <=? Calendar.utc year month lastDay 0 0 0 0))
          (patients store))
/\ startOfMonth today <= today
/\ (today <= endOfMonth today
    <-> day < lastDay \/ today mod Calendar.msPerDay = 0).
Proof.
pose proof (civilFromDays_valid (today / Calendar.msPerDay)) as Hvalid.
unfold overview. cbv zeta. cbn [o_newPatientsThisMonth].
unfold startOfMonth, endOfMonth, Calendar.civil.
rewrite endOfDay_day.
destruct (Calendar.civilFromDays (today / Calendar.msPerDay))
  as [[year month] day].
destruct Hvalid as [Hm [Hd Hz]].
assert (Hstart : Calendar.makeDate year (month - 1) 1
                 = Calendar.utc year month 1 0 0 0 0).
{ unfold Calendar.makeDate, Calendar.utc.
  rewrite (Z.div_small (month - 1) 12), (Z.mod_small (month - 1) 12) by lia.
  replace (year + 0) with year by lia.
  replace (month - 1 + 1) with month by lia.
  unfold Calendar.msPerDay. lia. }
assert (Hend : Calendar.makeDate year (month - 1 + 1) 0
               = Calendar.utc year month (Calendar.daysInMonth year month)
                   0 0 0 0).
{ unfold Calendar.makeDate, Calendar.utc.
  replace (month - 1 + 1) with month by lia.
  pose proof (month_ends year month Hm) as He.
  replace (Calendar.daysFromCivil (year + month / 12) (month mod 12 + 1) 1
           + 0 - 1)
    with (Calendar.daysFromCivil year month
            (Calendar.daysInMonth year month)) by lia.
  unfold Calendar.msPerDay. lia. }
rewrite Hstart, Hend.
split; [exact Hm|]. split; [exact Hd|].
split; [reflexivity|]. split; [reflexivity|]. split; [reflexivity|].
assert (Hlin : forall d, Calendar.daysFromCivil year month d
                         = Calendar.daysFromCivil year month day + d - day).
{ intros d. unfold Calendar.daysFromCivil. cbv zeta. lia. }
assert (Hms : Calendar.msPerDay = 86400000) by reflexivity.
pose proof (Z.div_mod today Calendar.msPerDay ltac:(lia)) as Hdm.
pose proof (Z.mod_pos_bound today Calendar.msPerDay ltac:(lia)) as Hr.
unfold Calendar.utc.
rewrite (Hlin 1), (Hlin (Calendar.daysInMonth year month)), Hz.
rewrite Hms in *. split; [lia|]. split; intros H; lia.
Qed.

(** *** The activity feed *)

Lemma forEachPush_none {A B : Type} (f : A -> option B) (l : list A) :
forEachPush f l = None <-> exists x, In x l /\ f x = None.
Proof.
induction l as [|x l IH]; cbn [forEachPush].
- split; [discriminate|intros [x [[] _]]].
- destruct (f x) as [y|] eqn:E.
  + destruct (forEachPush f l) as [ys|].
    * split; [discriminate|].
      intros [z [[<-|Hin] Hz]]; [congruence|].
      assert (Some ys = None); [|discriminate].
      apply IH. exists z. split; assumption.
    * split; [|reflexivity]. intros _.
      destruct (proj1 IH eq_refl) as [z [Hin Hz]].
      exists z. split; [right; exact Hin|exact Hz].
  + split; [|reflexivity]. intros _. exists x.
    split; [left; reflexivity|exact E].
Qed.

Lemma forEachPush_some {A B : Type} (f : A -> option B) (l : list A)
(ys : list B) :
forEachPush f l = Some ys -> Forall2 (fun x y => f x = Some y) l ys.
Proof.
revert ys. induction l as [|x l IH]; cbn [forEachPush]; intros ys H.
- inversion H. constructor.
- destruct (f x) as [y|] eqn:E; [|discriminate].
  destruct (forEachPush f l) as [ys'|]; [|discriminate].
  inversion H. constructor; [exact E|apply IH; reflexivity].
Qed.

Lemma Forall2_in_right {A B : Type} (R : A -> B -> Prop) (l : list A)
(ys : list B) (y : B) :
Forall2 R l ys -> In y ys -> exists x, In x l /\ R x y.
Proof.
induction 1 as [|x y' l ys Hxy _ IH]; intros Hin; [destruct Hin|].
destruct Hin as [<-|Hin].
- exists x. split; [left; reflexivity|exact Hxy].
- destruct (IH Hin) as [x' [Hx' Hr]]. exists x'.
  split; [right; exact Hx'|exact Hr].
Qed.

Lemma mongoLimit_in {A : Type} (n : Z) (l : list A) (x : A) :
In x (mongoLimit n l) -> In x l.
Proof.
unfold mongoLimit. destruct (n =? 0); [trivial|apply In_firstn].
Qed.

Lemma mongoLimit_length {A : Type} (n : Z) (l : list A) :
1 <= n -> (List.length (mongoLimit n l) <= Z.to_nat n)%nat.
Proof.
intros H. unfold mongoLimit.
destruct (Z.eqb_spec n 0); [lia|].
rewrite Z.abs_eq by lia. apply firstn_le_length.
Qed.

Lemma mongoLimit_all {A : Type} (n : Z) (l : list A) :
Z.of_nat (List.length l) <= Z.abs n -> mongoLimit n l = l.
Proof.
intros H. unfold mongoLimit. destruct (n =? 0); [reflexivity|].
apply firstn_all2. lia.
Qed.

Lemma sliceTo_in {A : Type} (n : Z) (l : list A) (x : A) :
In x (sliceTo n l) -> In x l.
Proof. unfold sliceTo. destruct (n <? 0); apply In_firstn. Qed.

Lemma filter_firstn_length {A : Type} (p : A -> bool) (k : nat)
(l : list A) :
(List.length (filter p (firstn k l)) <= List.length (filter p l))%nat.
Proof.
revert l. induction k as [|k IH]; intros l; [cbn; lia|].
destruct l as [|x l]; [cbn; lia|].
cbn [firstn filter]. specialize (IH l).
destruct (p x); cbn [List.length]; lia.
Qed.

Lemma filter_perm_length {A : Type} (p : A -> bool) (l l' : list A) :
Permutation l l' ->
List.length (filter p l) = List.length (filter p l').
Proof.
induction 1 as [|x l l' _ IH|x y l|l l' l'' _ IH1 _ IH2];
  cbn [filter]; try reflexivity.
- destruct (p x); cbn [List.length]; congruence.
- destruct (p x), (p y); reflexivity.
- congruence.
Qed.

Lemma filter_none_length {A : Type} (p : A -> bool) (l : list A) :
(forall x, In x l -> p x = false) -> List.length (filter p l) = 0%nat.
Proof.
induction l as [|x l IH]; intros H; [reflexivity|].
cbn [filter]. rewrite (H x (or_introl eq_refl)).
apply IH. intros y Hy. apply H. right. exact Hy.
Qed.

Lemma filter_length_le {A : Type} (p : A -> bool) (l : list A) :
(List.length (filter p l) <= List.length l)%nat.
Proof.
induction l as [|x l IH]; [cbn; lia|].
cbn [filter]. destruct (p x); cbn [List.length]; lia.
Qed.

Lemma appointmentActivity_type (store : Db) (apt : Appointment.t)
(act : Activity) :
appointmentActivity store apt = Some act -> act_type act = "appointment".
Proof.
unfold appointmentActivity.
destruct (populatedPatient _ _); [|discriminate].
destruct (populatedUser store (Appointment.doctor apt)); [|discriminate].
intros H. inversion H. reflexivity.
Qed.

Lemma appointmentActivity_none (store : Db) (apt : Appointment.t) :
appointmentActivity store apt = None
<-> populatedPatient store (Appointment.patient apt) = None
    \/ populatedUser store (Appointment.doctor apt) = None.
Proof.
unfold appointmentActivity.
destruct (populatedPatient store (Appointment.patient apt));
  destruct (populatedUser store (Appointment.doctor apt)); split;
  try discriminate; try reflexivity; auto;
  intros [H|H]; discriminate H.
Qed.

Lemma recentAppointments_stored (n : Z) (store : Db) (apt : Appointment.t) :
In apt (recentAppointments n store) -> In apt (appointments store).
Proof.
unfold recentAppointments. intros H. apply mongoLimit_in in H.
apply (Permutation_in _ (sortBy_perm _ _)) in H. exact H.
Qed.

Lemma recentAppointments_all (n : Z) (store : Db) (apt : Appointment.t) :
n / 2 = 0 \/ Z.of_nat (List.length (appointments store)) <= Z.abs (n / 2) ->
In apt (appointments store) -> In apt (recentAppointments n store).
Proof.
intros Hn Hin. unfold recentAppointments.
assert (E : mongoLimit (n / 2)
              (JS.sortBy newestAppointmentFirst (appointments store))
            = JS.sortBy newestAppointmentFirst (appointments store)).
{ destruct Hn as [Hz|Hlen].
  - unfold mongoLimit. rewrite Hz. reflexivity.
  - apply mongoLimit_all.
    rewrite (Permutation_length (sortBy_perm _ _)). exact Hlen. }
rewrite E.
apply (Permutation_in _ (Permutation_sym (sortBy_perm _ _))). exact Hin.
Qed.

(** X26. GET /dashboard/recent-activity writes nothing and answers 500 or
    200.  It answers 500 exactly when one of the appointments it reads
    refers to a patient or to a doctor that is not stored; what it
    reads are stored appointments, and all of them when
    [Math.floor(limit / 2)] is 0 or the collection has no more than
    that.  The feed of a 200 is ordered from the
    latest timestamp on, and each entry stands for a stored appointment
    or for a stored patient that is active.  With a limit of 1 or more
    the feed has at most [limit] entries, and with a limit of 2 or more
    at most half of [limit], rounded down, are appointments and at most
    as many are patients. *)
Theorem activity_feed_is_newest_first (limit : option string) (w : World) :
let r := fst (getRecentActivity limit w) in
let n := JS.orNumber (parseIntParam limit) 20 in
let failed := mkReply 500 false (Some "Internal server error") None in
db (snd (getRecentActivity limit w)) = db w
/\ (r = failed
    <-> exists apt,
          In apt (recentAppointments n (db w))
          /\ (populatedPatient (db w) (Appointment.patient apt) = None
              \/ populatedUser (db w) (Appointment.doctor apt) = None))
/\ (forall apt, In apt (recentAppointments n (db w)) ->
                In apt (appointments (db w)))
/\ (n / 2 = 0
    \/ Z.of_nat (List.length (appointments (db w))) <= Z.abs (n / 2) ->
    forall apt, In apt (appointments (db w)) ->
                In apt (recentAppointments n (db w)))
/\ (r = failed
    \/ exists feed,
         r = mkReply 200 true None (Some feed)
         /\ Sorted (fun a b => newestActivityFirst a b = true) feed
         /\ (forall act, In act feed ->
               (exists apt, In apt (appointments (db w))
                            /\ appointmentActivity (db w) apt = Some act)
               \/ (exists p, In p (patients (db w))
                             /\ Patient.isActive p = true
                             /\ act = patientActivity p))
         /\ (1 <= n -> (List.length feed <= Z.to_nat n)%nat)
         /\ (2 <= n ->
             (List.length
                (filter (fun act => String.eqb (act_type act) "appointment")
                   feed) <= Z.to_nat (n / 2))%nat
             /\ (List.length
                   (filter (fun act => String.eqb (act_type act) "patient")
                      feed) <= Z.to_nat (n / 2))%nat)).
Proof.
cbv zeta. unfold getRecentActivity. cbv zeta.
set (n := JS.orNumber (parseIntParam limit) 20).
change (db (logOp (Query Appointments) w)) with (db w).
assert (Hapt : forall apt, In apt (recentAppointments n (db w)) ->
                           In apt (appointments (db w)))
  by (intros apt; apply recentAppointments_stored).
assert (Hpat : forall p, In p (recentPatients n (db w)) ->
                         In p (patients (db w))
                         /\ Patient.isActive p = true).
{ intros p H. unfold recentPatients in H. apply mongoLimit_in in H.
  apply (Permutation_in _ (sortBy_perm _ _)) in H.
  apply filter_In in H. exact H. }
assert (Hdangling :
  forEachPush (appointmentActivity (db w)) (recentAppointments n (db w))
  = None
  <-> exists apt,
        In apt (recentAppointments n (db w))
        /\ (populatedPatient (db w) (Appointment.patient apt) = None
            \/ populatedUser (db w) (Appointment.doctor apt) = None)).
{ rewrite forEachPush_none. split; intros [apt [Hin H]]; exists apt;
    (split; [exact Hin|apply appointmentActivity_none; exact H]). }
destruct (forEachPush (appointmentActivity (db w))
            (recentAppointments n (db w)))
  as [activities|] eqn:Hpush; cbn [fst snd].
2:{ split; [reflexivity|].
    split; [split; [intros _; apply Hdangling; reflexivity|reflexivity]|].
    split; [exact Hapt|].
    split; [intros Hn apt; apply recentAppointments_all; exact Hn|].
    left. reflexivity. }
split; [reflexivity|].
split.
{ split; [discriminate|]. intros H. apply Hdangling in H. discriminate H. }
split; [exact Hapt|].
split; [intros Hn apt; apply recentAppointments_all; exact Hn|].
right.
apply forEachPush_some in Hpush.
set (all := (activities
             ++ map patientActivity (recentPatients n (db w)))%list).
set (sorted := JS.sortBy newestActivityFirst all).
exists (sliceTo n sorted).
assert (Hkinds : forall kind,
          (List.length
             (filter (fun act => String.eqb (act_type act) kind)
                (sliceTo n sorted))
           <= List.length
                (filter (fun act => String.eqb (act_type act) kind)
                   activities)
              + List.length
                  (filter (fun act => String.eqb (act_type act) kind)
                     (map patientActivity (recentPatients n (db w)))))%nat).
{ intros kind.
  rewrite <- length_app, <- filter_app. fold all.
  rewrite <- (filter_perm_length _ _ _ (sortBy_perm newestActivityFirst all)).
  fold sorted. unfold sliceTo.
  destruct (n <? 0); apply filter_firstn_length. }
split; [reflexivity|].
split.
{ unfold sliceTo.
  destruct (n <? 0); apply Sorted_firstn;
    apply (sortBy_sorted newestActivityFirst);
    intros a b H; unfold newestActivityFirst in *;
    apply Z.leb_gt in H; apply Z.leb_le; lia. }
split.
{ intros act Hin. apply sliceTo_in in Hin.
  apply (Permutation_in _ (sortBy_perm _ _)) in Hin.
  apply in_app_or in Hin. destruct Hin as [Hin|Hin].
  - left. destruct (Forall2_in_right _ _ _ _ Hpush Hin) as [apt [Ha Hact]].
    exists apt. split; [apply Hapt, Ha|exact Hact].
  - right. apply in_map_iff in Hin. destruct Hin as [p [<- Hp]].
    exists p. destruct (Hpat p Hp) as [H1 H2]. auto. }
split.
{ intros Hn. unfold sliceTo.
  assert (E : (n <? 0) = false) by (apply Z.ltb_ge; lia).
  rewrite E. apply firstn_le_length. }
intros Hn.
assert (Hhalf : 1 <= n / 2) by (apply Z.div_le_lower_bound; lia).
assert (Hla : (List.length activities <= Z.to_nat (n / 2))%nat).
{ rewrite <- (Forall2_length Hpush). apply mongoLimit_length, Hhalf. }
assert (Hlp : (List.length (map patientActivity (recentPatients n (db w)))
               <= Z.to_nat (n / 2))%nat).
{ rewrite length_map. apply mongoLimit_length, Hhalf. }
split.
- pose proof (Hkinds "appointment") as H.
  rewrite (filter_none_length _
             (map patientActivity (recentPatients n (db w)))) in H.
  + pose proof (filter_length_le
                  (fun act => String.eqb (act_type act) "appointment")
                  activities). lia.
  + intros act Hin. apply in_map_iff in Hin. destruct Hin as [p [<- _]].
    reflexivity.
- pose proof (Hkinds "patient") as H.
  rewrite (filter_none_length _ activities) in H.
  + pose proof (filter_length_le
                  (fun act => String.eqb (act_type act) "patient")
                  (map patientActivity (recentPatients n (db w)))). lia.
  + intros act Hin.
    destruct (Forall2_in_right _ _ _ _ Hpush Hin) as [apt [_ Hact]].
    rewrite (appointmentActivity_type _ _ _ Hact). reflexivity.
Qed.

Lemma putAppointment_save_stores (env : Env) (user : User.t)
(apt : Appointment.t) (body : AppointmentBody) (w : World) (pid : ObjectId) :
b_patient body = Some pid ->
In apt (appointments (db w)) ->
statusCode (fst (putAppointment_save env user apt body w)) = 200 ->
let w' := snd (putAppointment_save env user apt body w) in
(exists a, In a (appointments (db w')) /\ Appointment.patient a = pid)
/\ patients (db w') = patients (db w)
/\ List.length (appointments (db w')) = List.length (appointments (db w)).
Proof.
intros Hbody Hin. unfold putAppointment_save.
destruct (assignAppointment apt body) as [updated|] eqn:Hassign;
  [|discriminate].
assert (Hpatient : Appointment.patient updated = pid
                   /\ Appointment._id updated = Appointment._id apt).
{ revert Hassign. unfold assignAppointment.
  destruct (castOptDate (b_date body)); [|discriminate].
  destruct (castOptDate (b_followUpDate body)); [|discriminate].
  intros H. inversion H. cbn [Appointment.patient Appointment._id].
  rewrite Hbody. split; reflexivity. }
destruct Hpatient as [Hpatient Hid].
cbv zeta.
destruct (Appointment.eq_dec _ apt) as [E|_].
- intros _. cbn [snd]. split; [|split; reflexivity].
  exists apt. split; [exact Hin|]. rewrite <- E. exact Hpatient.
- destruct (negb (Appointment.validate _)); [discriminate|].
  destruct (existsb _ (appointments (db w))); [discriminate|].
  intros _. unfold setAppointments. cbn [snd db appointments patients].
  split; [|split; [reflexivity|apply length_map]].
  exists (Appointment.touch (now env)
            (Appointment.setUpdatedBy (User._id user) updated)).
  split; [|exact Hpatient].
  unfold replaceAppointment. apply in_map_iff. exists apt.
  split; [|exact Hin].
  cbn [Appointment._id Appointment.touch Appointment.setUpdatedBy
       Appointment.setStatusUpdatedBy].
  rewrite Hid, String.eqb_refl. reflexivity.
Qed.

(** X27. PUT /appointments/:id does not look the patient of the body up.
    When it answers 200 to a body whose patient is not stored, the
    appointment is left referring to that patient, and the activity
    feed asked next, without a limit and with ten appointments or fewer
    stored, answers 500. *)
Theorem unknown_patient_breaks_the_activity_feed (env : Env) (user : User.t)
(id : ObjectId) (body : AppointmentBody) (w : World) (pid : ObjectId) :
b_patient body = Some pid ->
populatedPatient (db w) pid = None ->
(List.length (appointments (db w)) <= 10)%nat ->
statusCode (fst (putAppointment env user id body w)) = 200 ->
let w' := snd (putAppointment env user id body w) in
(exists a, In a (appointments (db w')) /\ Appointment.patient a = pid)
/\ fst (getRecentActivity None w')
   = mkReply 500 false (Some "Internal server error") None.
Proof.
intros Hbody Hpid Hlen.
rewrite putAppointment_run. cbv zeta.
destruct (find (fun a => String.eqb (Appointment._id a) id)
            (appointments (db w))) as [apt|] eqn:Hfind; [|discriminate].
pose proof (find_some _ _ Hfind) as [Hin _].
assert (Hsave : forall w1,
          db w1 = db w ->
          statusCode (fst (putAppointment_save env user apt body w1)) = 200 ->
          (exists a,
             In a (appointments
                     (db (snd (putAppointment_save env user apt body w1))))
             /\ Appointment.patient a = pid)
          /\ fst (getRecentActivity None
                    (snd (putAppointment_save env user apt body w1)))
             = mkReply 500 false (Some "Internal server error") None).
{ intros w1 Hw1 Hok.
  destruct (putAppointment_save_stores env user apt body w1 pid Hbody
              ltac:(rewrite Hw1; exact Hin) Hok) as [[a [Ha Hp]] [Hpats Hsame]].
  split; [exists a; split; assumption|].
  set (w' := snd (putAppointment_save env user apt body w1)) in *.
  unfold getRecentActivity. cbv zeta.
  change (JS.orNumber (parseIntParam None) 20) with 20.
  assert (Hnone : forEachPush (appointmentActivity (db w'))
                    (recentAppointments 20 (db w'))
                  = None).
  { apply forEachPush_none. exists a. split.
    - apply recentAppointments_all; [|exact Ha].
      right. change (Z.abs (20 / 2)) with 10. rewrite Hsame, Hw1. lia.
    - unfold appointmentActivity, populatedPatient.
      rewrite Hp, Hpats, Hw1. unfold populatedPatient in Hpid.
      rewrite Hpid. reflexivity. }
  rewrite Hnone. reflexivity. }
destruct (reschedules body).
- destruct (candidateDate apt body) as [d|]; [|discriminate].
  destruct (isSome _); [discriminate|].
  apply Hsave. reflexivity.
- apply Hsave. reflexivity.
Qed.

(** *** The upcoming appointments *)

(** X28. The upcoming appointments of the dashboard are at most five, in
    the order of date and time, each a stored appointment that is
    scheduled or confirmed and whose [date] is not before the clock.
    The filter reads [date], which holds the day, and not the time of
    the appointment: when [date] is the midnight that starts the day
    and the clock is past midnight, a listed appointment is of a later
    day than the clock's, so that no appointment of the current day is
    listed, whatever its time. *)
Theorem upcoming_skips_the_rest_of_today (now : Z) (store : Db)
(entries : list Upcoming) :
upcomingAppointments now store = Some entries ->
(List.length entries <= 5)%nat
/\ exists listed,
     Forall2 (fun a e => upcomingEntry store a = Some e) listed entries
     /\ Sorted (fun a b => byDateTime a b = true) listed
     /\ forall a, In a listed ->
          In a (appointments store)
          /\ JS.includes ["scheduled"; "confirmed"] (Appointment.status a)
             = true
          /\ now <= Appointment.date a
          /\ (Appointment.date a mod Calendar.msPerDay = 0 ->
              now mod Calendar.msPerDay <> 0 ->
              Calendar.startOfDay now + Calendar.msPerDay
              <= Appointment.date a).
Proof.
unfold upcomingAppointments. intros H.
apply forEachPush_some in H.
set (listed := mongoLimit 5
                 (JS.sortBy byDateTime
                    (filter (isUpcoming now) (appointments store)))) in *.
split.
{ rewrite <- (Forall2_length H).
  apply (mongoLimit_length 5). lia. }
exists listed. split; [exact H|]. split.
{ unfold listed, mongoLimit. cbn [Z.eqb].
  apply Sorted_firstn, sortBy_sorted, byDateTime_total. }
intros a Hin. unfold listed in Hin.
apply mongoLimit_in in Hin.
apply (Permutation_in _ (sortBy_perm _ _)) in Hin.
apply filter_In in Hin. destruct Hin as [Hin Hup].
unfold isUpcoming in Hup. apply andb_true_iff in Hup.
destruct Hup as [Hdate Hstatus]. apply Z.leb_le in Hdate.
split; [exact Hin|]. split; [exact Hstatus|]. split; [exact Hdate|].
intros Hmid Hnow. unfold Calendar.startOfDay.
assert (Hms : Calendar.msPerDay = 86400000) by reflexivity.
rewrite Hms in *.
pose proof (Z.div_mod now 86400000 ltac:(lia)).
pose proof (Z.mod_pos_bound now 86400000 ltac:(lia)).
pose proof (Z.div_mod (Appointment.date a) 86400000 ltac:(lia)).
nia.
Qed.

End Routes.

(** ** The properties at the sample store *)

(** C1 at the sample store: on 2024-02-01 the sample doctor has 10:00
    for an hour and 11:00 for half an hour. *)
Lemma availability_partitions_grid_witness :
  exists avail : list Z,
    fst (getAvailability Calendar.parseDateOnly (User._id Sample.doctor)
           (Some "2024-02-01") Sample.world)
    = availabilityResponse "2024-02-01" (map slotString avail)
        [mkBookedSlot "10:00" 60; mkBookedSlot "11:00" 30]
    /\ StronglySorted Z.lt avail
    /\ (forall m, In m grid
                  <-> In m avail
                      \/ (In m grid
                          /\ blocked (User._id Sample.doctor) Sample.day
                               Sample.store m)).
Proof.
  destruct (availability_partitions_grid Calendar.parseDateOnly
              (User._id Sample.doctor) "2024-02-01" Sample.day Sample.world)
    as [avail [H1 [H2 [_ [_ [_ [H3 _]]]]]]].
  - reflexivity.
  - vm_compute. reflexivity.
  - exists avail. split; [exact H1|]. split; [exact H2|exact H3].
Defined.

Lemma sample_indexes_hold : indexesHold Sample.world.
Proof.
  split.
  - unfold uniqueIds. simpl.
    repeat (constructor; [simpl; intuition discriminate|]). constructor.
  - unfold uniqueSlots. simpl.
    repeat (constructor; [repeat (constructor; [reflexivity|]); constructor|]).
    constructor.
Qed.

(** The sample store is well stored, and stays so under any requests. *)
Lemma sample_well_stored (calls : list Call) :
  wellStored (serve Calendar.parseDateOnly calls Sample.world).
Proof.
  apply serve_keeps_wellStored.
  split; [|split; [|split]].
  - repeat (constructor; [vm_compute; reflexivity|]). constructor.
  - repeat (constructor; [vm_compute; reflexivity|]). constructor.
  - unfold uniquePatientIds. simpl.
    repeat (constructor; [simpl; intuition discriminate|]). constructor.
  - unfold uniqueEmails. simpl.
    repeat (constructor; [repeat (constructor; [reflexivity|]); constructor|]).
    constructor.
Qed.

(** C2 at the sample store: a booking at 10:00 collides with the
    scheduled 10:00 appointment; a booking at 10:30, inside its hour,
    does not. *)
Lemma conflict_guard_is_exact_match_witness :
  fst (postAppointment Calendar.parseDateOnly Sample.env Sample.doctor
         (Sample.booking "10:00" 30) Sample.world) = notAvailable
  /\ fst (postAppointment Calendar.parseDateOnly Sample.env Sample.doctor
            (Sample.booking "10:30" 30) Sample.world) <> notAvailable.
Proof.
  destruct (conflict_guard_is_exact_match Calendar.parseDateOnly Sample.env
              Sample.doctor Sample.world (proj2 sample_indexes_hold))
    as [Hpost [_ [Hexact _]]].
  split.
  - apply (proj1 (Hpost (Sample.booking "10:00" 30))).
    split; [exists Sample.patient; simpl; auto|].
    split; [exists Sample.doctor; simpl; auto|].
    exists Sample.day. split; [vm_compute; reflexivity|].
    exists Sample.tenOClock. split; [left; reflexivity|].
    repeat split; discriminate.
  - apply (Hexact (Sample.booking "10:30" 30) Sample.day).
    + vm_compute. reflexivity.
    + intros a [Ha|[Ha|[]]] _ _ _; subst a; discriminate.
Defined.

(** C3 at the empty sample store: 10:00 is booked, cancelled and booked
    again. *)
Lemma slot_index_covers_every_status_witness :
  let r1 := postAppointment Calendar.parseDateOnly Sample.env Sample.doctor
              (Sample.booking "10:00" 30) Sample.emptyWorld in
  let r2 := deleteAppointment Sample.laterEnv Sample.admin
              (freshId Sample.env) (snd r1) in
  let r3 := postAppointment Calendar.parseDateOnly Sample.laterEnv
              Sample.doctor (Sample.booking "10:00" 45) (snd r2) in
  statusCode (fst r1) = 201
  /\ fst r2 = cancelledResponse
  /\ fst r3 = internalError
  /\ db (snd r3) = db (snd r2).
Proof.
  cbv zeta.
  assert (Hinv : indexesHold Sample.emptyWorld)
    by (split; constructor).
  destruct (slot_index_covers_every_status Calendar.parseDateOnly
              Sample.emptyWorld Hinv) as [_ [_ Hscenario]].
  destruct (Hscenario Sample.env Sample.laterEnv Sample.laterEnv
              Sample.doctor Sample.admin Sample.doctor
              (Sample.booking "10:00" 30) (Sample.booking "10:00" 45))
    as [H2 [_ [_ [H3 [H4 _]]]]].
  - vm_compute. reflexivity.
  - reflexivity.
  - reflexivity.
  - reflexivity.
  - exists Sample.patient. simpl. auto.
  - eexists. split; [vm_compute; reflexivity|vm_compute; reflexivity].
  - split; [vm_compute; reflexivity|]. split; [exact H2|].
    split; [exact H3|exact H4].
Defined.

(** C5, at the failing input.  An appointment from 23:30 that lasts 60
    minutes passes the validators of the schema; the virtual computes
    its end time as 24:30 and not as 00:30, and 24:30 does not match
    the pattern that the same schema puts on a time. *)
Theorem endTime_past_midnight_is_not_a_time :
  Appointment.validate Sample.lateAppointment = true
  /\ Appointment.time Sample.lateAppointment = "23:30"
  /\ Appointment.duration Sample.lateAppointment = 60
  /\ Appointment.endTime Sample.lateAppointment = "24:30"
  /\ Appointment.endTime Sample.lateAppointment <> "00:30"
  /\ RegExp.test Appointment.timePattern
       (Appointment.endTime Sample.lateAppointment) = false.
Proof.
  repeat split; try (vm_compute; reflexivity).
  vm_compute. discriminate.
Qed.

(** The end time at 23:30 for 60 minutes. *)
Lemma endTime_adds_without_wrapping_witness :
  exists start,
    timeMinutes (Appointment.time Sample.lateAppointment) = Some start
    /\ 0 <= start < 24 * 60
    /\ let total := start + Appointment.duration Sample.lateAppointment in
       Appointment.endTime Sample.lateAppointment
       = timeSlot (total / 60) (total mod 60)
       /\ (RegExp.test Appointment.timePattern
             (Appointment.endTime Sample.lateAppointment) = true
           <-> total < 24 * 60)
       /\ (total < 24 * 60 ->
           timeMinutes (Appointment.endTime Sample.lateAppointment)
           = Some total).
Proof.
  apply (endTime_adds_without_wrapping Sample.lateAppointment).
  - vm_compute. reflexivity.
  - simpl. lia.
Defined.

(** C6, the counterexample: after DELETE /patients/:id the stored record
    is not the former record with [isActive] false and nothing else
    changed: [updatedAt] went from 1000 to the time of the request. *)
Lemma delete_patient_refreshes_updatedAt :
  let id := Patient._id Sample.patient in
  let w' := snd (deletePatient Sample.laterEnv id Sample.world) in
  find (activePatient id) (patients (db Sample.world)) = Some Sample.patient
  /\ find (fun q => String.eqb (Patient._id q) id) (patients (db w'))
     <> Some (Patient.setIsActive false Sample.patient)
  /\ option_map Patient.updatedAt
       (find (fun q => String.eqb (Patient._id q) id) (patients (db w')))
     = Some 9000
  /\ Patient.updatedAt Sample.patient = 1000.
Proof.
  cbv zeta. split; [reflexivity|].
  split; [|split; vm_compute; reflexivity].
  vm_compute. discriminate.
Qed.

(** C6, the amended claim at the sample store, followed by an update
    and a second delete of the same identifier. *)
Lemma delete_patient_is_soft_witness :
  let id := Patient._id Sample.patient in
  let w' := snd (deletePatient Sample.laterEnv id Sample.world) in
  fst (deletePatient Sample.laterEnv id Sample.world) = deletedResponse
  /\ fst (getPatient id w') = patientNotFound
  /\ fst (getPatient id
            (serve Calendar.parseDateOnly
               [mkCall Sample.laterEnv Sample.admin (DeletePatient id);
                mkCall Sample.laterEnv Sample.admin (GetPatient id)] w'))
     = patientNotFound.
Proof.
  cbv zeta.
  destruct (delete_patient_is_soft Calendar.parseDateOnly Sample.laterEnv
              (Patient._id Sample.patient) Sample.world Sample.patient)
    as [stored
        [Hresp [_ [_ [_ [_ [_ [_ [_ [_ [_ [_ [_ [_ [_ [_ [_ [_ [_ [_ [_ [_ [_ [_ [_ [_ [_ [_ [Hget Hlater]]]]]]]]]]]]]]]]]]]]]]]]]]]]].
  - reflexivity.
  - vm_compute. reflexivity.
  - unfold uniqueEmails. simpl. repeat constructor.
  - split; [exact Hresp|]. split; [exact Hget|].
    exact (proj1 (Hlater _)).
Defined.

(** C7, the counterexample: after DELETE /appointments/:id the stored
    document is not the former one with status and [updatedBy] set and
    nothing else changed: [updatedAt] went from 2000 to the time of the
    request. *)
Lemma delete_appointment_refreshes_updatedAt :
  let id := Appointment._id Sample.tenOClock in
  let w' := snd (deleteAppointment Sample.laterEnv Sample.admin id
                   Sample.world) in
  find (fun a => String.eqb (Appointment._id a) id)
    (appointments (db Sample.world)) = Some Sample.tenOClock
  /\ find (fun a => String.eqb (Appointment._id a) id) (appointments (db w'))
     <> Some (Appointment.setStatusUpdatedBy "cancelled"
                (User._id Sample.admin) Sample.tenOClock)
  /\ option_map Appointment.updatedAt
       (find (fun a => String.eqb (Appointment._id a) id)
          (appointments (db w')))
     = Some 9000
  /\ Appointment.updatedAt Sample.tenOClock = 2000.
Proof.
  cbv zeta. split; [reflexivity|].
  split; [|split; vm_compute; reflexivity].
  vm_compute. discriminate.
Qed.

(** C7, the amended claim at the sample store. *)
Lemma delete_appointment_is_cancellation_witness :
  let id := Appointment._id Sample.tenOClock in
  exists stored,
    fst (deleteAppointment Sample.laterEnv Sample.admin id Sample.world)
    = cancelledResponse
    /\ find (fun a => String.eqb (Appointment._id a) id)
         (appointments
            (db (snd (deleteAppointment Sample.laterEnv Sample.admin id
                        Sample.world))))
       = Some stored
    /\ Appointment.status stored = "cancelled"
    /\ Appointment.updatedBy stored = Some (User._id Sample.admin)
    /\ Appointment.time stored = "10:00".
Proof.
  cbv zeta.
  destruct (delete_appointment_is_cancellation Sample.laterEnv Sample.admin
              (Appointment._id Sample.tenOClock) Sample.world Sample.tenOClock)
    as [stored [H1 [_ [_ [H2 [_ [H3 [H4 [_ [_ [_ [_ [_ [H5 _]]]]]]]]]]]]]].
  - exact sample_indexes_hold.
  - reflexivity.
  - vm_compute. reflexivity.
  - exists stored. split; [exact H1|]. split; [exact H2|].
    split; [exact H3|]. split; [exact H4|]. rewrite H5. reflexivity.
Defined.

(** C8 at two sample worlds that share their appointments only. *)
Lemma availability_deterministic_witness :
  fst (getAvailability Calendar.parseDateOnly (User._id Sample.doctor)
         (Some "2024-02-01") Sample.world)
  = fst (getAvailability Calendar.parseDateOnly (User._id Sample.doctor)
           (Some "2024-02-01") Sample.otherWorld)
  /\ db (snd (getAvailability Calendar.parseDateOnly (User._id Sample.doctor)
                (Some "2024-02-01") Sample.world)) = db Sample.world.
Proof.
  destruct (availability_deterministic Calendar.parseDateOnly
              (User._id Sample.doctor) (Some "2024-02-01") Sample.world
              Sample.otherWorld) as [H1 [H2 _]].
  - reflexivity.
  - split; [exact H1|exact H2].
Defined.

(** C10, the counterexample: a caller who is not an admin sends a body
    whose role is the empty string; the role is still in the body that
    is assigned to the user. *)
Lemma empty_role_is_not_stripped :
  User.role Sample.staff <> "admin"
  /\ ub_role Sample.emptyRole = Some ""
  /\ ub_role (sanitizeUserBody Sample.staff Sample.emptyRole) = Some ""
  /\ ub_role (sanitizeUserBody Sample.staff Sample.emptyRole) <> None.
Proof.
  split; [discriminate|]. split; [reflexivity|]. split; [reflexivity|].
  discriminate.
Qed.

(** C10, the amended claim at the sample store: the staff account asks
    for the admin role and a new password on its own profile. *)
Lemma put_user_keeps_password_and_role_witness :
  let w' := snd (putUser Sample.env Sample.staff (User._id Sample.staff)
                   Sample.escalation Sample.world) in
  passwords w' = passwords Sample.world
  /\ rolesOf w' = rolesOf Sample.world
  /\ ub_role (sanitizeUserBody Sample.staff Sample.escalation) = None.
Proof.
  cbv zeta.
  destruct (put_user_keeps_password_and_role Sample.env Sample.staff
              (User._id Sample.staff) Sample.escalation Sample.world)
    as [_ [Hpw Hrole]].
  - unfold uniqueUserIds. simpl.
    repeat (constructor; [simpl; intuition discriminate|]). constructor.
  - destruct Hrole as [Hstrip [_ Hroles]]; [discriminate|].
    split; [exact Hpw|]. split; [exact Hroles|].
    apply Hstrip. reflexivity.
Defined.

(** A duplicate email reported by the datastore. *)
Lemma duplicate_key_names_the_field_witness :
  let err := ErrorHandler.mkCustomError "MongoServerError"
               "E11000 duplicate key error collection: patients"
               None (Some 11000) (Some ["email"]) None None in
  ErrorHandler.status (ErrorHandler.errorHandler None err) = 400
  /\ ErrorHandler.bodyMessage (ErrorHandler.errorHandler None err)
     = "Email already exists".
Proof.
  cbv zeta.
  apply (duplicate_key_names_the_field None _ "e" "mail" []);
    [reflexivity|reflexivity|discriminate|discriminate|discriminate].
Defined.

(** The admin deletes the desk account; its token is refused from then
    on and its profile is gone. *)
Lemma deleted_user_is_locked_out_witness :
  let w' := snd (deleteUser Sample.laterEnv Sample.admin
                   (User._id Sample.staff) Sample.world) in
  fst (authenticate (fun _ => Decoded (User._id Sample.staff))
         (Some "Bearer eyJhbGciOi") w')
  = Sent (failure 401 "Account is deactivated.")
  /\ replyStatus (fst (getUser Sample.admin (User._id Sample.staff) w')) = 404.
Proof.
  cbv zeta.
  apply (deleted_user_is_locked_out Sample.laterEnv Sample.admin
           (User._id Sample.staff) (User._id Sample.staff) Sample.world
           (fun _ => Decoded (User._id Sample.staff)) "Bearer eyJhbGciOi"
           Sample.admin);
    vm_compute; reflexivity.
Defined.

(** The sample patient is deleted, and asked for again after another
    request. *)
Lemma deleted_patient_records_are_hidden_witness :
  let id := Patient._id Sample.patient in
  let w' := serve Calendar.parseDateOnly
              [mkCall Sample.env Sample.doctor (GetPatient id)]
              (snd (deletePatient Sample.laterEnv id Sample.world)) in
  fst (getMedicalHistory id Sample.world) = mkReply 200 true None (Some [])
  /\ fst (getMedicalHistory id w')
     = mkReply 404 false (Some "Patient not found") None
  /\ fst (getMedications id w')
     = mkReply 404 false (Some "Patient not found") None.
Proof.
  cbv zeta.
  destruct (deleted_patient_records_are_hidden Calendar.parseDateOnly
              Sample.laterEnv (Patient._id Sample.patient) Sample.world
              [mkCall Sample.env Sample.doctor
                 (GetPatient (Patient._id Sample.patient))])
    as [_ [H1 H2]].
  - vm_compute. reflexivity.
  - split; [vm_compute; reflexivity|]. split; [exact H1|exact H2].
Defined.

(** A booking at 14:00 in the sample store, read back. *)
Lemma created_appointment_is_readable_witness :
  exists a,
    fst (postAppointment Calendar.parseDateOnly Sample.env Sample.doctor
           (Sample.booking "14:00" 30) Sample.world)
    = mkResponse 201 true (Some "Appointment created successfully")
        (Some (DataAppointment a))
    /\ Appointment._id a = freshId Sample.env
    /\ Appointment.createdBy a = User._id Sample.doctor
    /\ fst (getAppointment (freshId Sample.env) Sample.world)
       = mkReply 404 false (Some "Appointment not found") None
    /\ fst (getAppointment (freshId Sample.env)
              (snd (postAppointment Calendar.parseDateOnly Sample.env
                      Sample.doctor (Sample.booking "14:00" 30)
                      Sample.world)))
       = mkReply 200 true None (Some a).
Proof.
  apply (created_appointment_is_readable Calendar.parseDateOnly Sample.env
           Sample.doctor (Sample.booking "14:00" 30) Sample.world).
  vm_compute. reflexivity.
Defined.

(** A booking at 14:00 for 45 minutes takes the slots 14:00 and 14:30. *)
Lemma booked_slot_is_not_available_witness :
  exists avail booked,
    fst (getAvailability Calendar.parseDateOnly (User._id Sample.doctor)
           (Some "2024-02-01")
           (snd (postAppointment Calendar.parseDateOnly Sample.env
                   Sample.doctor (Sample.booking "14:00" 45) Sample.world)))
    = availabilityResponse "2024-02-01" avail booked
    /\ In (mkBookedSlot "14:00" 45) booked
    /\ ~ In "14:00" avail
    /\ ~ In "14:30" avail.
Proof.
  destruct (booked_slot_is_not_available Calendar.parseDateOnly Sample.env
              Sample.doctor (Sample.booking "14:00" 45) Sample.world)
    as [avail [booked [start [H1 [H2 [H3 [H4 H5]]]]]]].
  - vm_compute. reflexivity.
  - reflexivity.
  - discriminate.
  - discriminate.
  - exists avail, booked. split; [exact H1|]. split; [exact H2|].
    split; [exact H3|].
    assert (start = 840) by (vm_compute in H4; congruence). subst start.
    apply (H5 870); [vm_compute; auto 20|simpl; lia|lia].
Defined.

(** The 14:00 slot of the sample doctor is booked, cancelled and asked
    for again. *)
Lemma cancelled_slot_is_offered_but_refused_witness :
  let r1 := postAppointment Calendar.parseDateOnly Sample.env Sample.doctor
              (Sample.booking "14:00" 30) Sample.world in
  let r2 := deleteAppointment Sample.laterEnv Sample.admin
              (freshId Sample.env) (snd r1) in
  let r3 := postAppointment Calendar.parseDateOnly Sample.laterEnv
              Sample.doctor (Sample.booking "14:00" 30) (snd r2) in
  fst (getAvailability Calendar.parseDateOnly (User._id Sample.doctor)
         (Some "2024-02-01") (snd r2))
  = fst (getAvailability Calendar.parseDateOnly (User._id Sample.doctor)
           (Some "2024-02-01") Sample.world)
  /\ fst r3 = internalError
  /\ db (snd r3) = db (snd r2).
Proof.
  cbv zeta.
  destruct (cancelled_slot_is_offered_but_refused Calendar.parseDateOnly
              Sample.env Sample.laterEnv Sample.laterEnv Sample.doctor
              Sample.admin Sample.doctor (Sample.booking "14:00" 30)
              (Sample.booking "14:00" 30) Sample.world)
    as [H1 [H2 H3]].
  - exact sample_indexes_hold.
  - vm_compute. reflexivity.
  - reflexivity.
  - reflexivity.
  - reflexivity.
  - exists Sample.patient. simpl. auto.
  - eexists. split; vm_compute; reflexivity.
  - split; [apply H1|]. split; [exact H2|exact H3].
Defined.

(** The doctor moves the 11:00 appointment to 15:00 with a body that
    names someone else in [updatedBy]. *)
Lemma update_is_stamped_with_the_caller_witness :
  let body := mkAppointmentBody None None None None None (Some "15:00") None
                None None None None None None None None
                (Some (User._id Sample.staff)) (Some (User._id Sample.staff)) in
  exists a,
    fst (putAppointment Calendar.parseDateOnly Sample.laterEnv Sample.doctor
           (Appointment._id Sample.elevenOClock) body Sample.world)
    = mkResponse 200 true (Some "Appointment updated successfully")
        (Some (DataAppointment a))
    /\ Appointment.updatedBy a = Some (User._id Sample.doctor)
    /\ Appointment.createdBy a = User._id Sample.staff
    /\ Appointment.time a = "15:00".
Proof.
  cbv zeta.
  destruct (update_is_stamped_with_the_caller Calendar.parseDateOnly
              Sample.laterEnv Sample.doctor
              (Appointment._id Sample.elevenOClock)
              (mkAppointmentBody None None None None None (Some "15:00") None
                 None None None None None None None None
                 (Some (User._id Sample.staff)) (Some (User._id Sample.staff)))
              Sample.world)
    as [a [H1 [H2 [H3 [H4 H5]]]]].
  - vm_compute. reflexivity.
  - exists a. split; [exact H1|]. split; [exact H3|].
    split; [apply H4; reflexivity|].
    vm_compute in H1. inversion H1. reflexivity.
Defined.

(** The 10:00 appointment of the sample store, on 2024-02-01. *)
Lemma datetime_is_on_the_day_of_the_date_witness :
  timeMinutes (Appointment.time Sample.tenOClock) = Some 600
  /\ Appointment_datetime Sample.tenOClock
     = Some (Calendar.utc 2024 2 1 10 0 0 0).
Proof.
  destruct (datetime_is_on_the_day_of_the_date Sample.tenOClock)
    as [start [H1 [_ [H2 _]]]].
  - vm_compute. reflexivity.
  - split; [vm_compute; reflexivity|].
    rewrite H2. vm_compute in H1. inversion H1. vm_compute. reflexivity.
Defined.

(** The sample store after a booking and a cancellation. *)
Lemma requests_keep_documents_valid_witness :
  let calls :=
    [mkCall Sample.env Sample.doctor
       (PostAppointment (Sample.booking "14:00" 30));
     mkCall Sample.laterEnv Sample.admin
       (DeleteAppointment (Appointment._id Sample.tenOClock))] in
  Forall (fun a => Appointment.validate a = true)
    (appointments (db (serve Calendar.parseDateOnly calls Sample.world)))
  /\ Forall (fun p => Patient.validate p = true)
       (patients (db (serve Calendar.parseDateOnly calls Sample.world))).
Proof.
  cbv zeta.
  destruct (requests_keep_documents_valid Calendar.parseDateOnly
              [mkCall Sample.env Sample.doctor
                 (PostAppointment (Sample.booking "14:00" 30));
               mkCall Sample.laterEnv Sample.admin
                 (DeleteAppointment (Appointment._id Sample.tenOClock))]
              Sample.world)
    as [H1 [H2 _]].
  - exact (sample_well_stored []).
  - split; [exact H1|exact H2].
Defined.

(** The sample patient is deleted and registered again under the same
    email. *)
Lemma deleted_patient_email_is_never_reusable_witness :
  let body :=
    mkPatientBody "John" "Doe" "john.doe@mail.com" "555-0100" "1980-05-17"
      "male"
      (Some (Patient.mkAddress "1 Main St" "Springfield" "IL" "62701"
               "United States"))
      (Some (Patient.mkEmergencyContact "Jane Doe" "spouse" "555-0101" None))
      None None None None None None None None None None in
  let w' := snd (deletePatient Sample.laterEnv (Patient._id Sample.patient)
                   Sample.world) in
  fst (postPatient Calendar.parseDateOnly Sample.laterEnv body w')
  = internalError
  /\ db (snd (postPatient Calendar.parseDateOnly Sample.laterEnv body w'))
     = db w'.
Proof.
  cbv zeta.
  destruct (deleted_patient_email_is_never_reusable Calendar.parseDateOnly
              Sample.laterEnv Sample.laterEnv (Patient._id Sample.patient)
              Sample.world []
              (mkPatientBody "John" "Doe" "john.doe@mail.com" "555-0100"
                 "1980-05-17" "male"
                 (Some (Patient.mkAddress "1 Main St" "Springfield" "IL"
                          "62701" "United States"))
                 (Some (Patient.mkEmergencyContact "Jane Doe" "spouse"
                          "555-0101" None))
                 None None None None None None None None None None)
              Sample.patient
              (Patient.mk (freshId Sample.laterEnv) "John" "Doe"
                 "john.doe@mail.com" "555-0100"
                 (Calendar.utc 1980 5 17 0 0 0 0) "male"
                 (Patient.mkAddress "1 Main St" "Springfield" "IL" "62701"
                    "United States")
                 (Patient.mkEmergencyContact "Jane Doe" "spouse" "555-0101"
                    None)
                 [] [] [] None None None None true None None
                 (now Sample.laterEnv) (now Sample.laterEnv)))
    as [H1 H2].
  - vm_compute. reflexivity.
  - reflexivity.
  - vm_compute. reflexivity.
  - reflexivity.
  - split; [|exact H2].
    destruct H1 as [H1|H1]; [|exact H1].
    vm_compute in H1. discriminate H1.
Defined.

(** The sample doctor is refused the DELETE and deactivates the sample
    patient with a PUT. *)
Lemma put_deactivates_where_delete_is_refused_witness :
  let id := Patient._id Sample.patient in
  let body :=
    mkPatientBody "John" "Doe" "john.doe@mail.com" "555-0100" "2001-03-01"
      "male" None None None None None None None None None (Some false)
      None None in
  route Calendar.parseDateOnly
    (mkCall Sample.env Sample.doctor (DeletePatient id)) Sample.world
  = (failure 403 "Insufficient permissions.", Sample.world)
  /\ statusCode
       (fst (route Calendar.parseDateOnly
               (mkCall Sample.env Sample.doctor (PutPatient id body))
               Sample.world)) = 200
  /\ fst (getPatient id
            (snd (route Calendar.parseDateOnly
                    (mkCall Sample.env Sample.doctor (PutPatient id body))
                    Sample.world)))
     = patientNotFound.
Proof.
  cbv zeta.
  destruct (put_deactivates_where_delete_is_refused Calendar.parseDateOnly
              Sample.env Sample.doctor (Patient._id Sample.patient)
              (mkPatientBody "John" "Doe" "john.doe@mail.com" "555-0100"
                 "2001-03-01" "male" None None None None None None None None
                 None (Some false) None None)
              Sample.world)
    as [H1 H2].
  - left. reflexivity.
  - reflexivity.
  - split; [exact H1|].
    split; [vm_compute; reflexivity|].
    apply H2. vm_compute. reflexivity.
Defined.

(** "tomorrow" is not a date. *)
Lemma unparseable_date_is_an_internal_error_witness :
  getAvailability Calendar.parseDateOnly (User._id Sample.doctor)
    (Some "tomorrow") Sample.world
  = (internalError, Sample.world)
  /\ statusCode
       (fst (postAppointment Calendar.parseDateOnly Sample.env Sample.doctor
               (mkNewAppointmentBody (Patient._id Sample.patient)
                  (User._id Sample.doctor) "checkup" "tomorrow" "14:00" 30
                  "annual checkup" None None None None None None None None
                  None)
               Sample.world)) <> 201.
Proof.
  destruct (unparseable_date_is_an_internal_error Calendar.parseDateOnly
              "tomorrow" Sample.world)
    as [H1 [H2 _]].
  - reflexivity.
  - reflexivity.
  - split; [apply H1|]. apply H2. reflexivity.
Defined.

(** The two appointments of the sample store, one to a page. *)
Lemma walking_the_pages_lists_every_match_witness :
let q := mkAppointmentQuery None (Some "1") None None None None None None
           None in
List.concat
  (map (fun s =>
          listed (fst (getAppointments Calendar.parseDateOnly Some
                         (atPage s q) Sample.world)))
     ["1"; "2"])
= JS.sortBy byDateTime (appointments Sample.store).
Proof.
cbv zeta.
destruct (walking_the_pages_lists_every_match Calendar.parseDateOnly Some
            (mkAppointmentQuery None (Some "1") None None None None None
               None None)
            Sample.world ["1"; "2"]) as [H _].
- vm_compute. reflexivity.
- repeat constructor.
- vm_compute. reflexivity.
- exact H.
Defined.

(** The 10:00 appointment of the sample store is pointed at a patient
    that is not stored. *)
Lemma unknown_patient_breaks_the_activity_feed_witness :
let body :=
  mkAppointmentBody (Some "64c0000000000000000000ff") None None None None
    None None None None None None None None None None None None in
let put :=
  putAppointment Calendar.parseDateOnly Sample.env Sample.admin
    (Appointment._id Sample.tenOClock) body Sample.world in
statusCode (fst put) = 200
/\ fst (getRecentActivity None Sample.world)
   <> mkReply 500 false (Some "Internal server error") None
/\ fst (getRecentActivity None (snd put))
   = mkReply 500 false (Some "Internal server error") None.
Proof.
cbv zeta.
split; [vm_compute; reflexivity|].
split; [vm_compute; discriminate|].
apply (unknown_patient_breaks_the_activity_feed Calendar.parseDateOnly
         Sample.env Sample.admin (Appointment._id Sample.tenOClock)
         (mkAppointmentBody (Some "64c0000000000000000000ff") None None None
            None None None None None None None None None None None None None)
         Sample.world "64c0000000000000000000ff").
- reflexivity.
- vm_compute. reflexivity.
- vm_compute. lia.
- vm_compute. reflexivity.
Defined.

(** The two appointments of 2024-02-01 of the sample store are upcoming
    at 00:00 of that day and no longer at 09:00. *)
Lemma upcoming_skips_the_rest_of_today_witness :
let entries :=
  [mkUpcoming "64d000000000000000000001" "John Doe" "Meredith Grey"
     1706745600000 "10:00" "checkup" "scheduled";
   mkUpcoming "64d000000000000000000002" "John Doe" "Meredith Grey"
     1706745600000 "11:00" "checkup" "confirmed"] in
upcomingAppointments (Calendar.utc 2024 2 1 0 0 0 0) Sample.store
= Some entries
/\ (List.length entries <= 5)%nat
/\ upcomingAppointments (Calendar.utc 2024 2 1 9 0 0 0) Sample.store
   = Some [].
Proof.
cbv zeta.
split; [vm_compute; reflexivity|].
split; [|vm_compute; reflexivity].
apply (upcoming_skips_the_rest_of_today (Calendar.utc 2024 2 1 0 0 0 0)
         Sample.store
         [mkUpcoming "64d000000000000000000001" "John Doe" "Meredith Grey"
            1706745600000 "10:00" "checkup" "scheduled";
          mkUpcoming "64d000000000000000000002" "John Doe" "Meredith Grey"
            1706745600000 "11:00" "checkup" "confirmed"]).
vm_compute. reflexivity.
Defined.

(** The doctor of the sample store asks for the own profile, once with
    the identifier as it is stored and once with its digits in upper
    case. *)
Lemma profile_is_for_owner_or_admin_witness :
replyStatus (fst (getUser Sample.doctor "64b000000000000000000002"
                    Sample.world)) = 200
/\ fst (getUser Sample.doctor "64B000000000000000000002" Sample.world)
   = mkReply 403 false (Some "Access denied") None.
Proof.
split; [vm_compute; reflexivity|].
apply (profile_is_for_owner_or_admin Sample.doctor
         "64B000000000000000000002" Sample.world).
- vm_compute. reflexivity.
- vm_compute. discriminate.
- vm_compute. discriminate.
- vm_compute. auto.
- reflexivity.
Defined.

(** The admin of the sample store sends DELETE /users/:id with the own
    identifier, once as it is stored and once with its digits in upper
    case: the first is refused, the second deactivates the admin. *)
Lemma self_delete_guard_compares_spelling_witness :
let w' := snd (deleteUser Sample.laterEnv Sample.admin
                 "64B000000000000000000001" Sample.world) in
fst (deleteUser Sample.laterEnv Sample.admin "64b000000000000000000001"
       Sample.world)
= failure 400 "Cannot delete your own account"
/\ statusCode (fst (deleteUser Sample.laterEnv Sample.admin
                      "64B000000000000000000001" Sample.world)) = 200
/\ "64B000000000000000000001" <> User._id Sample.admin
/\ map (fun u => (User._id u, User.isActive u)) (users (db w'))
   = [("64b000000000000000000001", false);
      ("64b000000000000000000002", true);
      ("64b000000000000000000003", true)].
Proof.
cbv zeta.
split; [vm_compute; reflexivity|].
split; [vm_compute; reflexivity|].
split; [|vm_compute; reflexivity].
apply (self_delete_guard_compares_spelling Sample.laterEnv Sample.admin
         Sample.world).
- vm_compute. reflexivity.
- vm_compute. reflexivity.
Defined.
